(** * SNEK multiplayer client: transport, lobby and session synchronisation

    A shallow embedding of the client-side synchronisation code of the SNEK
    multiplayer snake game:

    - [WsClient]: the class [WebSocketGameClient] of
      [src/api/websocketClient.js] (connect, reconnect with backoff,
      keepalive, send queue, listener dispatch);
    - [Lobby]: the start control of [components/game/Lobby.jsx];
    - [Game]: the page component [Game] (room update handlers, chat and
      typing merges, render pacer, tick scheduler).

    Part I holds the definitions, Part II the properties. *)

From Stdlib Require Import ZArith QArith Qminmax Qpower Lia Lqa.
From stdpp Require Import base option list gmap strings.

Local Open Scope string_scope.
Local Open Scope list_scope.

(* ===================================================================== *)
(** * Part I: the embedding                                               *)
(* ===================================================================== *)

(** ** Data model shared by the lobby and the page component *)

(** A chat line; the client never inspects it. *)
Definition ChatLine := string.

(** One entry of [room.players].  [isBot] and [ready] may be absent from
    the JSON object, which JavaScript reads as [undefined]. *)
Record Player := {
  id : string;
  name : string;
  isBot : option bool;
  ready : option bool
}.

(** The room object the server sends.  Only the fields the client logic
    reads are spelled out; [board] stands for everything the client merely
    hands to the renderer (snakes, food, power-ups, timer, winner). *)
Record Room := {
  room_code : string;
  status : string;
  host_id : option string;
  players : option (list Player);
  chat : option (list ChatLine);
  gameChat : option (list ChatLine);
  typing : option (list string);
  board : nat
}.

(** [{ ...room, status: s }] *)
Definition with_status (s : string) (r : Room) : Room :=
  {| room_code := room_code r; status := s; host_id := host_id r;
     players := players r; chat := chat r; gameChat := gameChat r;
     typing := typing r; board := board r |}.

(** JavaScript [a || b] on values that are either an object or
    [undefined]/[null]: objects and arrays are always truthy. *)
Definition js_or {A} (a b : option A) : option A :=
  match a with
  | Some x => Some x
  | None => b
  end.

(** Truthiness of an optional string: [undefined], [null] and the empty
    string are falsy. *)
Definition truthy_string (s : option string) : bool :=
  match s with
  | Some x => negb (String.eqb x "")
  | None => false
  end.

(** [v === s] for an optional string [v] and a string [s]. *)
Definition strict_eq (v : option string) (s : string) : bool :=
  match v with
  | Some x => String.eqb x s
  | None => false
  end.

(** [v === true] *)
Definition is_true (v : option bool) : bool :=
  match v with
  | Some true => true
  | _ => false
  end.

(** Truthiness of an optional boolean. *)
Definition truthy_bool (v : option bool) : bool := is_true v.

(* --------------------------------------------------------------------- *)
(** ** websocketClient.js                                                 *)
(* --------------------------------------------------------------------- *)

Module WsClient.

(** [WebSocket.readyState] *)
Inductive ReadyState := CONNECTING | OPEN | CLOSING | CLOSED.

Definition is_OPEN (s : ReadyState) : bool :=
  match s with
  | OPEN => true
  | _ => false
  end.

(** The object [send] builds: [{action, playerId, responseId, ...params}]. *)
Record Message := {
  msg_action : string;
  msg_playerId : option string;
  msg_responseId : string;
  msg_params : string
}.

(** What [ws.send] is given: the literal ['ping'] or a stringified message. *)
Inductive Frame :=
| FText (s : string)
| FJson (m : Message).

(** A [WebSocket] object: its ready state and the frames written to it. *)
Record Socket := {
  readyState : ReadyState;
  sent : list Frame
}.

Inductive Log :=
| ConsoleLog (s : string)
| ConsoleWarn (s : string)
| ConsoleError (s : string).

(** A JavaScript call either returns or throws. *)
Inductive Outcome :=
| Returns
| Throws (err : string).

(** The payload handed to listeners: [undefined] or some value, kept as
    text. *)
Definition Data := option string.

Section Client.

(** Whatever the registered callbacks act on (React state, sounds, ...).
    Callbacks may change it and may throw; they do not re-enter the client
    while an emission is in progress. *)
Variable World : Type.

Definition Listener := Data -> World -> World * Outcome.

(** The fields of [WebSocketGameClient].  [ws] is a reference into
    [sockets], the store of all [WebSocket] objects created so far (their
    handlers stay attached after [this.ws] is overwritten).  A timer field
    holds [Some d] while a timer of period or delay [d] is held in it.
    [timers] lists the delays of the pending [setTimeout(() => connect())]
    calls. *)
Record Client := {
  ws : option nat;
  sockets : list Socket;
  playerId : option string;
  reconnectAttempts : nat;
  maxReconnectAttempts : nat;
  messageQueue : list Message;
  listeners : gmap string (list Listener);
  connected : bool;
  pingInterval : option Z;
  pongTimeout : option Z;
  isProduction : bool;
  world : World;
  console : list Log;
  timers : list Q
}.

(** [new WebSocketGameClient()] *)
Definition constructor (prod : bool) (w : World) : Client :=
  {| ws := None; sockets := []; playerId := None; reconnectAttempts := 0;
     maxReconnectAttempts := 10; messageQueue := [];
     listeners := ∅; connected := false; pingInterval := None;
     pongTimeout := None; isProduction := prod; world := w; console := [];
     timers := [] |}.

(** Field assignments. *)
Definition set_ws (v : option nat) (c : Client) : Client :=
  {| ws := v; sockets := sockets c; playerId := playerId c;
     reconnectAttempts := reconnectAttempts c;
     maxReconnectAttempts := maxReconnectAttempts c;
     messageQueue := messageQueue c; listeners := listeners c;
     connected := connected c; pingInterval := pingInterval c;
     pongTimeout := pongTimeout c; isProduction := isProduction c;
     world := world c; console := console c; timers := timers c |}.

Definition set_sockets (v : list Socket) (c : Client) : Client :=
  {| ws := ws c; sockets := v; playerId := playerId c;
     reconnectAttempts := reconnectAttempts c;
     maxReconnectAttempts := maxReconnectAttempts c;
     messageQueue := messageQueue c; listeners := listeners c;
     connected := connected c; pingInterval := pingInterval c;
     pongTimeout := pongTimeout c; isProduction := isProduction c;
     world := world c; console := console c; timers := timers c |}.

Definition set_playerId (v : option string) (c : Client) : Client :=
  {| ws := ws c; sockets := sockets c; playerId := v;
     reconnectAttempts := reconnectAttempts c;
     maxReconnectAttempts := maxReconnectAttempts c;
     messageQueue := messageQueue c; listeners := listeners c;
     connected := connected c; pingInterval := pingInterval c;
     pongTimeout := pongTimeout c; isProduction := isProduction c;
     world := world c; console := console c; timers := timers c |}.

Definition set_reconnectAttempts (v : nat) (c : Client) : Client :=
  {| ws := ws c; sockets := sockets c; playerId := playerId c;
     reconnectAttempts := v;
     maxReconnectAttempts := maxReconnectAttempts c;
     messageQueue := messageQueue c; listeners := listeners c;
     connected := connected c; pingInterval := pingInterval c;
     pongTimeout := pongTimeout c; isProduction := isProduction c;
     world := world c; console := console c; timers := timers c |}.

Definition set_messageQueue (v : list Message) (c : Client) : Client :=
  {| ws := ws c; sockets := sockets c; playerId := playerId c;
     reconnectAttempts := reconnectAttempts c;
     maxReconnectAttempts := maxReconnectAttempts c;
     messageQueue := v; listeners := listeners c;
     connected := connected c; pingInterval := pingInterval c;
     pongTimeout := pongTimeout c; isProduction := isProduction c;
     world := world c; console := console c; timers := timers c |}.

Definition set_connected (v : bool) (c : Client) : Client :=
  {| ws := ws c; sockets := sockets c; playerId := playerId c;
     reconnectAttempts := reconnectAttempts c;
     maxReconnectAttempts := maxReconnectAttempts c;
     messageQueue := messageQueue c; listeners := listeners c;
     connected := v; pingInterval := pingInterval c;
     pongTimeout := pongTimeout c; isProduction := isProduction c;
     world := world c; console := console c; timers := timers c |}.

Definition set_pingInterval (v : option Z) (c : Client) : Client :=
  {| ws := ws c; sockets := sockets c; playerId := playerId c;
     reconnectAttempts := reconnectAttempts c;
     maxReconnectAttempts := maxReconnectAttempts c;
     messageQueue := messageQueue c; listeners := listeners c;
     connected := connected c; pingInterval := v;
     pongTimeout := pongTimeout c; isProduction := isProduction c;
     world := world c; console := console c; timers := timers c |}.

Definition set_pongTimeout (v : option Z) (c : Client) : Client :=
  {| ws := ws c; sockets := sockets c; playerId := playerId c;
     reconnectAttempts := reconnectAttempts c;
     maxReconnectAttempts := maxReconnectAttempts c;
     messageQueue := messageQueue c; listeners := listeners c;
     connected := connected c; pingInterval := pingInterval c;
     pongTimeout := v; isProduction := isProduction c;
     world := world c; console := console c; timers := timers c |}.

Definition set_world (v : World) (c : Client) : Client :=
  {| ws := ws c; sockets := sockets c; playerId := playerId c;
     reconnectAttempts := reconnectAttempts c;
     maxReconnectAttempts := maxReconnectAttempts c;
     messageQueue := messageQueue c; listeners := listeners c;
     connected := connected c; pingInterval := pingInterval c;
     pongTimeout := pongTimeout c; isProduction := isProduction c;
     world := v; console := console c; timers := timers c |}.

Definition set_console (v : list Log) (c : Client) : Client :=
  {| ws := ws c; sockets := sockets c; playerId := playerId c;
     reconnectAttempts := reconnectAttempts c;
     maxReconnectAttempts := maxReconnectAttempts c;
     messageQueue := messageQueue c; listeners := listeners c;
     connected := connected c; pingInterval := pingInterval c;
     pongTimeout := pongTimeout c; isProduction := isProduction c;
     world := world c; console := v; timers := timers c |}.

Definition set_timers (v : list Q) (c : Client) : Client :=
  {| ws := ws c; sockets := sockets c; playerId := playerId c;
     reconnectAttempts := reconnectAttempts c;
     maxReconnectAttempts := maxReconnectAttempts c;
     messageQueue := messageQueue c; listeners := listeners c;
     connected := connected c; pingInterval := pingInterval c;
     pongTimeout := pongTimeout c; isProduction := isProduction c;
     world := world c; console := console c; timers := v |}.

Definition set_listeners (v : gmap string (list Listener)) (c : Client) : Client :=
  {| ws := ws c; sockets := sockets c; playerId := playerId c;
     reconnectAttempts := reconnectAttempts c;
     maxReconnectAttempts := maxReconnectAttempts c;
     messageQueue := messageQueue c; listeners := v;
     connected := connected c; pingInterval := pingInterval c;
     pongTimeout := pongTimeout c; isProduction := isProduction c;
     world := world c; console := console c; timers := timers c |}.

Definition log (l : Log) (c : Client) : Client :=
  set_console (console c ++ [l]) c.

(** *** Listener registry and dispatch *)

(** [on(event, callback)] *)
Definition on (event : string) (cb : Listener) (c : Client) : Client :=
  let callbacks := default [] (listeners c !! event) in
  set_listeners (<[event := callbacks ++ [cb]]> (listeners c)) c.

(** [Array.prototype.forEach]: the callbacks run in index order and the
    loop is abandoned at the first one that throws. *)
Fixpoint forEach {S E : Type} (f : E -> S -> S * Outcome) (l : list E) (s : S)
  : S * Outcome :=
  match l with
  | [] => (s, Returns)
  | x :: rest =>
      match f x s with
      | (s', Returns) => forEach f rest s'
      | (s', Throws err) => (s', Throws err)
      end
  end.

(** The arrow function handed to [forEach] in [emit]:
    [try { callback(data) } catch (error) { console.error(...) }]. *)
Definition guarded (event : string) (data : Data) (cb : Listener)
  (s : World * list Log) : (World * list Log) * Outcome :=
  match cb data (fst s) with
  | (w', Returns) => ((w', snd s), Returns)
  | (w', Throws err) =>
      ((w', snd s ++ [ConsoleError ("[WebSocket] Error in " +:+ event +:+ " listener: " +:+ err)]),
       Returns)
  end.

(** [emit(event, data)] *)
Definition emit (event : string) (data : Data) (c : Client) : Client * Outcome :=
  match listeners c !! event with
  | Some callbacks =>
      let '(s, o) := forEach (guarded event data) callbacks (world c, console c) in
      (set_console (snd s) (set_world (fst s) c), o)
  | None => (c, Returns)
  end.

(** *** Sockets *)

(** [this.ws?.readyState === WebSocket.OPEN] *)
Definition ws_is_open (c : Client) : bool :=
  match ws c with
  | Some i =>
      match sockets c !! i with
      | Some s => is_OPEN (readyState s)
      | None => false
      end
  | None => false
  end.

Definition write (f : Frame) (s : Socket) : Socket :=
  {| readyState := readyState s; sent := sent s ++ [f] |}.

Definition set_readyState (r : ReadyState) (s : Socket) : Socket :=
  {| readyState := r; sent := sent s |}.

(** [this.ws.send(f)], called by the client on an open socket only. *)
Definition ws_send (f : Frame) (c : Client) : Client :=
  match ws c with
  | Some i => set_sockets (alter (write f) i (sockets c)) c
  | None => c
  end.

(** [this.ws.close()]: the socket starts closing; its close event comes
    later. *)
Definition ws_close (c : Client) : Client :=
  match ws c with
  | Some i => set_sockets (alter (set_readyState CLOSING) i (sockets c)) c
  | None => c
  end.

(** [connect()]: a fresh socket replaces [this.ws] and a new player id is
    drawn; [ctorThrows] says that [new WebSocket(url)] threw. *)
Definition connect (newId : string) (ctorThrows : bool) (c : Client) : Client :=
  if ctorThrows then
    fst (emit "error" (Some "error")
           (log (ConsoleError "[WebSocket] Connection error:") c))
  else
    set_playerId (Some newId)
      (set_ws (Some (length (sockets c)))
         (set_sockets (sockets c ++ [{| readyState := CONNECTING; sent := [] |}]) c)).

(** *** Reconnection *)

Definition baseDelay (prod : bool) : Q := if prod then 2000 else 1000.

(** [baseDelay * Math.pow(1.5, attempts - 1)] *)
Definition exponential (prod : bool) (attempts : nat) : Q :=
  baseDelay prod * (3 # 2) ^ Z.of_nat (attempts - 1).

(** [Math.min(baseDelay * Math.pow(1.5, attempts - 1) + Math.random() * 1000, 10000)]
    with [rnd] the value of [Math.random()].  The source computes in
    IEEE doubles, here the arithmetic is exact: the two agree up to
    rounding, which is monotone, exact on the values of the exponential
    part below the clamp, and far below a millisecond.  What is proved
    about delays is therefore kept to non-strict comparisons and to
    differences of whole milliseconds, which rounding preserves. *)
Definition backoff (prod : bool) (attempts : nat) (rnd : Q) : Q :=
  Qmin (exponential prod attempts + rnd * 1000) 10000.

(** [attemptReconnect()] *)
Definition attemptReconnect (rnd : Q) (c : Client) : Client :=
  if (reconnectAttempts c <? maxReconnectAttempts c)%nat then
    let c1 := set_reconnectAttempts (S (reconnectAttempts c)) c in
    let c2 := log (ConsoleLog "[WebSocket] Reconnecting...") c1 in
    let delay := backoff (isProduction c2) (reconnectAttempts c2) rnd in
    set_timers (timers c2 ++ [delay]) c2
  else
    fst (emit "reconnectFailed" None
           (log (ConsoleError "[WebSocket] Max reconnection attempts reached") c)).

(** A pending reconnect timer fires: [() => { this.connect() }]. *)
Definition reconnectTimerFires (newId : string) (ctorThrows : bool) (c : Client) : Client :=
  match timers c with
  | [] => c
  | _ :: rest => connect newId ctorThrows (set_timers rest c)
  end.

(** *** Keepalive *)

(** [stopKeepAlive()] *)
Definition stopKeepAlive (c : Client) : Client :=
  set_pongTimeout None (set_pingInterval None c).

(** [startKeepAlive()] *)
Definition startKeepAlive (c : Client) : Client :=
  if isProduction c then set_pingInterval (Some 30000%Z) (stopKeepAlive c)
  else c.

(** The [setInterval] callback of [startKeepAlive]. *)
Definition pingTick (c : Client) : Client :=
  match pingInterval c with
  | Some _ =>
      if ws_is_open c then set_pongTimeout (Some 5000%Z) (ws_send (FText "ping") c)
      else c
  | None => c
  end.

(** The [setTimeout] callback armed by a ping. *)
Definition pongTimeoutFires (c : Client) : Client :=
  match pongTimeout c with
  | Some _ => ws_close (log (ConsoleWarn "[WebSocket] Pong timeout, reconnecting...") c)
  | None => c
  end.

(** [ws.onmessage] for the frame ['pong']. *)
Definition onPong (c : Client) : Client := set_pongTimeout None c.

(** *** Sending *)

(** [send(action, params, responseId)]; [genId] is the value of the
    template [`${action}_${Date.now()}_${Math.random()}`]. *)
Definition build_message (action params : string) (responseId : option string)
  (genId : string) (c : Client) : Message :=
  {| msg_action := action; msg_playerId := playerId c;
     msg_responseId := if truthy_string responseId then default genId responseId else genId;
     msg_params := params |}.

Definition send (action params : string) (responseId : option string)
  (genId newId : string) (ctorThrows : bool) (c : Client) : Client * string :=
  let message := build_message action params responseId genId c in
  if connected c && ws_is_open c then
    (ws_send (FJson message) c, msg_responseId message)
  else
    let c1 := set_messageQueue (messageQueue c ++ [message]) c in
    let c2 := if negb (connected c1) then connect newId ctorThrows c1 else c1 in
    (c2, msg_responseId message).

(** The [while] loop of [flushMessageQueue()], by recursion on the queue
    that is left: each round shifts the head off the queue and writes it
    only when the current socket is open. *)
Fixpoint flushLoop (queue : list Message) (c : Client) : Client :=
  match queue with
  | [] => set_messageQueue [] c
  | message :: rest =>
      if connected c then
        let c1 := set_messageQueue rest c in
        let c2 := if ws_is_open c1 then ws_send (FJson message) c1 else c1 in
        flushLoop rest c2
      else set_messageQueue queue c
  end.

Definition flushMessageQueue (c : Client) : Client :=
  flushLoop (messageQueue c) c.

(** *** Socket events *)

(** [ws.onopen] *)
Definition onopen (c : Client) : Client :=
  let c1 := set_connected true c in
  let c2 := set_reconnectAttempts 0 c1 in
  let c3 := flushMessageQueue c2 in
  let c4 := fst (emit "connected" None c3) in
  startKeepAlive c4.

(** [ws.onclose] *)
Definition onclose (rnd : Q) (c : Client) : Client :=
  let c1 := log (ConsoleLog "[WebSocket] Disconnected") c in
  let c2 := set_connected false c1 in
  let c3 := stopKeepAlive c2 in
  let c4 := fst (emit "disconnected" None c3) in
  attemptReconnect rnd c4.

(** The browser opens socket [i] and runs the [onopen] handler attached to
    it. *)
Definition socketOpens (i : nat) (c : Client) : Client :=
  onopen (set_sockets (alter (set_readyState OPEN) i (sockets c)) c).

(** The browser closes socket [i] and runs its [onclose] handler. *)
Definition socketCloses (i : nat) (rnd : Q) (c : Client) : Client :=
  onclose rnd (set_sockets (alter (set_readyState CLOSED) i (sockets c)) c).

(** Frames written so far to the socket numbered [i]. *)
Definition written (i : nat) (c : Client) : list Frame :=
  match sockets c !! i with
  | Some s => sent s
  | None => []
  end.

(** Every frame written to any socket. *)
Definition all_written (c : Client) : list Frame :=
  concat (map sent (sockets c)).

(** *** Observations used in the statements *)

(** The world after every callback of [callbacks] has been called once, in
    registration order. *)
Definition invokeAll (data : Data) (callbacks : list Listener) (w : World) : World :=
  foldl (fun w' cb => fst (cb data w')) w callbacks.

(** The console lines for the callbacks of [callbacks] that throw when they
    are all called in order from [w]. *)
Fixpoint failures (event : string) (data : Data) (callbacks : list Listener)
  (w : World) : list Log :=
  match callbacks with
  | [] => []
  | cb :: rest =>
      match cb data w with
      | (w', Returns) => failures event data rest w'
      | (w', Throws err) =>
          ConsoleError ("[WebSocket] Error in " +:+ event +:+ " listener: " +:+ err)
          :: failures event data rest w'
      end
  end.

(** [c'] differs from [c] at most in what was written to the sockets and
    in the queue. *)
Definition same_session (c c' : Client) : Prop :=
  ws c' = ws c ∧ playerId c' = playerId c
  ∧ reconnectAttempts c' = reconnectAttempts c
  ∧ maxReconnectAttempts c' = maxReconnectAttempts c
  ∧ listeners c' = listeners c ∧ connected c' = connected c
  ∧ pingInterval c' = pingInterval c ∧ pongTimeout c' = pongTimeout c
  ∧ isProduction c' = isProduction c ∧ world c' = world c
  ∧ console c' = console c ∧ timers c' = timers c.

(** The listeners of the terminal signal ['reconnectFailed'], run once. *)
Definition failed_signal (c : Client) (w : World) : World :=
  invokeAll None (default [] (listeners c !! "reconnectFailed")) w.

(** The calls [attemptReconnect] receives when every reconnect fails, one
    per entry of [rnds], with no successful open in between.  The connects
    and close events in between touch neither the count nor the listeners
    and are left out, so that [timers] accumulates the delays scheduled
    during the run. *)
Definition reconnects (rnds : list Q) (c : Client) : Client :=
  foldl (fun c' r => attemptReconnect r c') c rnds.

(** The delays the first attempts are scheduled with: attempt [k + 1] draws
    the [k]-th random number. *)
Definition delays (prod : bool) (rnds : list Q) : list Q :=
  imap (fun k r => backoff prod (S k) r) rnds.

End Client.

Arguments invokeAll {World}.
Arguments failures {World}.
Arguments reconnects {World}.
Arguments failed_signal {World}.
Arguments same_session {World}.
Arguments ws {World}.
Arguments sockets {World}.
Arguments playerId {World}.
Arguments reconnectAttempts {World}.
Arguments maxReconnectAttempts {World}.
Arguments messageQueue {World}.
Arguments listeners {World}.
Arguments connected {World}.
Arguments pingInterval {World}.
Arguments pongTimeout {World}.
Arguments isProduction {World}.
Arguments world {World}.
Arguments console {World}.
Arguments timers {World}.
Arguments constructor {World}.
Arguments set_ws {World}.
Arguments set_sockets {World}.
Arguments set_playerId {World}.
Arguments set_pingInterval {World}.
Arguments set_pongTimeout {World}.
Arguments set_timers {World}.
Arguments set_listeners {World}.
Arguments set_world {World}.
Arguments set_console {World}.
Arguments set_connected {World}.
Arguments set_messageQueue {World}.
Arguments set_reconnectAttempts {World}.
Arguments log {World}.
Arguments on {World}.
Arguments guarded {World}.
Arguments emit {World}.
Arguments ws_is_open {World}.
Arguments ws_send {World}.
Arguments ws_close {World}.
Arguments connect {World}.
Arguments attemptReconnect {World}.
Arguments reconnectTimerFires {World}.
Arguments stopKeepAlive {World}.
Arguments startKeepAlive {World}.
Arguments pingTick {World}.
Arguments pongTimeoutFires {World}.
Arguments onPong {World}.
Arguments build_message {World}.
Arguments send {World}.
Arguments flushLoop {World}.
Arguments flushMessageQueue {World}.
Arguments onopen {World}.
Arguments onclose {World}.
Arguments socketOpens {World}.
Arguments socketCloses {World}.
Arguments written {World}.
Arguments all_written {World}.

End WsClient.

(* --------------------------------------------------------------------- *)
(** ** components/game/Lobby.jsx                                          *)
(* --------------------------------------------------------------------- *)

Module Lobby.

(** What a click on the start control can cause. *)
Inductive Effect :=
| OnStart
| ConsoleWarn (s : string)
| ConsoleLog (s : string)
| ConsoleError (s : string).

(** [room?.host_id] *)
Definition host_of (room : option Room) : option string := room ≫= host_id.

(** [room?.players] *)
Definition players_of (room : option Room) : option (list Player) := room ≫= players.

(** [const isHost = room?.host_id === playerId] *)
Definition isHost (room : option Room) (playerId : string) : bool :=
  strict_eq (host_of room) playerId.

(** [const canStart = room?.players?.length >= 2] *)
Definition canStart (room : option Room) : bool :=
  match players_of room with
  | Some ps => (2 <=? length ps)%nat
  | None => false
  end.

(** [p => !p.isBot && p.id !== room?.host_id] *)
Definition isGuest (room : option Room) (p : Player) : bool :=
  negb (truthy_bool (isBot p)) && negb (strict_eq (host_of room) (id p)).

(** [room?.players?.filter(...) || []] *)
Definition guestPlayers (room : option Room) : list Player :=
  match players_of room with
  | Some ps => List.filter (isGuest room) ps
  | None => []
  end.

(** [guestPlayers.length === 0 || guestPlayers.every(p => p.ready === true)] *)
Definition allReady (room : option Room) : bool :=
  (length (guestPlayers room) =? 0)%nat
  || forallb (fun p => is_true (ready p)) (guestPlayers room).

(** The control rendered at the bottom of the lobby: the start button for
    the host, the ready toggle for everybody else. *)
Inductive Control :=
| StartButton (disabled : bool)
| ReadyButton.

Definition control (room : option Room) (playerId : string) : Control :=
  if isHost room playerId
  then StartButton (negb (canStart room) || negb (allReady room))
  else ReadyButton.

(** The [onClick] handler of the start button; [onStart] tells whether the
    parent passed a handler. *)
Definition onClick (room : option Room) (onStart : bool) : list Effect :=
  if negb (canStart room) || negb (allReady room) then
    [ConsoleWarn "[Lobby] Start button clicked but conditions not met"]
  else
    ConsoleLog "[Lobby] Start button clicked - starting game"
    :: (if onStart then [OnStart]
        else [ConsoleError "[Lobby] onStart handler is not provided!"]).

(** A click on the start control.  The handler is run whenever the button
    is rendered, also when the button is marked disabled. *)
Definition clickStart (room : option Room) (playerId : string) (onStart : bool)
  : list Effect :=
  match control room playerId with
  | StartButton _ => onClick room onStart
  | ReadyButton => []
  end.

Definition starts (effects : list Effect) : bool :=
  existsb (fun e => match e with OnStart => true | _ => false end) effects.

End Lobby.

(* --------------------------------------------------------------------- *)
(** ** The page component [Game]                                          *)
(* --------------------------------------------------------------------- *)

Module Game.

(** [const TICK_RATE = isProduction ? 200 : 150] *)
Definition TICK_RATE (isProduction : bool) : Z :=
  if isProduction then 200 else 150.

Record Direction := { dir_x : Z; dir_y : Z }.

Inductive Channel :=
| ViaWebSocket   (* wsClient.send *)
| ViaCallServer. (* callServer, the request-style fallback *)

(** What a handler does to the outside: a request to the server or a
    sound cue. *)
Inductive Output :=
| Request (via : Channel) (action : string) (roomCode : string)
    (direction : option Direction)
| Sound (cue : string).

(** The payload of a [gameUpdate] broadcast. *)
Record Update := {
  u_room : option Room;
  foodEaten : bool;
  powerUpCollected : bool;
  eliminated : option (list string)
}.

(** React state ([room], [displayRoom], [countdown], [fps]) and the refs
    of the component.  [countdownIntervalRef] holds the local [count] of
    the running countdown interval. *)
Record State := {
  room : option Room;
  displayRoom : option Room;
  countdown : option Z;
  fps : Z;
  lastTickRef : Z;
  directionQueueRef : option Direction;
  countdownIntervalRef : option Z;
  isInWaitingLobbyRef : bool;
  pendingRoomUpdateRef : option Room;
  lastUpdateTimeRef : Q
}.

Definition initial : State :=
  {| room := None; displayRoom := None; countdown := None; fps := 0;
     lastTickRef := 0; directionQueueRef := None;
     countdownIntervalRef := None; isInWaitingLobbyRef := false;
     pendingRoomUpdateRef := None; lastUpdateTimeRef := 0 |}.

Definition setRoom (v : option Room) (s : State) : State :=
  {| room := v; displayRoom := displayRoom s; countdown := countdown s;
     fps := fps s; lastTickRef := lastTickRef s;
     directionQueueRef := directionQueueRef s;
     countdownIntervalRef := countdownIntervalRef s;
     isInWaitingLobbyRef := isInWaitingLobbyRef s;
     pendingRoomUpdateRef := pendingRoomUpdateRef s;
     lastUpdateTimeRef := lastUpdateTimeRef s |}.

Definition setDisplayRoom (v : option Room) (s : State) : State :=
  {| room := room s; displayRoom := v; countdown := countdown s;
     fps := fps s; lastTickRef := lastTickRef s;
     directionQueueRef := directionQueueRef s;
     countdownIntervalRef := countdownIntervalRef s;
     isInWaitingLobbyRef := isInWaitingLobbyRef s;
     pendingRoomUpdateRef := pendingRoomUpdateRef s;
     lastUpdateTimeRef := lastUpdateTimeRef s |}.

Definition setCountdown (v : option Z) (s : State) : State :=
  {| room := room s; displayRoom := displayRoom s; countdown := v;
     fps := fps s; lastTickRef := lastTickRef s;
     directionQueueRef := directionQueueRef s;
     countdownIntervalRef := countdownIntervalRef s;
     isInWaitingLobbyRef := isInWaitingLobbyRef s;
     pendingRoomUpdateRef := pendingRoomUpdateRef s;
     lastUpdateTimeRef := lastUpdateTimeRef s |}.

Definition setFps (v : Z) (s : State) : State :=
  {| room := room s; displayRoom := displayRoom s; countdown := countdown s;
     fps := v; lastTickRef := lastTickRef s;
     directionQueueRef := directionQueueRef s;
     countdownIntervalRef := countdownIntervalRef s;
     isInWaitingLobbyRef := isInWaitingLobbyRef s;
     pendingRoomUpdateRef := pendingRoomUpdateRef s;
     lastUpdateTimeRef := lastUpdateTimeRef s |}.

Definition set_lastTickRef (v : Z) (s : State) : State :=
  {| room := room s; displayRoom := displayRoom s; countdown := countdown s;
     fps := fps s; lastTickRef := v;
     directionQueueRef := directionQueueRef s;
     countdownIntervalRef := countdownIntervalRef s;
     isInWaitingLobbyRef := isInWaitingLobbyRef s;
     pendingRoomUpdateRef := pendingRoomUpdateRef s;
     lastUpdateTimeRef := lastUpdateTimeRef s |}.

Definition set_directionQueueRef (v : option Direction) (s : State) : State :=
  {| room := room s; displayRoom := displayRoom s; countdown := countdown s;
     fps := fps s; lastTickRef := lastTickRef s;
     directionQueueRef := v;
     countdownIntervalRef := countdownIntervalRef s;
     isInWaitingLobbyRef := isInWaitingLobbyRef s;
     pendingRoomUpdateRef := pendingRoomUpdateRef s;
     lastUpdateTimeRef := lastUpdateTimeRef s |}.

Definition set_countdownIntervalRef (v : option Z) (s : State) : State :=
  {| room := room s; displayRoom := displayRoom s; countdown := countdown s;
     fps := fps s; lastTickRef := lastTickRef s;
     directionQueueRef := directionQueueRef s;
     countdownIntervalRef := v;
     isInWaitingLobbyRef := isInWaitingLobbyRef s;
     pendingRoomUpdateRef := pendingRoomUpdateRef s;
     lastUpdateTimeRef := lastUpdateTimeRef s |}.

Definition set_isInWaitingLobbyRef (v : bool) (s : State) : State :=
  {| room := room s; displayRoom := displayRoom s; countdown := countdown s;
     fps := fps s; lastTickRef := lastTickRef s;
     directionQueueRef := directionQueueRef s;
     countdownIntervalRef := countdownIntervalRef s;
     isInWaitingLobbyRef := v;
     pendingRoomUpdateRef := pendingRoomUpdateRef s;
     lastUpdateTimeRef := lastUpdateTimeRef s |}.

Definition set_pendingRoomUpdateRef (v : option Room) (s : State) : State :=
  {| room := room s; displayRoom := displayRoom s; countdown := countdown s;
     fps := fps s; lastTickRef := lastTickRef s;
     directionQueueRef := directionQueueRef s;
     countdownIntervalRef := countdownIntervalRef s;
     isInWaitingLobbyRef := isInWaitingLobbyRef s;
     pendingRoomUpdateRef := v;
     lastUpdateTimeRef := lastUpdateTimeRef s |}.

Definition set_lastUpdateTimeRef (v : Q) (s : State) : State :=
  {| room := room s; displayRoom := displayRoom s; countdown := countdown s;
     fps := fps s; lastTickRef := lastTickRef s;
     directionQueueRef := directionQueueRef s;
     countdownIntervalRef := countdownIntervalRef s;
     isInWaitingLobbyRef := isInWaitingLobbyRef s;
     pendingRoomUpdateRef := pendingRoomUpdateRef s;
     lastUpdateTimeRef := v |}.

(** The values of [room], [displayRoom] and [countdown] a callback closed
    over: those of the render in which the callback was created. *)
Record Closure := {
  cl_room : option Room;
  cl_displayRoom : option Room;
  cl_countdown : option Z
}.

(** The closure of a callback created in the render that shows [s]. *)
Definition capture (s : State) : Closure :=
  {| cl_room := room s; cl_displayRoom := displayRoom s;
     cl_countdown := countdown s |}.

(** *** Render pacer *)

(** [setRoomWithInterpolation(nextRoom)]; [now] is [performance.now()]. *)
Definition setRoomWithInterpolation (now : Q) (nextRoom : Room) (s : State) : State :=
  let s1 := setRoom (Some nextRoom) s in
  if Qle_bool 16 (now - lastUpdateTimeRef s1) then
    set_pendingRoomUpdateRef None
      (set_lastUpdateTimeRef now (setDisplayRoom (Some nextRoom) s1))
  else
    set_pendingRoomUpdateRef (Some nextRoom) s1.

(** The variables local to the render-loop effect. *)
Record RenderLocals := {
  frameCount : Z;
  lastFpsUpdate : Q;
  lastPendingUpdateCheck : Q
}.

(** The render-loop effect, run when [room?.status] changes: the locals of
    a newly started loop, or nothing and [setFps(0)]. *)
Definition renderEffect (now : Q) (s : State) : option RenderLocals * State :=
  if strict_eq (status <$> room s) "playing" then
    (Some {| frameCount := 0; lastFpsUpdate := now; lastPendingUpdateCheck := 0 |}, s)
  else (None, setFps 0 s).

(** One call of [renderLoop(currentTime)] by [requestAnimationFrame]. *)
Definition renderLoop (currentTime : Q) (l : RenderLocals) (s : State)
  : RenderLocals * State :=
  let frames := (frameCount l + 1)%Z in
  let '(check, s1) :=
    match pendingRoomUpdateRef s with
    | Some pending =>
        if Qle_bool 16 (currentTime - lastPendingUpdateCheck l) then
          (currentTime,
           set_pendingRoomUpdateRef None
             (set_lastUpdateTimeRef currentTime
                (setDisplayRoom (Some pending) s)))
        else (lastPendingUpdateCheck l, s)
    | None => (lastPendingUpdateCheck l, s)
    end in
  if Qle_bool 1000 (currentTime - lastFpsUpdate l) then
    ({| frameCount := 0; lastFpsUpdate := currentTime;
        lastPendingUpdateCheck := check |}, setFps frames s1)
  else
    ({| frameCount := frames; lastFpsUpdate := lastFpsUpdate l;
        lastPendingUpdateCheck := check |}, s1).

(** *** Handlers of the WebSocket effect *)

(** [handleRoomUpdate(updatedRoom)] *)
Definition handleRoomUpdate (now : Q) (updatedRoom : option Room) (s : State)
  : State * list Output :=
  match updatedRoom with
  | Some r =>
      if isInWaitingLobbyRef s then
        if String.eqb (status r) "waiting" then (setRoom (Some r) s, [])
        else (s, [])
      else (setRoomWithInterpolation now r s, [])
  | None => (s, [])
  end.

(** [handleGameUpdate(update)] *)
Definition handleGameUpdate (now : Q) (update : Update) (s : State)
  : State * list Output :=
  match u_room update with
  | Some r =>
      if isInWaitingLobbyRef s then (s, [])
      else
        (setRoomWithInterpolation now r s,
         (if foodEaten update then [Sound "eat"] else [])
         ++ (if powerUpCollected update then [Sound "powerUp"] else [])
         ++ (match eliminated update with
             | Some (_ :: _) => [Sound "death"]
             | _ => []
             end)
         ++ (if String.eqb (status r) "ended" then [Sound "win"] else []))
  | None => (s, [])
  end.

(** [handleGameStart(updatedRoom)] *)
Definition handleGameStart (cl : Closure) (now : Q) (updatedRoom : option Room)
  (s : State) : State * list Output :=
  match updatedRoom with
  | Some r =>
      let s1 := set_isInWaitingLobbyRef false s in
      let s2 := setRoomWithInterpolation now (with_status "playing" r) s1 in
      match cl_countdown cl with
      | Some c =>
          if (c <=? 0)%Z
          then (set_countdownIntervalRef (Some 5%Z) (setCountdown (Some 5%Z) s2), [])
          else (s2, [])
      | None => (set_countdownIntervalRef (Some 5%Z) (setCountdown (Some 5%Z) s2), [])
      end
  | None => (s, [])
  end.

(** The countdown [setInterval] callback: [count--; setCountdown(count)]
    and, once [count <= 0], the interval is cleared, [setCountdown(null)]
    follows in the same call and the start cue plays. *)
Definition countdownTick (s : State) : State * list Output :=
  match countdownIntervalRef s with
  | Some count =>
      let count' := (count - 1)%Z in
      if (count' <=? 0)%Z then
        (setCountdown None (set_countdownIntervalRef None (setCountdown (Some count') s)),
         [Sound "start"])
      else
        (set_countdownIntervalRef (Some count') (setCountdown (Some count') s), [])
  | None => (s, [])
  end.

(** [{ ...r, chat: c, gameChat: g, typing: t }] *)
Definition with_chat (c g : option (list ChatLine)) (t : option (list string))
  (r : Room) : Room :=
  {| room_code := room_code r; status := status r; host_id := host_id r;
     players := players r; chat := c; gameChat := g; typing := t;
     board := board r |}.

(** [{ ...r, typing: t }] *)
Definition with_typing (t : option (list string)) (r : Room) : Room :=
  {| room_code := room_code r; status := status r; host_id := host_id r;
     players := players r; chat := chat r; gameChat := gameChat r;
     typing := t; board := board r |}.

(** [handleChatMessage(updatedRoom)]; [room] and [displayRoom] are the ones
    of the closure. *)
Definition handleChatMessage (cl : Closure) (updatedRoom : option Room) (s : State)
  : State :=
  match updatedRoom, cl_room cl with
  | Some u, Some room =>
      let updatedRoomWithPreservedStatus :=
        with_chat (js_or (chat u) (chat room))
                  (js_or (gameChat u) (gameChat room))
                  (js_or (typing u) (typing room)) room in
      if String.eqb (status updatedRoomWithPreservedStatus) (status room) then
        let s1 := setRoom (Some updatedRoomWithPreservedStatus) s in
        match cl_displayRoom cl with
        | Some displayRoom =>
            setDisplayRoom
              (Some (with_chat (chat updatedRoomWithPreservedStatus)
                               (gameChat updatedRoomWithPreservedStatus)
                               (typing updatedRoomWithPreservedStatus)
                               displayRoom)) s1
        | None => s1
        end
      else s
  | _, _ => s
  end.

(** [handleTypingUpdate(updatedRoom)] *)
Definition handleTypingUpdate (cl : Closure) (updatedRoom : option Room) (s : State)
  : State :=
  match updatedRoom, cl_room cl with
  | Some u, Some room =>
      let updatedRoomWithPreservedStatus :=
        with_typing (js_or (typing u) (typing room)) room in
      if String.eqb (status updatedRoomWithPreservedStatus) (status room) then
        let s1 := setRoom (Some updatedRoomWithPreservedStatus) s in
        match cl_displayRoom cl with
        | Some displayRoom =>
            setDisplayRoom
              (Some (with_typing (typing updatedRoomWithPreservedStatus) displayRoom)) s1
        | None => s1
        end
      else s
  | _, _ => s
  end.

(** The synchronous part of [handlePlayAgain], up to the first [await]. *)
Definition handlePlayAgain (s : State) : State :=
  match room s with
  | Some _ =>
      set_isInWaitingLobbyRef true
        (setCountdown None (set_countdownIntervalRef None s))
  | None => s
  end.

(** *** The WebSocket effect and its dependency list *)

Inductive Event :=
| RoomUpdate (r : option Room)
| GameUpdate (u : Update)
| GameStart (r : option Room)
| ChatMessage (r : option Room)
| TypingUpdate (r : option Room).

(** The handler registered for each broadcast. *)
Definition handle (cl : Closure) (now : Q) (ev : Event) (s : State)
  : State * list Output :=
  match ev with
  | RoomUpdate r => handleRoomUpdate now r s
  | GameUpdate u => handleGameUpdate now u s
  | GameStart r => handleGameStart cl now r s
  | ChatMessage r => (handleChatMessage cl r s, [])
  | TypingUpdate r => (handleTypingUpdate cl r s, [])
  end.

(** The page: the component state, the dependency values
    [[room?.room_code, countdown]] of the last run of the WebSocket effect
    ([getEffectiveTickRate] never changes) and the closure of the handlers
    that run registered, if any. *)
Record Page := {
  st : State;
  wsDeps : option (option string * option Z);
  wsHandlers : option Closure
}.

Definition depsOf (s : State) : option string * option Z :=
  (room_code <$> room s, countdown s).

(** The effect [if (room && !displayRoom) setDisplayRoom(room)]. *)
Definition seedDisplay (s : State) : State :=
  match room s, displayRoom s with
  | Some r, None => setDisplayRoom (Some r) s
  | _, _ => s
  end.

(** What React does after a render that shows [s]: the WebSocket effect
    runs again only when one of its dependencies changed, and then the
    new handlers close over the values of this render; with no room the
    effect returns before registering anything. *)
Definition commit (s : State) (p : Page) : Page :=
  if decide (wsDeps p = Some (depsOf s)) then
    {| st := seedDisplay s; wsDeps := wsDeps p; wsHandlers := wsHandlers p |}
  else
    {| st := seedDisplay s; wsDeps := Some (depsOf s);
       wsHandlers := match room s with
                     | Some _ => Some (capture s)
                     | None => None
                     end |}.

(** First render. *)
Definition mount : Page :=
  commit initial {| st := initial; wsDeps := None; wsHandlers := None |}.

(** The success path of [handleCreateRoom] and [handleJoinRoom]. *)
Definition enterRoom (r : Room) (p : Page) : Page :=
  commit (setDisplayRoom (Some r) (setRoom (Some r) (st p))) p.

(** A broadcast reaches the registered handler. *)
Definition deliver (now : Q) (ev : Event) (p : Page) : Page * list Output :=
  match wsHandlers p with
  | Some cl =>
      let '(s, out) := handle cl now ev (st p) in (commit s p, out)
  | None => (p, [])
  end.

(** The countdown interval fires. *)
Definition countdownFires (p : Page) : Page * list Output :=
  let '(s, out) := countdownTick (st p) in (commit s p, out).

(** *** Tick scheduler *)

(** What one call of [gameTick] reads from its surroundings: [Date.now()]
    and whether the two [wsClient.send] calls throw. *)
Record TickEnv := {
  date_now : Z;
  directionSendThrows : bool;
  tickSendThrows : bool
}.

Definition channel (throws : bool) : Channel :=
  if throws then ViaCallServer else ViaWebSocket.

(** [gameTick()]; [cl] holds the [room] and [countdown] the callback closed
    over. *)
Definition gameTick (isProduction : bool) (playerId : string) (cl : Closure)
  (env : TickEnv) (s : State) : State * list Output :=
  match cl_room cl with
  | None => (s, [])
  | Some room =>
      if negb (String.eqb (status room) "playing") then (s, [])
      else if match cl_countdown cl with
              | Some c => (0 <? c)%Z
              | None => false
              end then (s, [])
      else if truthy_string (host_id room) && negb (strict_eq (host_id room) playerId)
      then (s, [])
      else if (date_now env - lastTickRef s <? TICK_RATE isProduction)%Z then (s, [])
      else
        let s1 := set_lastTickRef (date_now env) s in
        let '(s2, out) :=
          match directionQueueRef s1 with
          | Some d =>
              (set_directionQueueRef None s1,
               [Request (channel (directionSendThrows env)) "updateDirection"
                  (room_code room) (Some d)])
          | None => (s1, [])
          end in
        (s2, out ++ [Request (channel (tickSendThrows env)) "tick" (room_code room) None])
  end.

(** The variables local to the game-loop effect. *)
Record LoopLocals := {
  lastTickTime : Q;
  isRunning : bool
}.

(** The game-loop effect: the locals of a started loop, or nothing when
    the effect returns before starting one. *)
Definition gameLoopEffect (room : option Room) (countdown : option Z)
  : option LoopLocals :=
  if negb (strict_eq (status <$> room) "playing") then None
  else if match countdown with
          | Some c => (0 <? c)%Z
          | None => false
          end then None
  else Some {| lastTickTime := 0; isRunning := true |}.

(** One call of [loop(timestamp)]: the new locals and whether
    [setTimeout(() => gameTick(), 0)] was issued; [now] is
    [performance.now()]. *)
Definition loop (isProduction : bool) (now : Q) (l : LoopLocals) : LoopLocals * bool :=
  if negb (isRunning l) then (l, false)
  else if Qle_bool (inject_Z (TICK_RATE isProduction)) (now - lastTickTime l)
  then ({| lastTickTime := now; isRunning := isRunning l |}, true)
  else (l, false).

Definition isTickRequest (o : Output) : bool :=
  match o with
  | Request _ action _ _ => String.eqb action "tick"
  | Sound _ => false
  end.

(** Number of tick-advance requests among some outputs. *)
Definition tickRequests (out : list Output) : nat :=
  length (List.filter isTickRequest out).

(** A run of the scheduler: [gameTick] is called once per entry, each call
    with its own closure and surroundings.  The result lists, per call, the
    clock reading and the outputs. *)
Fixpoint run (isProduction : bool) (playerId : string)
  (calls : list (Closure * TickEnv)) (s : State) : list (Z * list Output) :=
  match calls with
  | [] => []
  | (cl, env) :: rest =>
      let '(s', out) := gameTick isProduction playerId cl env s in
      (date_now env, out) :: run isProduction playerId rest s'
  end.

(** The clock readings of the calls that issued a tick-advance request. *)
Definition tickTimes (trace : list (Z * list Output)) : list Z :=
  map fst (List.filter (fun e => (0 <? tickRequests (snd e))%nat) trace).

(** *** Observations used in the statements *)

(** The broadcasts that carry an authoritative room: [roomUpdate] and
    [gameUpdate]. *)
Definition isUpdate (ev : Event) : bool :=
  match ev with
  | RoomUpdate _ | GameUpdate _ => true
  | _ => false
  end.

(** Broadcasts delivered one after the other, each with the reading of
    [performance.now()] at its arrival. *)
Definition deliverAll (evs : list (Q * Event)) (p : Page) : Page :=
  foldl (fun p' e => fst (deliver (fst e) (snd e) p')) p evs.

(** [setRoomWithInterpolation] called once per update, in arrival order. *)
Definition pace (updates : list (Q * Room)) (s : State) : State :=
  foldl (fun s' u => setRoomWithInterpolation (fst u) (snd u) s') s updates.

(** Successive readings, the first at least [rate] after [last] and each
    at least [rate] after the one before. *)
Fixpoint spacedFrom (rate last : Z) (times : list Z) : Prop :=
  match times with
  | [] => True
  | t :: rest => (last + rate <= t)%Z ∧ spacedFrom rate t rest
  end.

(** The readings of [times] that fall in the interval [[t, t + rate)]. *)
Definition within (rate t : Z) (times : list Z) : list Z :=
  List.filter (fun x => (t <=? x)%Z && (x <? t + rate)%Z) times.

End Game.

(* --------------------------------------------------------------------- *)
(** ** Sample inputs                                                      *)
(* --------------------------------------------------------------------- *)

Module Samples.
Import WsClient.

(** A listener that counts its calls in a [nat] world. *)
Definition counting : Listener nat := fun _ w => (S w, Returns).

(** A listener that counts its call and then throws. *)
Definition throwing : Listener nat := fun _ w => (S w, Throws "boom").

(** A production client with one listener for the terminal signal. *)
Definition watched : Client nat :=
  on "reconnectFailed" counting (constructor true 0%nat).

(** A client whose first listener for ['connected'] throws. *)
Definition fragile : Client nat :=
  on "connected" counting (on "connected" throwing (constructor true 0%nat)).

(** A development client right after the module was imported:
    [wsClient.connect()] has created socket 0, which is still connecting. *)
Definition imported : Client unit :=
  connect "player_a" false (constructor false ()).

(** The same client after [send('startGame', ...)] was called before the
    socket opened. *)
Definition early_send : Client unit * string :=
  send "startGame" "{roomCode}" None "startGame_1_0.5" "player_b" false imported.

(** A production client at the moment the handler of its current socket
    runs: two commands are queued and the socket has just become open. *)
Definition opening : Client nat :=
  set_sockets [{| readyState := OPEN; sent := [] |}]
    (set_messageQueue
       [ {| msg_action := "joinRoom"; msg_playerId := Some "player_a";
            msg_responseId := "joinRoom_1_0.1"; msg_params := "{}" |};
         {| msg_action := "toggleReady"; msg_playerId := Some "player_a";
            msg_responseId := "toggleReady_2_0.2"; msg_params := "{}" |} ]
       (connect "player_a" false (on "connected" counting (constructor true 0%nat)))).

(** Rooms of one session: in the lobby, during play as the first
    broadcast shows it, and after the game has ended. *)
Definition host : Player :=
  {| id := "player_h"; name := "Hana"; isBot := None; ready := None |}.

Definition guest : Player :=
  {| id := "player_g"; name := "Gus"; isBot := None; ready := Some true |}.

Definition lobbyRoom : Room :=
  {| room_code := "ABCD"; status := "waiting"; host_id := Some "player_h";
     players := Some [host; guest]; chat := Some []; gameChat := None;
     typing := None; board := 0 |}.

Definition playingRoom : Room := with_status "playing" lobbyRoom.

Definition endedRoom : Room :=
  {| room_code := "ABCD"; status := "ended"; host_id := Some "player_h";
     players := Some [host; guest]; chat := Some []; gameChat := None;
     typing := None; board := 42 |}.

(** The room a chat broadcast carries after the game has ended. *)
Definition chatRoom : Room :=
  {| room_code := "ABCD"; status := "ended"; host_id := Some "player_h";
     players := Some [host; guest]; chat := Some ["gg"]; gameChat := None;
     typing := None; board := 42 |}.

(** A room whose host id is the empty string. *)
Definition emptyHostRoom : Room :=
  {| room_code := "ABCD"; status := "playing"; host_id := Some "";
     players := Some [host; guest]; chat := None; gameChat := None;
     typing := None; board := 7 |}.

(** A room that names no host. *)
Definition hostlessRoom : Room :=
  {| room_code := "ABCD"; status := "playing"; host_id := None;
     players := Some [host; guest]; chat := None; gameChat := None;
     typing := None; board := 7 |}.

(** The page of the guest: joined the lobby, saw the game start and the
    five countdown ticks. *)
Definition afterCountdown : Game.Page :=
  let p1 := Game.enterRoom lobbyRoom Game.mount in
  let p2 := fst (Game.deliver 1000 (Game.GameStart (Some lobbyRoom)) p1) in
  Nat.iter 5 (fun p => fst (Game.countdownFires p)) p2.

(** Then the broadcast that ends the game arrives. *)
Definition afterGameEnd : Game.Page :=
  fst (Game.deliver 9000
         (Game.GameUpdate {| Game.u_room := Some endedRoom; Game.foodEaten := false;
                             Game.powerUpCollected := false;
                             Game.eliminated := Some ["player_h"] |})
         afterCountdown).

(** Then somebody chats, or types. *)
Definition afterChat : Game.Page :=
  fst (Game.deliver 9500 (Game.ChatMessage (Some chatRoom)) afterGameEnd).

Definition afterTyping : Game.Page :=
  fst (Game.deliver 9500 (Game.TypingUpdate (Some chatRoom)) afterGameEnd).

(** A page that waits in the lobby after "play again". *)
Definition waitingAgain : Game.Page :=
  let p := Game.enterRoom lobbyRoom Game.mount in
  {| Game.st := Game.handlePlayAgain (Game.st p); Game.wsDeps := Game.wsDeps p;
     Game.wsHandlers := Game.wsHandlers p |}.

(** A call of [gameTick] at clock reading [t] with both sends working. *)
Definition tickAt (t : Z) : Game.TickEnv :=
  {| Game.date_now := t; Game.directionSendThrows := false;
     Game.tickSendThrows := false |}.

(** The closure of [gameTick] on a render that shows [r] with countdown
    [cd]. *)
Definition tickClosure (r : Room) (cd : option Z) : Game.Closure :=
  {| Game.cl_room := Some r; Game.cl_displayRoom := Some r; Game.cl_countdown := cd |}.

End Samples.

(* --------------------------------------------------------------------- *)
(** ** websocketClient.js, the remaining methods                          *)
(* --------------------------------------------------------------------- *)

Module WsClientMore.
Import WsClient.

(** A frame as [JSON.parse] returns it: the fields [handleMessage] reads
    and the whole message, kept as text, for the emissions that pass it
    on. *)
Record Incoming := {
  in_type : option string;
  in_room : Data;
  in_responseId : option string;
  in_message : string
}.

(** One call of [send]: its arguments and what the call draws from its
    surroundings (the generated response id and the player id of the
    [connect()] the call may trigger). *)
Record SendCall := {
  sc_action : string;
  sc_params : string;
  sc_responseId : option string;
  sc_genId : string;
  sc_newId : string
}.

(** The five types of broadcast [handleMessage] tells apart. *)
Definition isBroadcast (t : option string) : bool :=
  strict_eq t "roomUpdate" || strict_eq t "gameStart" || strict_eq t "gameUpdate"
  || strict_eq t "chatMessage" || strict_eq t "typingUpdate".

Section More.
Variable World : Type.

(** [handleMessage(message)] *)
Definition handleMessage (m : Incoming) (c : Client World) : Client World :=
  if strict_eq (in_type m) "roomUpdate" then
    fst (emit "roomUpdate" (in_room m) c)
  else if strict_eq (in_type m) "gameStart" then
    fst (emit "gameStart" (in_room m) c)
  else if strict_eq (in_type m) "gameUpdate" then
    fst (emit "gameUpdate" (Some (in_message m)) c)
  else if strict_eq (in_type m) "chatMessage" then
    match in_room m with
    | Some _ => fst (emit "chatMessage" (in_room m) c)
    | None => c
    end
  else if strict_eq (in_type m) "typingUpdate" then
    match in_room m with
    | Some _ => fst (emit "typingUpdate" (in_room m) c)
    | None => c
    end
  else
    let c1 :=
      if truthy_string (in_responseId m) then
        fst (emit ("response:" +:+ default "" (in_responseId m))
               (Some (in_message m)) c)
      else c in
    fst (emit "response" (Some (in_message m)) c1).

(** [ws.onmessage]; [parse data] is [None] when [JSON.parse(event.data)]
    or the handling of its result throws. *)
Definition onmessage (parse : string -> option Incoming) (data : string)
  (c : Client World) : Client World :=
  if String.eqb data "pong" then onPong c
  else
    match parse data with
    | Some m => handleMessage m c
    | None => log (ConsoleError "[WebSocket] Error parsing message:") c
    end.

(** [callbacks.indexOf(callback)] followed by [splice(index, 1)]: the first
    entry that is the function [callback] is removed.  [same] tells which
    entries are that very function. *)
Fixpoint removeFirst (same : Listener World -> bool) (callbacks : list (Listener World))
  : list (Listener World) :=
  match callbacks with
  | [] => []
  | cb :: rest => if same cb then rest else cb :: removeFirst same rest
  end.

(** [off(event, callback)] *)
Definition off (event : string) (same : Listener World -> bool) (c : Client World)
  : Client World :=
  match listeners c !! event with
  | Some callbacks =>
      set_listeners (<[event := removeFirst same callbacks]> (listeners c)) c
  | None => c
  end.

(** [WebSocket.close()]: a socket that is connecting or open starts
    closing, any other stays as it is. *)
Definition closing (s : Socket) : Socket :=
  match readyState s with
  | CONNECTING | OPEN => {| readyState := CLOSING; sent := sent s |}
  | _ => s
  end.

(** [disconnect()] *)
Definition disconnect (c : Client World) : Client World :=
  let c1 := stopKeepAlive c in
  let c2 :=
    match ws c1 with
    | Some i => set_ws None (set_sockets (alter closing i (sockets c1)) c1)
    | None => c1
    end in
  set_listeners ∅ (set_connected false c2).

(** [send] with the arguments of one call, the socket constructor not
    throwing. *)
Definition sendCall (call : SendCall) (c : Client World) : Client World * string :=
  send (sc_action call) (sc_params call) (sc_responseId call)
       (sc_genId call) (sc_newId call) false c.

(** Calls of [send] one after the other. *)
Definition sendAll (calls : list SendCall) (c : Client World) : Client World :=
  foldl (fun c' call => fst (sendCall call c')) c calls.

(** The messages a run of calls builds while the client stays
    disconnected: each carries the player id in force at its call, and
    each call draws a new one. *)
Fixpoint queuedBy (pid : option string) (calls : list SendCall) : list Message :=
  match calls with
  | [] => []
  | call :: rest =>
      {| msg_action := sc_action call; msg_playerId := pid;
         msg_responseId :=
           if truthy_string (sc_responseId call)
           then default (sc_genId call) (sc_responseId call)
           else sc_genId call;
         msg_params := sc_params call |}
      :: queuedBy (Some (sc_newId call)) rest
  end.

End More.

Arguments handleMessage {World}.
Arguments onmessage {World}.
Arguments removeFirst {World}.
Arguments off {World}.
Arguments disconnect {World}.
Arguments sendCall {World}.
Arguments sendAll {World}.

End WsClientMore.

(* --------------------------------------------------------------------- *)
(** ** Lobby.jsx, the bot controls; GameMenu                              *)
(* --------------------------------------------------------------------- *)

Module LobbyMore.
Import Lobby.

(** [{ ...room, players: ps }] *)
Definition with_players (ps : list Player) (r : Room) : Room :=
  {| room_code := room_code r; status := status r; host_id := host_id r;
     players := Some ps; chat := chat r; gameChat := gameChat r;
     typing := typing r; board := board r |}.

(** [room?.players?.filter(p => p.isBot).length || 0] *)
Definition botCount (room : option Room) : nat :=
  match players_of room with
  | Some ps => length (List.filter (fun p => truthy_bool (isBot p)) ps)
  | None => 0
  end.

Definition maxBots : nat := 3.

(** [room?.players?.length < 4] *)
Definition hasFreeSlot (room : option Room) : bool :=
  match players_of room with
  | Some ps => (length ps <? 4)%nat
  | None => false
  end.

(** [isHost && room?.status === 'waiting' && botCount < maxBots
     && room?.players?.length < 4] *)
Definition canAddBot (room : option Room) (playerId : string) : bool :=
  isHost room playerId && strict_eq (status <$> room) "waiting"
  && (botCount room <? maxBots)%nat && hasFreeSlot room.

(** [isHost && room?.status === 'waiting' && botCount > 0] *)
Definition canRemoveBot (room : option Room) (playerId : string) : bool :=
  isHost room playerId && strict_eq (status <$> room) "waiting"
  && (0 <? botCount room)%nat.

End LobbyMore.

Module GameMenu.

(** The buttons of the game menu, top to bottom. *)
Inductive MenuButton :=
| PauseGame
| ResumeGame (disabled : bool)
| BackToLobby
| LeaveGame.

(** [status === 'paused' && room?.paused_by === playerId] *)
Definition canResume (status : string) (paused_by : option string)
  (playerId : string) : bool :=
  String.eqb status "paused" && strict_eq paused_by playerId.

(** The buttons [GameMenu] renders; [paused_by] is [room?.paused_by]. *)
Definition buttons (status : string) (paused_by : option string)
  (playerId : string) : list MenuButton :=
  (if String.eqb status "playing" then [PauseGame] else [])
  ++ (if String.eqb status "paused"
      then [ResumeGame (negb (canResume status paused_by playerId))] else [])
  ++ (if String.eqb status "ended" then [BackToLobby] else [])
  ++ [LeaveGame].

End GameMenu.

(* --------------------------------------------------------------------- *)
(** ** The page component [Game], the remaining handlers                  *)
(* --------------------------------------------------------------------- *)

Module GameMore.
Import Game.

(** What [callServer] resolves to: [{success, room?, error?}]. *)
Record Result := {
  success : bool;
  res_room : option Room;
  res_error : option string
}.

(** An awaited call either resolves or rejects.  A call that resolves to
    no object counts as rejected: reading [result.success] then throws
    into the [catch] that a rejection reaches. *)
Inductive Response :=
| Resolved (result : Result)
| Rejected.

(** *** Keyboard *)

(** The object [keyMap], read at [e.key]: a key value of a keyboard event,
    none of which names a property that an object literal inherits. *)
Definition keyMap (key : string) : option Direction :=
  if String.eqb key "ArrowUp" then Some {| dir_x := 0; dir_y := -1 |}
  else if String.eqb key "ArrowDown" then Some {| dir_x := 0; dir_y := 1 |}
  else if String.eqb key "ArrowLeft" then Some {| dir_x := -1; dir_y := 0 |}
  else if String.eqb key "ArrowRight" then Some {| dir_x := 1; dir_y := 0 |}
  else if String.eqb key "w" then Some {| dir_x := 0; dir_y := -1 |}
  else if String.eqb key "s" then Some {| dir_x := 0; dir_y := 1 |}
  else if String.eqb key "a" then Some {| dir_x := -1; dir_y := 0 |}
  else if String.eqb key "d" then Some {| dir_x := 1; dir_y := 0 |}
  else if String.eqb key "W" then Some {| dir_x := 0; dir_y := -1 |}
  else if String.eqb key "S" then Some {| dir_x := 0; dir_y := 1 |}
  else if String.eqb key "A" then Some {| dir_x := -1; dir_y := 0 |}
  else if String.eqb key "D" then Some {| dir_x := 1; dir_y := 0 |}
  else None.

Definition movementKeys : list string :=
  ["ArrowUp"; "ArrowDown"; "ArrowLeft"; "ArrowRight";
   "w"; "W"; "s"; "S"; "a"; "A"; "d"; "D"].

(** [handleKeyDown(e)]; [isTyping] tells whether an input, a textarea or
    an editable element has the focus. *)
Definition handleKeyDown (cl : Closure) (isTyping : bool) (key : string) (s : State)
  : State * list Output :=
  match cl_room cl with
  | None => (s, [])
  | Some room =>
      if negb (String.eqb (status room) "playing") then (s, [])
      else if isTyping && existsb (String.eqb key) movementKeys then (s, [])
      else
        match keyMap key with
        | Some direction =>
            (set_directionQueueRef (Some direction) s,
             [Request ViaCallServer "updateDirection" (room_code room) (Some direction)])
        | None => (s, [])
        end
  end.

(** *** Polling *)

(** [pollRoom()], from the answer of [getRoom] on.  The console line of
    the [catch] is not recorded. *)
Definition pollRoom (cl : Closure) (resp : Response) (s : State)
  : State * list Output :=
  match cl_room cl with
  | None => (s, [])
  | Some room =>
      match resp with
      | Resolved result =>
          if success result then
            (setRoom (res_room result) s,
             match res_room result with
             | Some r =>
                 if String.eqb (status r) "playing"
                    && negb (String.eqb (status room) "playing")
                 then [Sound "start"] else []
             | None => []
             end)
          else (s, [])
      | Rejected => (s, [])
      end
  end.

(** The polling effect holds an interval exactly when
    [room && room.status !== 'playing']. *)
Definition polling (room : option Room) : bool :=
  match room with
  | Some r => negb (String.eqb (status r) "playing")
  | None => false
  end.

(** *** Play again and quit *)

(** [setRoom(r); setDisplayRoom(r)] *)
Definition showRoom (r : Room) (s : State) : State :=
  setDisplayRoom (Some r) (setRoom (Some r) s).

(** [setRoom(null); setDisplayRoom(null); isInWaitingLobbyRef.current = false] *)
Definition giveUp (s : State) : State :=
  set_isInWaitingLobbyRef false (setDisplayRoom None (setRoom None s)).

(** What both fallbacks of [handlePlayAgain] do with an answer of
    [getRoom]: show the room with its status forced to ['waiting'], or
    give up. *)
Definition fallback (result : Result) (s : State) : State :=
  match success result, res_room result with
  | true, Some r => showRoom (with_status "waiting" r) s
  | _, _ => giveUp s
  end.

(** The [catch] branch of [handlePlayAgain]: one more [getRoom]. *)
Definition rescue (retry : Response) (s : State) : State :=
  match retry with
  | Resolved result => fallback result s
  | Rejected => giveUp s
  end.

(** [handlePlayAgain()] run to its end, nothing else happening in between:
    [reset] answers [resetToLobby], [getRoom] the [getRoom] of the [else]
    branch and [retry] the one of the [catch] branch. *)
Definition playAgain (reset getRoom retry : Response) (s : State) : State :=
  match room s with
  | None => s
  | Some _ =>
      let s1 := handlePlayAgain s in
      match reset with
      | Resolved result =>
          match success result, res_room result with
          | true, Some r => showRoom r s1
          | _, _ =>
              match getRoom with
              | Resolved g => fallback g s1
              | Rejected => rescue retry s1
              end
          end
      | Rejected => rescue retry s1
      end
  end.

(** [handleQuit()], after [leaveRoom] has resolved or rejected. *)
Definition handleQuit (s : State) : State :=
  setDisplayRoom None (setRoom None s).

(** *** Renders and effects of the page *)

(** The cleanup of the countdown effect, run when [room?.room_code]
    differs from the value of the render before: a running countdown
    interval is cleared.  (It also lowers [isStartingGameRef], which is
    kept in [GameSession.Session] below.) *)
Definition countdownCleanup (s : State) (p : Page) : State :=
  match wsDeps p with
  | Some (code, _) =>
      if decide (code = (room_code <$> room s)) then s
      else set_countdownIntervalRef None s
  | None => s
  end.

(** A render that shows [s], with all its effects; the state updates of
    one callback are shown by one render. *)
Definition settle (s : State) (p : Page) : Page :=
  commit (countdownCleanup s p) p.

(** What can happen to the page.  A handler that awaits the server is one
    step: its answer arrives before anything else happens. *)
Inductive Action :=
| Enter (r : Room)
| Broadcast (now : Q) (ev : Event)
| CountdownFires
| Poll (resp : Response)
| PlayAgain (reset getRoom retry : Response)
| Quit.

Definition step (a : Action) (p : Page) : Page :=
  match a with
  | Enter r => settle (showRoom r (st p)) p
  | Broadcast now ev =>
      match wsHandlers p with
      | Some cl => settle (fst (handle cl now ev (st p))) p
      | None => p
      end
  | CountdownFires =>
      match countdownIntervalRef (st p) with
      | Some _ => settle (fst (countdownTick (st p))) p
      | None => p
      end
  | Poll resp =>
      if polling (room (st p))
      then settle (fst (pollRoom (capture (st p)) resp (st p))) p
      else p
  | PlayAgain reset getRoom retry =>
      settle (playAgain reset getRoom retry (st p)) p
  | Quit => settle (handleQuit (st p)) p
  end.

Definition runPage (actions : list Action) (p : Page) : Page :=
  foldl (fun p' a => step a p') p actions.

(** What every page reached from the first render satisfies. *)
Definition coherent (p : Page) : Prop :=
  wsDeps p = Some (depsOf (st p))
  ∧ match wsHandlers p with
    | Some cl =>
        (∃ r, cl_room cl = Some r
              ∧ room_code <$> room (st p) = Some (room_code r))
        ∧ cl_countdown cl = countdown (st p)
    | None => room (st p) = None
    end
  ∧ (displayRoom (st p) = None -> room (st p) = None)
  ∧ (room (st p) = None -> countdownIntervalRef (st p) = None)
  ∧ (∀ n, countdownIntervalRef (st p) = Some n ->
          countdown (st p) = Some n ∧ (0 < n)%Z).

(** The actions after which nothing but the server's broadcasts, the
    countdown timer and the poll timer act on the page. *)
Definition isPassive (a : Action) : bool :=
  match a with
  | Broadcast _ _ | CountdownFires | Poll _ => true
  | _ => false
  end.

(** *** Countdown *)

(** The countdown interval firing [n] times, with the cues played. *)
Fixpoint countdownTicks (n : nat) (s : State) : State * list Output :=
  match n with
  | O => (s, [])
  | S k =>
      let '(s1, out1) := countdownTick s in
      let '(s2, out2) := countdownTicks k s1 in
      (s2, out1 ++ out2)
  end.

(** *** Creating and joining a room, room commands *)

(** The state of the page with the fields the handlers below use besides
    [State]. *)
Record Ui := {
  core : State;
  loading : bool;
  error : string
}.

Definition with_core (s : State) (u : Ui) : Ui :=
  {| core := s; loading := loading u; error := error u |}.

Definition setLoading (v : bool) (u : Ui) : Ui :=
  {| core := core u; loading := v; error := error u |}.

Definition setError (v : string) (u : Ui) : Ui :=
  {| core := core u; loading := loading u; error := v |}.

(** [result.error || failure] *)
Definition errorOr (failure : string) (e : option string) : string :=
  if truthy_string e then default failure e else failure.

(** [handleCreateRoom] and [handleJoinRoom] differ in the action and in
    the failure text only; [soundManager.init()] is taken not to throw. *)
Definition openRoom (failure : string) (resp : Response) (u : Ui) : Ui :=
  let u1 := setError "" (setLoading true u) in
  let u2 :=
    match resp with
    | Resolved result =>
        if success result then
          with_core (setDisplayRoom (res_room result)
                       (setRoom (res_room result) (core u1))) u1
        else setError (errorOr failure (res_error result)) u1
    | Rejected => setError failure u1
    end in
  setLoading false u2.

Definition handleCreateRoom : Response -> Ui -> Ui := openRoom "Failed to create room".
Definition handleJoinRoom : Response -> Ui -> Ui := openRoom "Failed to join room".

(** [handleAddBot], [handleRemoveBot] and [handleToggleReady] differ in
    the action and in the failure text only. *)
Definition roomCommand (failure : string) (cl : Closure) (resp : Response) (u : Ui)
  : Ui :=
  match cl_room cl with
  | None => u
  | Some _ =>
      match resp with
      | Resolved result =>
          if success result then with_core (setRoom (res_room result) (core u)) u
          else setError (errorOr failure (res_error result)) u
      | Rejected => setError failure u
      end
  end.

Definition handleAddBot : Closure -> Response -> Ui -> Ui := roomCommand "Failed to add bot".
Definition handleRemoveBot : Closure -> Response -> Ui -> Ui :=
  roomCommand "Failed to remove bot".
Definition handleToggleReady : Closure -> Response -> Ui -> Ui :=
  roomCommand "Failed to toggle ready".

(** [handleSendMessage(message)] *)
Definition handleSendMessage (cl : Closure) (resp : Response) (u : Ui) : Ui :=
  match cl_room cl with
  | None => u
  | Some _ =>
      match resp with
      | Resolved result =>
          match success result, res_room result with
          | true, Some r => with_core (setRoom (Some r) (core u)) u
          | _, _ => u
          end
      | Rejected => u
      end
  end.

End GameMore.


(* --------------------------------------------------------------------- *)
(** ** The page with its start button and all its countdown intervals    *)
(* --------------------------------------------------------------------- *)

Module GameSession.
Import Game GameMore.

(** A countdown interval: the [count] its callback closed over, and
    whether [handleStartGame] created it.  The callback of such an
    interval also lowers [isStartingGameRef] when its count reaches
    zero; the two callbacks are the same otherwise. *)
Record Interval := { count : Z; byClick : bool }.

(** The page and what [Page] leaves out.  [State] keeps, under
    [countdownIntervalRef], the count of the interval the ref points to;
    [refByClick] tells which callback that interval runs.  [strays] are
    the intervals that run although the ref does not point to them: every
    [clearInterval] of the component is applied to the ref, so none
    reaches them.  [awaited] counts the calls of [startGame] that have
    not been answered. *)
Record Session := {
  page : Page;
  isStartingGameRef : bool;
  refByClick : bool;
  strays : list Interval;
  awaited : nat
}.

Definition with_page (v : Page) (x : Session) : Session :=
  {| page := v; isStartingGameRef := isStartingGameRef x;
     refByClick := refByClick x; strays := strays x; awaited := awaited x |}.

Definition set_isStartingGameRef (v : bool) (x : Session) : Session :=
  {| page := page x; isStartingGameRef := v;
     refByClick := refByClick x; strays := strays x; awaited := awaited x |}.

Definition set_refByClick (v : bool) (x : Session) : Session :=
  {| page := page x; isStartingGameRef := isStartingGameRef x;
     refByClick := v; strays := strays x; awaited := awaited x |}.

Definition set_strays (v : list Interval) (x : Session) : Session :=
  {| page := page x; isStartingGameRef := isStartingGameRef x;
     refByClick := refByClick x; strays := v; awaited := awaited x |}.

Definition set_awaited (v : nat) (x : Session) : Session :=
  {| page := page x; isStartingGameRef := isStartingGameRef x;
     refByClick := refByClick x; strays := strays x; awaited := v |}.

(** The page after its first render. *)
Definition start : Session :=
  {| page := mount; isStartingGameRef := false; refByClick := false;
     strays := []; awaited := 0 |}.

(** A change of refs only: nothing is rendered. *)
Definition with_st (s : State) (p : Page) : Page :=
  {| st := s; wsDeps := wsDeps p; wsHandlers := wsHandlers p |}.

(** The cleanup of the countdown effect runs when a render changed
    [room?.room_code]. *)
Definition cleanupRuns (s : State) (p : Page) : bool :=
  match wsDeps p with
  | Some (code, _) => negb (bool_decide (code = (room_code <$> room s)))
  | None => false
  end.

(** A render that shows [s], with all its effects: besides what [settle]
    does, the cleanup of the countdown effect lowers
    [isStartingGameRef]. *)
Definition render (s : State) (x : Session) : Session :=
  set_isStartingGameRef
    (if cleanupRuns s (page x) then false else isStartingGameRef x)
    (with_page (settle s (page x)) x).

(** Whether [handleGameStart] creates an interval: it is given a room and
    its closure holds no positive countdown. *)
Definition startsInterval (cl : Closure) (ev : Event) : bool :=
  match ev with
  | GameStart (Some _) =>
      match cl_countdown cl with
      | Some c => (c <=? 0)%Z
      | None => true
      end
  | _ => false
  end.

(** The actions of [step] on a session, with what they play and send.
    [CountdownFires] is the callback of the interval the ref points to;
    [handlePlayAgain] lowers [isStartingGameRef] after its room check. *)
Definition shown (a : Action) (x : Session) : Session * list Output :=
  let p := page x in
  match a with
  | Enter r => (render (showRoom r (st p)) x, [])
  | Broadcast now ev =>
      match wsHandlers p with
      | Some cl =>
          (render (fst (handle cl now ev (st p)))
             (if startsInterval cl ev then set_refByClick false x else x),
           snd (handle cl now ev (st p)))
      | None => (x, [])
      end
  | CountdownFires =>
      match countdownIntervalRef (st p) with
      | Some n =>
          (render (fst (countdownTick (st p)))
             (if refByClick x && (n - 1 <=? 0)%Z
              then set_isStartingGameRef false x else x),
           snd (countdownTick (st p)))
      | None => (x, [])
      end
  | Poll resp =>
      if polling (room (st p))
      then (render (fst (pollRoom (capture (st p)) resp (st p))) x,
            snd (pollRoom (capture (st p)) resp (st p)))
      else (x, [])
  | PlayAgain reset getRoom retry =>
      (render (playAgain reset getRoom retry (st p))
         (match room (st p) with
          | Some _ => set_isStartingGameRef false x
          | None => x
          end), [])
  | Quit => (render (handleQuit (st p)) x, [])
  end.

(** [handleStartGame()] up to its [await]: without a room, or while a
    start is in progress, the click does nothing; otherwise the waiting
    intent and the interval the ref points to are cleared and
    [isStartingGameRef] is raised.  Only refs change. *)
Definition handleStartGame_begin (x : Session) : Session :=
  match room (st (page x)) with
  | None => x
  | Some _ =>
      if isStartingGameRef x then x
      else
        set_awaited (S (awaited x))
          (set_isStartingGameRef true
             (with_page
                (with_st
                   (set_countdownIntervalRef None
                      (set_isInWaitingLobbyRef false (st (page x))))
                   (page x)) x))
  end.

(** [handleStartGame()] from the answer of [startGame] on.  On success the
    new interval is stored in the ref without [clearInterval]: an interval
    the ref pointed to keeps running, as a stray. *)
Definition handleStartGame_end (resp : Response) (x : Session) : Session :=
  match awaited x with
  | O => x
  | S pending =>
      let x1 := set_awaited pending x in
      let s := st (page x) in
      match resp with
      | Resolved result =>
          match success result, res_room result with
          | true, Some r =>
              let updatedRoom := with_status "playing" r in
              let left :=
                match countdownIntervalRef s with
                | Some n => [{| count := n; byClick := refByClick x |}]
                | None => []
                end in
              render
                (set_countdownIntervalRef (Some 5%Z)
                   (setCountdown (Some 5%Z)
                      (setDisplayRoom (Some updatedRoom)
                         (setRoom (Some updatedRoom) s))))
                (set_refByClick true (set_strays (strays x ++ left) x1))
          | _, _ => set_isStartingGameRef false x1
          end
      | Rejected =>
          render (setCountdown None s) (set_isStartingGameRef false x1)
      end
  end.

(** The callback of the stray interval numbered [i]: [count--;
    setCountdown(count)] and, once [count <= 0], [clearInterval] of
    whatever the ref points to, never of the stray itself, which stays. *)
Definition strayFires (i : nat) (x : Session) : Session * list Output :=
  match strays x !! i with
  | Some iv =>
      let count' := (count iv - 1)%Z in
      let x1 :=
        set_strays (<[i := {| count := count'; byClick := byClick iv |}]> (strays x)) x in
      let s1 := setCountdown (Some count') (st (page x)) in
      if (count' <=? 0)%Z then
        (render (setCountdown None (set_countdownIntervalRef None s1))
           (if byClick iv then set_isStartingGameRef false x1 else x1),
         [Sound "start"])
      else (render s1 x1, [])
  | None => (x, [])
  end.

(** What can happen to a session.  [Stored v] stands for the handlers
    that store a room they were sent and touch nothing else of [State]:
    [handlePause], [handleResume], [handleSendMessage], [handleAddBot],
    [handleRemoveBot] and [handleToggleReady], each with [setRoom(v)];
    the cues of the first two are left out. *)
Inductive Act :=
| Shown (a : Action)
| Stored (v : option Room)
| Click
| Answer (resp : Response)
| StrayFires (i : nat).

Definition act (a : Act) (x : Session) : Session * list Output :=
  match a with
  | Shown b => shown b x
  | Stored v => (render (setRoom v (st (page x))) x, [])
  | Click => (handleStartGame_begin x, [])
  | Answer resp => (handleStartGame_end resp x, [])
  | StrayFires i => strayFires i x
  end.

(** Acts one after the other, with everything played and sent. *)
Fixpoint acts (l : list Act) (x : Session) : Session * list Output :=
  match l with
  | [] => (x, [])
  | a :: rest =>
      let '(x1, out1) := act a x in
      let '(x2, out2) := acts rest x1 in
      (x2, out1 ++ out2)
  end.

(** Two intervals of one period fire in the order of their creation: one
    round of the stray numbered [i], created first, and of the interval
    the ref points to. *)
Definition round (i : nat) : list Act := [StrayFires i; Shown CountdownFires].

(** [k] rounds, one after the other. *)
Definition rounds (k i : nat) : list Act := concat (replicate k (round i)).

(** The countdown a render shows is [null] or positive. *)
Definition countsDown (s : State) : Prop :=
  match countdown s with
  | Some c => (0 < c)%Z
  | None => True
  end.

(** The effect of the WebSocket handlers has run for what the page
    shows. *)
Definition synced (p : Page) : Prop := wsDeps p = Some (depsOf (st p)).

End GameSession.

(* --------------------------------------------------------------------- *)
(** ** Further sample inputs                                              *)
(* --------------------------------------------------------------------- *)

Module MoreSamples.
Import WsClient WsClientMore.

(** A listener that adds ten to a [nat] world, and the test that
    recognises it among the listeners of these samples. *)
Definition adding : Listener nat := fun _ w => ((w + 10)%nat, Returns).

Definition isAdding (l : Listener nat) : bool :=
  Nat.eqb (fst (l None 0%nat)) 10.

(** A client with four registrations for ['connected'], [adding] twice. *)
Definition crowded : Client nat :=
  on "connected" adding
    (on "connected" Samples.counting
       (on "connected" adding
          (on "connected" Samples.throwing (constructor true 0%nat)))).

(** Three calls of [send] made while the client is disconnected. *)
Definition joinCall : SendCall :=
  {| sc_action := "joinRoom"; sc_params := "{playerName, roomCode}";
     sc_responseId := None; sc_genId := "joinRoom_1_0.1"; sc_newId := "player_b" |}.

Definition readyCall : SendCall :=
  {| sc_action := "toggleReady"; sc_params := "{roomCode}";
     sc_responseId := Some "ready-7"; sc_genId := "toggleReady_2_0.2";
     sc_newId := "player_c" |}.

Definition startCall : SendCall :=
  {| sc_action := "startGame"; sc_params := "{roomCode}";
     sc_responseId := None; sc_genId := "startGame_3_0.3"; sc_newId := "player_d" |}.

Definition threeCalls : list SendCall := [joinCall; readyCall; startCall].

(** The answer to a [createRoom] command, and a client with one listener
    for that answer and one for every answer. *)
Definition answer : Incoming :=
  {| in_type := Some "roomCreated"; in_room := None;
     in_responseId := Some "createRoom_1_0.3";
     in_message := "{type, responseId, success, room}" |}.

Definition awaiting : Client nat :=
  on "response" Samples.counting
    (on "response:createRoom_1_0.3" adding (constructor true 0%nat)).

(** A parser for which the only well-formed frame is [answer]. *)
Definition parseAnswer (data : string) : option Incoming :=
  if String.eqb data "{type, responseId, success, room}" then Some answer else None.

(** A bot, and a waiting room that holds the host and that bot. *)
Definition bot : Player :=
  {| id := "bot_1"; name := "Bot 1"; isBot := Some true; ready := None |}.

Definition botRoom : Room :=
  {| room_code := "ABCD"; status := "waiting"; host_id := Some "player_h";
     players := Some [Samples.host; bot]; chat := None; gameChat := None;
     typing := None; board := 0 |}.

End MoreSamples.


Module GameSamples.
Import Game GameMore.

(** Answers of the server. *)
Definition ok (r : Room) : Result :=
  {| success := true; res_room := Some r; res_error := None |}.

Definition refused : Result :=
  {| success := false; res_room := None; res_error := Some "Room not found" |}.

Definition refusedSilently : Result :=
  {| success := false; res_room := None; res_error := None |}.

(** Another room. *)
Definition otherRoom : Room :=
  {| room_code := "WXYZ"; status := "waiting"; host_id := Some "player_x";
     players := Some [Samples.guest]; chat := None; gameChat := None;
     typing := None; board := 0 |}.

(** A guest joins the lobby, the game starts and the countdown fires
    once. *)
Definition joinAndStart : list Action :=
  [Enter Samples.lobbyRoom;
   Broadcast 1000 (GameStart (Some Samples.lobbyRoom));
   CountdownFires].

(** What the server and the timers send to a guest of [otherRoom] when its
    game starts. *)
Definition otherStarts : list Action :=
  [Broadcast 5000 (GameStart (Some otherRoom));
   CountdownFires;
   Poll (Resolved (ok otherRoom));
   Broadcast 6000 (RoomUpdate (Some (with_status "playing" otherRoom)))].

(** The state of a page that shows [r]. *)
Definition showing (r : Room) : State := showRoom r initial.

(** The page state seen through [Ui], nothing loading and no error. *)
Definition ui (s : State) : Ui :=
  {| core := s; loading := false; error := "" |}.

End GameSamples.

Module SessionSamples.
Import Game GameMore GameSession.

(** The host in the lobby of [Samples.lobbyRoom]. *)
Definition inLobby : Session :=
  fst (acts [Shown (Enter Samples.lobbyRoom)] start).

(** The host enters the lobby and starts the game; the answer of
    [startGame] arrives before any broadcast. *)
Definition hostStarts : list Act :=
  [Shown (Enter Samples.lobbyRoom); Click;
   Answer (Resolved (GameSamples.ok Samples.lobbyRoom))].

(** The same, with the [gameStart] broadcast handled before the answer. *)
Definition hostRaces : list Act :=
  [Click; Shown (Broadcast 1000 (GameStart (Some Samples.lobbyRoom)));
   Answer (Resolved (GameSamples.ok Samples.lobbyRoom))].

End SessionSamples.

(* ===================================================================== *)
(** * Part II: properties                                                 *)
(* ===================================================================== *)

(** ** JavaScript comparisons *)

Lemma strict_eq_true (v : option string) (s : string) :
  strict_eq v s = true ↔ v = Some s.
Proof.
  destruct v as [x|]; cbn; [|by split].
  rewrite String.eqb_eq. split; congruence.
Qed.

Lemma strict_eq_false (v : option string) (s : string) :
  strict_eq v s = false ↔ v ≠ Some s.
Proof.
  rewrite <- strict_eq_true. by destruct (strict_eq v s).
Qed.

Lemma is_true_true (v : option bool) : is_true v = true ↔ v = Some true.
Proof. by destruct v as [[|]|]. Qed.

(** ** Transport client *)

Module WsClientSpec.
Import WsClient.

Section Dispatch.
Context {World : Type}.
Implicit Types (c : Client World) (w : World) (callbacks : list (Listener World)).

(** The guarded loop of [emit] never stops early: it runs every callback
    and turns each throw into one console line. *)
Lemma forEach_guarded event data callbacks w logs :
  forEach (guarded event data) callbacks (w, logs)
  = ((invokeAll data callbacks w, logs ++ failures event data callbacks w), Returns).
Proof.
  revert w logs.
  induction callbacks as [|cb rest IH]; intros w logs; cbn.
  - by rewrite app_nil_r.
  - unfold guarded; cbn.
    destruct (cb data w) as [w' [|err]]; cbn; rewrite IH; [done|].
    by rewrite <- app_assoc.
Qed.

Lemma emit_returns event data c : snd (emit event data c) = Returns.
Proof.
  unfold emit. destruct (listeners c !! event) as [callbacks|]; [|done].
  by rewrite forEach_guarded.
Qed.

Lemma emit_fst event data c :
  fst (emit event data c)
  = match listeners c !! event with
    | Some callbacks =>
        set_console (console c ++ failures event data callbacks (world c))
          (set_world (invokeAll data callbacks (world c)) c)
    | None => c
    end.
Proof.
  unfold emit. destruct (listeners c !! event) as [callbacks|]; [|done].
  by rewrite forEach_guarded.
Qed.

Lemma emit_world event data c :
  world (fst (emit event data c))
  = invokeAll data (default [] (listeners c !! event)) (world c).
Proof. rewrite emit_fst. by destruct (listeners c !! event). Qed.

Lemma emit_console event data c :
  console (fst (emit event data c))
  = console c ++ failures event data (default [] (listeners c !! event)) (world c).
Proof.
  rewrite emit_fst. destruct (listeners c !! event); cbn; [done|].
  by rewrite app_nil_r.
Qed.

(** What [emit] leaves alone. *)
Lemma emit_frame event data c :
  let c' := fst (emit event data c) in
  ws c' = ws c ∧ sockets c' = sockets c ∧ playerId c' = playerId c
  ∧ reconnectAttempts c' = reconnectAttempts c
  ∧ maxReconnectAttempts c' = maxReconnectAttempts c
  ∧ messageQueue c' = messageQueue c ∧ listeners c' = listeners c
  ∧ connected c' = connected c ∧ pingInterval c' = pingInterval c
  ∧ pongTimeout c' = pongTimeout c ∧ isProduction c' = isProduction c
  ∧ timers c' = timers c.
Proof.
  cbn. rewrite emit_fst. by destruct (listeners c !! event).
Qed.

(** C9.  Whatever listeners are registered for an event, an emission
    returns normally; every registered listener is called, in registration
    order, whether or not earlier ones threw (the world after the emission
    is the one obtained by running them all); and the console gains
    exactly one error line per listener that threw. *)
Theorem emit_isolates_listener_errors event data c :
  let callbacks := default [] (listeners c !! event) in
  snd (emit event data c) = Returns
  ∧ world (fst (emit event data c)) = invokeAll data callbacks (world c)
  ∧ console (fst (emit event data c))
    = console c ++ failures event data callbacks (world c)
  ∧ (∀ pre cb post,
       callbacks = pre ++ cb :: post →
       world (fst (emit event data c))
       = invokeAll data post (fst (cb data (invokeAll data pre (world c))))).
Proof.
  cbn. split; [apply emit_returns|].
  rewrite emit_fst.
  destruct (listeners c !! event) as [callbacks|]; cbn.
  - repeat split; try done.
    intros pre cb post ->. unfold invokeAll. by rewrite foldl_app.
  - repeat split; try by rewrite ?app_nil_r.
    intros pre cb post H. by destruct pre.
Qed.

End Dispatch.

(** C9 on [Samples.fragile]: the first listener throws, the second is
    called all the same, and one error line is written. *)
Lemma emit_isolates_listener_errors_witness :
  snd (emit "connected" None Samples.fragile) = Returns
  ∧ world (fst (emit "connected" None Samples.fragile)) = 2%nat
  ∧ length (console (fst (emit "connected" None Samples.fragile))) = 1%nat.
Proof.
  pose proof (emit_isolates_listener_errors "connected" None Samples.fragile)
    as (Hr & Hw & Hc & _).
  split; [exact Hr|].
  split; [rewrite Hw|rewrite Hc]; vm_compute; reflexivity.
Defined.

(** *** Reconnection *)

Lemma pow_three_halves_succ (k : nat) :
  ((3 # 2) ^ Z.of_nat (S k) == (3 # 2) ^ Z.of_nat k * (3 # 2))%Q.
Proof.
  rewrite Nat2Z.inj_succ, <- Z.add_1_r.
  rewrite Qpower_plus by (intros H; discriminate H).
  reflexivity.
Qed.

Lemma pow_three_halves_ge_1 (k : nat) : (1 <= (3 # 2) ^ Z.of_nat k)%Q.
Proof.
  induction k as [|k IH].
  - vm_compute. discriminate.
  - rewrite pow_three_halves_succ.
    revert IH. generalize ((3 # 2) ^ Z.of_nat k)%Q. intros x Hx. lra.
Qed.

Lemma baseDelay_ge (prod : bool) : (1000 <= baseDelay prod)%Q.
Proof. destruct prod; cbn; lra. Qed.

Lemma exponential_succ (prod : bool) (n : nat) :
  (1 <= n)%nat ->
  (exponential prod (S n) == exponential prod n * (3 # 2))%Q.
Proof.
  intros Hn. unfold exponential.
  destruct n as [|m]; [lia|].
  replace (S (S m) - 1)%nat with (S m) by lia.
  replace (S m - 1)%nat with m by lia.
  rewrite pow_three_halves_succ. ring.
Qed.

Lemma exponential_ge_base (prod : bool) (n : nat) :
  (baseDelay prod <= exponential prod n)%Q.
Proof.
  unfold exponential.
  pose proof (pow_three_halves_ge_1 (n - 1)) as Hp.
  pose proof (baseDelay_ge prod) as Hb.
  revert Hp Hb.
  generalize ((3 # 2) ^ Z.of_nat (n - 1))%Q (baseDelay prod).
  intros x b Hx Hb. nra.
Qed.

Lemma backoff_le_sum (prod : bool) (n : nat) (r : Q) :
  (backoff prod n r <= exponential prod n + r * 1000)%Q.
Proof. apply Q.le_min_l. Qed.

Lemma backoff_le_cap (prod : bool) (n : nat) (r : Q) :
  (backoff prod n r <= 10000)%Q.
Proof. apply Q.le_min_r. Qed.

Section Reconnect.
Context {World : Type}.
Implicit Types (c : Client World).

Lemma attemptReconnect_below rnd c :
  (reconnectAttempts c < maxReconnectAttempts c)%nat ->
  attemptReconnect rnd c
  = set_timers
      (timers c ++ [backoff (isProduction c) (S (reconnectAttempts c)) rnd])
      (log (ConsoleLog "[WebSocket] Reconnecting...")
         (set_reconnectAttempts (S (reconnectAttempts c)) c)).
Proof.
  intros H. unfold attemptReconnect.
  destruct (Nat.ltb_spec (reconnectAttempts c) (maxReconnectAttempts c)); [done|lia].
Qed.

Lemma attemptReconnect_at_cap rnd c :
  (maxReconnectAttempts c <= reconnectAttempts c)%nat ->
  attemptReconnect rnd c
  = fst (emit "reconnectFailed" None
           (log (ConsoleError "[WebSocket] Max reconnection attempts reached") c)).
Proof.
  intros H. unfold attemptReconnect.
  destruct (Nat.ltb_spec (reconnectAttempts c) (maxReconnectAttempts c)); [lia|done].
Qed.

(** Between two calls of [attemptReconnect] in a run of failures the
    timer fires ([connect]) and the new socket closes ([onclose]); neither
    step changes the attempt count, the cap, the listeners or the mode
    before [attemptReconnect] is reached. *)
Lemma connect_keeps_count newId throws c :
  reconnectAttempts (connect newId throws c) = reconnectAttempts c
  ∧ maxReconnectAttempts (connect newId throws c) = maxReconnectAttempts c
  ∧ listeners (connect newId throws c) = listeners c
  ∧ isProduction (connect newId throws c) = isProduction c.
Proof.
  unfold connect. destruct throws; [|done].
  destruct (emit_frame "error" (Some "error")
              (log (ConsoleError "[WebSocket] Connection error:") c))
    as (_ & _ & _ & -> & -> & _ & -> & _ & _ & _ & -> & _).
  done.
Qed.

Lemma onclose_reaches_attemptReconnect rnd c :
  ∃ c0, onclose rnd c = attemptReconnect rnd c0
        ∧ reconnectAttempts c0 = reconnectAttempts c
        ∧ maxReconnectAttempts c0 = maxReconnectAttempts c
        ∧ listeners c0 = listeners c
        ∧ isProduction c0 = isProduction c
        ∧ timers c0 = timers c
        ∧ connected c0 = false.
Proof.
  unfold onclose. eexists. split; [reflexivity|].
  match goal with |- context [fst (emit ?e ?d ?x)] =>
    destruct (emit_frame e d x) as (_ & _ & _ & -> & -> & _ & -> & -> & _ & _ & -> & ->)
  end.
  done.
Qed.

(** A run of consecutive failures from any state below or at the cap. *)
Lemma reconnects_run (rnds : list Q) :
  ∀ c (a cap : nat) (prod : bool) L (w : World) (t : list Q),
    reconnectAttempts c = a -> maxReconnectAttempts c = cap ->
    isProduction c = prod -> listeners c = L -> world c = w -> timers c = t ->
    (a <= cap)%nat ->
    let c' := reconnects rnds c in
    reconnectAttempts c' = Nat.min (a + length rnds) cap
    ∧ timers c'
      = t ++ imap (fun k r => backoff prod (S (a + k)) r) (take (cap - a) rnds)
    ∧ world c'
      = Nat.iter (a + length rnds - cap)
          (invokeAll None (default [] (L !! "reconnectFailed"))) w
    ∧ maxReconnectAttempts c' = cap
    ∧ listeners c' = L
    ∧ isProduction c' = prod.
Proof.
  induction rnds as [|r rest IH]; intros c a cap prod L w t Ha Hcap Hprod HL Hw Ht Hle;
    cbn zeta.
  - unfold reconnects. cbn [foldl length].
    rewrite Nat.add_0_r, Nat.min_l by lia.
    replace (a - cap)%nat with 0%nat by lia.
    rewrite take_nil. cbn [imap Nat.iter nat_rect]. by rewrite app_nil_r.
  - change (reconnects (r :: rest) c) with (reconnects rest (attemptReconnect r c)).
    cbn [length].
    destruct (decide (a < cap)%nat) as [Hlt|Hge].
    + rewrite (attemptReconnect_below r c) by lia.
      rewrite Ha, Hprod, Ht.
      edestruct (IH (set_timers (t ++ [backoff prod (S a) r])
                       (log (ConsoleLog "[WebSocket] Reconnecting...")
                          (set_reconnectAttempts (S a) c)))
                    (S a) cap prod L w (t ++ [backoff prod (S a) r]))
        as (Ha' & Ht' & Hw' & Hm' & Hl' & Hp'); try done.
      rewrite Ha', Ht', Hw', Hm', Hl', Hp'.
      replace (cap - a)%nat with (S (cap - S a)) by lia.
      cbn [take imap]. rewrite <- app_assoc. cbn [app].
      rewrite Nat.add_0_r.
      replace (S a + length rest)%nat with (a + S (length rest))%nat by lia.
      repeat split; try done.
      do 2 f_equal. apply imap_ext. intros k x _. cbn. do 2 f_equal. lia.
    + rewrite (attemptReconnect_at_cap r c) by lia.
      set (c0 := log (ConsoleError "[WebSocket] Max reconnection attempts reached") c).
      pose proof (emit_frame "reconnectFailed" None c0) as Hf. cbn zeta in Hf.
      destruct Hf as (_ & _ & _ & Hfa & Hfm & _ & Hfl & _ & _ & _ & Hfp & Hft).
      pose proof (emit_world "reconnectFailed" None c0) as Hew.
      change (listeners c0) with (listeners c) in Hew, Hfl.
      change (world c0) with (world c) in Hew.
      change (reconnectAttempts c0) with (reconnectAttempts c) in Hfa.
      change (maxReconnectAttempts c0) with (maxReconnectAttempts c) in Hfm.
      change (isProduction c0) with (isProduction c) in Hfp.
      change (timers c0) with (timers c) in Hft.
      edestruct (IH (fst (emit "reconnectFailed" None c0)) a cap prod L
                    (invokeAll None (default [] (L !! "reconnectFailed")) w) t)
        as (Ha' & Ht' & Hw' & Hm' & Hl' & Hp'); try congruence.
      rewrite Ha', Ht', Hw', Hm', Hl', Hp'.
      replace (cap - a)%nat with 0%nat by lia.
      rewrite !take_0.
      replace (a + S (length rest) - cap)%nat with (S (a + length rest - cap)) by lia.
      rewrite Nat.iter_succ_r.
      repeat split; try done; lia.
Qed.


End Reconnect.



(** *** The send queue *)

Section Queue.
Context {World : Type}.
Implicit Types (c : Client World).

Lemma connect_keeps_queue newId throws c :
  messageQueue (connect newId throws c) = messageQueue c.
Proof.
  unfold connect. destruct throws; [|done].
  by destruct (emit_frame "error" (Some "error")
                 (log (ConsoleError "[WebSocket] Connection error:") c))
    as (_ & _ & _ & _ & _ & -> & _).
Qed.

(** A command sent while the client is not connected, or while its current
    socket is not open, goes to the tail of the queue. *)
Lemma send_enqueues action params rid genId newId throws c :
  connected c && ws_is_open c = false ->
  let m := build_message action params rid genId c in
  messageQueue (fst (send action params rid genId newId throws c))
  = messageQueue c ++ [m]
  ∧ snd (send action params rid genId newId throws c) = msg_responseId m.
Proof.
  intros H. cbn zeta. unfold send. rewrite H. cbn [fst snd connected set_messageQueue].
  split; [|done].
  destruct (negb (connected c)); [|done].
  by rewrite connect_keeps_queue.
Qed.

(** Flushing while the current socket is the open one writes the whole
    queue to it in order. *)
Lemma flushLoop_open (queue : list Message) :
  ∀ c (i : nat) (s : Socket),
    connected c = true -> ws c = Some i ->
    sockets c !! i = Some s -> readyState s = OPEN ->
    let c' := flushLoop queue c in
    messageQueue c' = []
    ∧ sockets c' !! i = Some {| readyState := OPEN; sent := sent s ++ map FJson queue |}
    ∧ same_session c c'.
Proof.
  induction queue as [|m rest IH]; intros c i s Hc Hws Hs Hopen; cbn zeta.
  - cbn. split; [done|]. split; [|by repeat split].
    rewrite Hs. destruct s as [r fs]; cbn in *. by rewrite Hopen, app_nil_r.
  - cbn [flushLoop]. rewrite Hc.
    assert (ws_is_open (set_messageQueue rest c) = true) as ->.
    { unfold ws_is_open; cbn. by rewrite Hws, Hs, Hopen. }
    unfold ws_send. cbn [ws set_messageQueue]. rewrite Hws.
    set (c2 := set_sockets _ _).
    destruct (IH c2 i (write (FJson m) s)) as (Hq & Hsock & Hsame); try done.
    { subst c2; cbn. by rewrite list_lookup_alter_eq, Hs. }
    split; [done|]. split.
    + rewrite Hsock. cbn. by rewrite <- app_assoc.
    + unfold same_session in *. subst c2. cbn in Hsame. done.
Qed.

(** Flushing while the current socket is not open (or absent) empties the
    queue and writes nothing. *)
Lemma flushLoop_not_open (queue : list Message) :
  ∀ c, connected c = true -> ws_is_open c = false ->
       flushLoop queue c = set_messageQueue [] c.
Proof.
  induction queue as [|m rest IH]; intros c Hc Hno; [done|].
  cbn [flushLoop]. rewrite Hc.
  assert (ws_is_open (set_messageQueue rest c) = false) as -> by done.
  by rewrite IH.
Qed.

End Queue.

(** *** Open and keepalive *)

Section Open.
Context {World : Type}.
Implicit Types (c : Client World).

Lemma onopen_spec c (i : nat) (s : Socket) :
  ws c = Some i -> sockets c !! i = Some s -> readyState s = OPEN ->
  let c' := onopen c in
  connected c' = true
  ∧ reconnectAttempts c' = 0%nat
  ∧ messageQueue c' = []
  ∧ ws c' = Some i
  ∧ sockets c' !! i
    = Some {| readyState := OPEN; sent := sent s ++ map FJson (messageQueue c) |}
  ∧ pingInterval c' = (if isProduction c then Some 30000%Z else pingInterval c)
  ∧ pongTimeout c' = (if isProduction c then None else pongTimeout c)
  ∧ isProduction c' = isProduction c
  ∧ maxReconnectAttempts c' = maxReconnectAttempts c
  ∧ timers c' = timers c.
Proof.
  intros Hws Hs Hopen. cbn zeta. unfold onopen, flushMessageQueue.
  set (c2 := set_reconnectAttempts 0 (set_connected true c)).
  destruct (flushLoop_open (messageQueue c2) c2 i s) as (Hq & Hsock & Hsame); try done.
  change (messageQueue c2) with (messageQueue c) in *.
  set (c3 := flushLoop (messageQueue c) c2) in *.
  destruct Hsame as (Sws & _ & Sa & Sm & _ & Sc & Spi & Spo & Spr & _ & _ & St).
  destruct (emit_frame "connected" None c3)
    as (Ews & Esk & _ & Ea & Em & Eq & _ & Ec & Epi & Epo & Epr & Et).
  set (c4 := fst (emit "connected" None c3)) in *.
  assert (isProduction c4 = isProduction c) as Hprod by (by rewrite Epr, Spr).
  unfold startKeepAlive. rewrite Hprod.
  destruct (isProduction c) eqn:Hp; cbn;
    rewrite ?Ews, ?Esk, ?Ea, ?Em, ?Eq, ?Ec, ?Epi, ?Epo, ?Epr, ?Et,
            ?Sws, ?Sa, ?Sm, ?Sc, ?Spi, ?Spo, ?Spr, ?St, ?Hq, ?Hsock;
    subst c2; cbn; rewrite ?Hp; done.
Qed.

(** C8 (as amended).  When the handler of the client's current socket runs
    on open, the client is marked connected, the retry count is zero and
    the queued commands have been written to the socket in order.  In
    production a ping interval of 30000 ms is started: each firing writes
    ['ping'] and arms a 5000 ms timeout, which a ['pong'] disarms and which
    otherwise closes the socket, whose close event schedules a reconnect.
    Outside production no heartbeat is started. *)
Theorem open_resets_flushes_and_starts_keepalive_in_production
  c (i : nat) (s : Socket) (rnd : Q) :
  ws c = Some i -> sockets c !! i = Some s -> readyState s = OPEN ->
  let c' := onopen c in
  let probed := pingTick c' in
  connected c' = true
  ∧ reconnectAttempts c' = 0%nat
  ∧ messageQueue c' = []
  ∧ written i c' = sent s ++ map FJson (messageQueue c)
  ∧ (isProduction c = true ->
     pingInterval c' = Some 30000%Z
     ∧ written i probed = written i c' ++ [FText "ping"]
     ∧ pingInterval probed = Some 30000%Z
     ∧ pongTimeout probed = Some 5000%Z
     ∧ pongTimeout (onPong probed) = None
     ∧ pongTimeoutFires (onPong probed) = onPong probed
     ∧ (readyState <$> sockets (pongTimeoutFires probed) !! i) = Some CLOSING
     ∧ ((0 < maxReconnectAttempts c)%nat ->
        connected (socketCloses i rnd (pongTimeoutFires probed)) = false
        ∧ timers (socketCloses i rnd (pongTimeoutFires probed))
          = timers c ++ [backoff true 1 rnd]))
  ∧ (isProduction c = false ->
     pingInterval c' = pingInterval c ∧ pongTimeout c' = pongTimeout c).
Proof.
  intros Hws Hs Hopen c' probed.
  destruct (onopen_spec c i s Hws Hs Hopen)
    as (Hc & Ha & Hq & Hws' & Hs' & Hpi & Hpo & Hpr & Hm & Ht).
  fold c' in Hc, Ha, Hq, Hws', Hs', Hpi, Hpo, Hpr, Hm, Ht.
  split; [done|]. split; [done|]. split; [done|].
  split; [unfold written; by rewrite Hs'|].
  split.
  - intros Hprod. rewrite Hprod in *.
    assert (ws_is_open c' = true) as Hio.
    { unfold ws_is_open. by rewrite Hws', Hs'. }
    assert (probed = set_pongTimeout (Some 5000%Z)
                       (set_sockets (alter (write (FText "ping")) i (sockets c')) c'))
      as Hprobed.
    { unfold probed, pingTick, ws_send. by rewrite Hpi, Hio, Hws'. }
    split; [done|].
    split.
    { rewrite Hprobed. unfold written; cbn.
      by rewrite list_lookup_alter_eq, Hs'. }
    split; [by rewrite Hprobed|].
    split; [by rewrite Hprobed|].
    split; [done|].
    split; [done|].
    assert (sockets (pongTimeoutFires probed) !! i
            = Some {| readyState := CLOSING;
                      sent := (sent s ++ map FJson (messageQueue c)) ++ [FText "ping"] |})
      as Hclosing.
    { rewrite Hprobed. unfold pongTimeoutFires, ws_close; cbn. rewrite Hws'.
      cbn. by rewrite !list_lookup_alter_eq, Hs'. }
    split; [by rewrite Hclosing|].
    intros Hmax.
    unfold socketCloses, onclose.
    set (c5 := stopKeepAlive _).
    destruct (emit_frame "disconnected" None c5)
      as (_ & _ & _ & Ea & Em & _ & _ & Ec & _ & _ & Epr & Et).
    set (c6 := fst (emit "disconnected" None c5)) in *.
    assert (reconnectAttempts c6 = 0%nat) as Ha6.
    { rewrite Ea. subst c5. rewrite Hprobed. unfold pongTimeoutFires; cbn.
      unfold ws_close; cbn. by destruct (ws c'). }
    assert (maxReconnectAttempts c6 = maxReconnectAttempts c) as Hm6.
    { rewrite Em. subst c5. rewrite Hprobed. unfold pongTimeoutFires; cbn.
      unfold ws_close; cbn. by destruct (ws c'). }
    assert (isProduction c6 = true) as Hp6.
    { rewrite Epr. subst c5. rewrite Hprobed. unfold pongTimeoutFires; cbn.
      unfold ws_close; cbn. by destruct (ws c'). }
    assert (timers c6 = timers c) as Ht6.
    { rewrite Et. subst c5. rewrite Hprobed. unfold pongTimeoutFires; cbn.
      unfold ws_close; cbn. by destruct (ws c'). }
    assert (connected c6 = false) as Hc6 by (by rewrite Ec).
    rewrite attemptReconnect_below by (rewrite Ha6, Hm6; lia).
    cbn. by rewrite Ha6, Hp6, Ht6, Hc6.
  - intros Hprod. rewrite Hprod in *. done.
Qed.

End Open.

(** C8, the claim as stated fails: a development client that opens its
    socket holds no ping interval afterwards. *)
Lemma no_keepalive_outside_production :
  ¬ (∀ (c : Client unit) (i : nat),
       ws c = Some i ->
       pingInterval (socketOpens i c) = Some 30000%Z).
Proof.
  intros H. specialize (H Samples.imported 0%nat eq_refl).
  vm_compute in H. discriminate H.
Qed.

(** C8 on [Samples.opening]: both queued commands are written, the
    ['connected'] listener runs, and the heartbeat is armed. *)
Lemma open_resets_flushes_and_starts_keepalive_in_production_witness :
  length (written 0 (onopen Samples.opening)) = 2%nat
  ∧ world (onopen Samples.opening) = 1%nat
  ∧ pingInterval (onopen Samples.opening) = Some 30000%Z
  ∧ pongTimeout (pingTick (onopen Samples.opening)) = Some 5000%Z.
Proof.
  pose proof (open_resets_flushes_and_starts_keepalive_in_production
                Samples.opening 0%nat {| readyState := OPEN; sent := [] |} (1 # 2)
                eq_refl eq_refl eq_refl)
    as (_ & _ & _ & Hw & Hprod & _).
  destruct (Hprod eq_refl) as (Hpi & _ & _ & Hpo & _).
  split; [rewrite Hw; reflexivity|].
  split; [vm_compute; reflexivity|].
  split; [exact Hpi | exact Hpo].
Defined.

(** C7, the defect.  The module is imported, so socket 0 is connecting;
    [send('startGame', ...)] is called before it opens: the command is
    queued and, the client not being connected, [connect()] runs again and
    socket 1 replaces socket 0 as the current socket.  When socket 0 then
    opens, its handler flushes the queue against socket 1, which is still
    connecting: the command leaves the queue and is written nowhere. *)
Theorem queued_command_lost_when_replaced_socket_opens :
  let c2 := fst Samples.early_send in
  let c3 := socketOpens 0 c2 in
  length (messageQueue c2) = 1%nat
  ∧ ws c2 = Some 1%nat
  ∧ (readyState <$> sockets c3 !! 0%nat) = Some OPEN
  ∧ (readyState <$> sockets c3 !! 1%nat) = Some CONNECTING
  ∧ connected c3 = true
  ∧ messageQueue c3 = []
  ∧ all_written c3 = [].
Proof. vm_compute. done. Qed.

End WsClientSpec.

(** ** Lobby *)

Module LobbySpec.
Import Lobby.

Lemma isGuest_true (room : option Room) (p : Player) :
  isGuest room p = true
  ↔ truthy_bool (isBot p) = false ∧ host_of room ≠ Some (id p).
Proof.
  unfold isGuest. rewrite andb_true_iff, !negb_true_iff.
  by rewrite strict_eq_false.
Qed.

Lemma canStart_true (room : option Room) :
  canStart room = true
  ↔ ∃ ps, players_of room = Some ps ∧ (2 <= length ps)%nat.
Proof.
  unfold canStart. destruct (players_of room) as [ps|].
  - rewrite Nat.leb_le. split; [by exists ps|].
    by intros (ps' & [= <-] & H).
  - split; [done|]. by intros (ps' & [=] & _).
Qed.

Lemma allReady_true (room : option Room) :
  allReady room = true
  ↔ ∀ p, p ∈ guestPlayers room -> ready p = Some true.
Proof.
  unfold allReady.
  assert (forallb (fun p => is_true (ready p)) (guestPlayers room) = true
          ↔ ∀ p, p ∈ guestPlayers room -> ready p = Some true) as Hall.
  { rewrite forallb_forall. split; intros H p Hp.
    - apply is_true_true, H. by apply list_elem_of_In.
    - apply is_true_true, H. by apply list_elem_of_In. }
  rewrite orb_true_iff, Hall. split; [|by right].
  intros [Hlen|H]; [|done].
  apply Nat.eqb_eq in Hlen. destruct (guestPlayers room); [|done].
  intros p Hp. by apply elem_of_nil in Hp.
Qed.

Lemma guestPlayers_elem (room : option Room) (p : Player) :
  p ∈ guestPlayers room
  ↔ ∃ ps, players_of room = Some ps ∧ p ∈ ps ∧ isGuest room p = true.
Proof.
  unfold guestPlayers. destruct (players_of room) as [ps|].
  - rewrite list_elem_of_In, filter_In, <- list_elem_of_In.
    split; [intros [? ?]; by exists ps|].
    by intros (ps' & [= <-] & ? & ?).
  - split; [by intros ?%elem_of_nil|]. by intros (ps' & [=] & _).
Qed.

(** C10.  A click on the lobby's start control calls the start action
    exactly when a handler was passed, the local participant is the
    host, the room lists at least two participants and every participant
    that is neither a bot nor the host has [ready === true]; in every other
    case the click calls nothing. *)
Theorem start_control_guard (room : option Room) (playerId : string) (onStart : bool) :
  starts (clickStart room playerId onStart) = true
  ↔ onStart = true
    ∧ host_of room = Some playerId
    ∧ ∃ ps, players_of room = Some ps
            ∧ (2 <= length ps)%nat
            ∧ ∀ p, p ∈ ps -> truthy_bool (isBot p) = false ->
                   host_of room ≠ Some (id p) -> ready p = Some true.
Proof.
  unfold clickStart, control, onClick.
  destruct (isHost room playerId) eqn:Hhost.
  - apply strict_eq_true in Hhost.
    destruct (canStart room) eqn:Hcan; cbn [negb orb].
    + apply canStart_true in Hcan as (ps & Hps & Hlen).
      destruct (allReady room) eqn:Hready; cbn [negb].
      * pose proof (proj1 (allReady_true room) Hready) as Hall.
        destruct onStart; cbn; split; try done.
        -- intros _. split; [done|]. split; [done|].
           exists ps. split; [done|]. split; [done|].
           intros p Hp Hbot Hnh. apply Hall, guestPlayers_elem.
           exists ps. split; [done|]. split; [done|]. by apply isGuest_true.
        -- by intros ([=] & _).
      * cbn. split; [done|].
        intros (_ & _ & ps' & Hps' & _ & Hall).
        assert (allReady room = true) as Habs; [|congruence].
        apply allReady_true. intros p (ps'' & Hps'' & Hp & Hg)%guestPlayers_elem.
        apply isGuest_true in Hg as [Hbot Hnh].
        apply Hall; [congruence|done|done].
    + cbn. split; [done|].
      intros (_ & _ & ps & Hps & Hlen & _).
      assert (canStart room = true) as Habs; [|congruence].
      apply canStart_true. by exists ps.
  - cbn. split; [done|].
    intros (_ & Hh & _). apply strict_eq_true in Hh.
    unfold isHost in Hhost. congruence.
Qed.

(** C10 on [Samples.lobbyRoom]: the host's click starts the game, the
    guest's does not. *)
Lemma start_control_guard_witness :
  starts (clickStart (Some Samples.lobbyRoom) "player_h" true) = true
  ∧ starts (clickStart (Some Samples.lobbyRoom) "player_g" true) = false.
Proof.
  split.
  - apply (start_control_guard (Some Samples.lobbyRoom) "player_h" true).
    split; [reflexivity|]. split; [reflexivity|].
    exists [Samples.host; Samples.guest].
    split; [reflexivity|]. split; [cbn; lia|].
    intros p Hp Hbot Hnh.
    apply elem_of_cons in Hp as [->|Hp]; [by destruct Hnh|].
    apply elem_of_cons in Hp as [->|Hp]; [reflexivity|].
    by apply elem_of_nil in Hp.
  - destruct (starts (clickStart (Some Samples.lobbyRoom) "player_g" true)) eqn:E;
      [|reflexivity].
    apply (start_control_guard (Some Samples.lobbyRoom) "player_g" true) in E
      as (_ & H & _).
    discriminate H.
Defined.

End LobbySpec.

(** ** Page component *)

Module GameSpec.
Import Game.

(** *** Authoritative updates under the waiting-lobby intent *)

Lemma seedDisplay_room (s : State) : room (seedDisplay s) = room s.
Proof.
  unfold seedDisplay.
  by destruct (room s) eqn:Hr, (displayRoom s) eqn:Hd.
Qed.

Lemma seedDisplay_flag (s : State) :
  isInWaitingLobbyRef (seedDisplay s) = isInWaitingLobbyRef s.
Proof.
  unfold seedDisplay.
  by destruct (room s) eqn:Hr, (displayRoom s) eqn:Hd.
Qed.

Lemma commit_st (s : State) (p : Page) : st (commit s p) = seedDisplay s.
Proof. unfold commit. by case_decide. Qed.

(** Under the intent flag a [roomUpdate] whose status is not ['waiting']
    and every [gameUpdate] leave the state as it is. *)
Lemma handle_discards (cl : Closure) (now : Q) (ev : Event) (s : State) :
  isInWaitingLobbyRef s = true ->
  isUpdate ev = true ->
  (∀ r, ev = RoomUpdate (Some r) -> status r ≠ "waiting") ->
  handle cl now ev s = (s, []).
Proof.
  intros Hflag Hup Hnw.
  destruct ev as [[r|]|u| | |]; try done; cbn.
  - rewrite Hflag.
    destruct (String.eqb_spec (status r) "waiting") as [Hw|]; [|done].
    by destruct (Hnw r eq_refl).
  - unfold handleGameUpdate. destruct (u_room u); [by rewrite Hflag|done].
Qed.

Lemma handle_applies_waiting (cl : Closure) (now : Q) (r : Room) (s : State) :
  isInWaitingLobbyRef s = true ->
  status r = "waiting" ->
  handle cl now (RoomUpdate (Some r)) s = (setRoom (Some r) s, []).
Proof. intros Hflag Hw. cbn. by rewrite Hflag, Hw. Qed.

Lemma deliver_under_intent (now : Q) (ev : Event) (p : Page) :
  isInWaitingLobbyRef (st p) = true ->
  isUpdate ev = true ->
  let q := fst (deliver now ev p) in
  isInWaitingLobbyRef (st q) = true
  ∧ (room (st q) = room (st p)
     ∨ ∃ r, ev = RoomUpdate (Some r) ∧ status r = "waiting"
            ∧ room (st q) = Some r).
Proof.
  intros Hflag Hup. cbn zeta. unfold deliver.
  destruct (wsHandlers p) as [cl|]; [|by split; [|left]].
  destruct ev as [[r|]|u| | |]; try done.
  - destruct (String.eqb_spec (status r) "waiting") as [Hw|Hnw].
    + rewrite handle_applies_waiting by done. cbn [fst].
      rewrite commit_st, seedDisplay_flag, seedDisplay_room. cbn.
      split; [done|]. right. by exists r.
    + rewrite handle_discards; try done; [|by intros ? [= <-]].
      cbn [fst]. rewrite commit_st, seedDisplay_flag, seedDisplay_room.
      by split; [|left].
  - rewrite handle_discards by done.
    cbn [fst]. rewrite commit_st, seedDisplay_flag, seedDisplay_room.
    by split; [|left].
  - rewrite handle_discards by done.
    cbn [fst]. rewrite commit_st, seedDisplay_flag, seedDisplay_room.
    by split; [|left].
Qed.


(** C1.  While the waiting-lobby intent is set, however many [roomUpdate]
    and [gameUpdate] broadcasts arrive, the flag stays set and the stored
    room is either the one stored before or the room of one of the
    [roomUpdate] broadcasts whose status is ['waiting']; the handler of any
    other update returns the state it was given and does nothing else. *)
Theorem waiting_intent_admits_only_waiting_updates (p : Page) (evs : list (Q * Event)) :
  isInWaitingLobbyRef (st p) = true ->
  Forall (fun e => isUpdate (snd e) = true) evs ->
  let p' := deliverAll evs p in
  isInWaitingLobbyRef (st p') = true
  ∧ (room (st p') = room (st p)
     ∨ ∃ now r, (now, RoomUpdate (Some r)) ∈ evs ∧ status r = "waiting"
                ∧ room (st p') = Some r)
  ∧ (∀ cl now r, status r ≠ "waiting" ->
       handle cl now (RoomUpdate (Some r)) (st p') = (st p', []))
  ∧ (∀ cl now u, handle cl now (GameUpdate u) (st p') = (st p', []))
  ∧ (∀ cl now r, status r = "waiting" ->
       handle cl now (RoomUpdate (Some r)) (st p') = (setRoom (Some r) (st p'), [])).
Proof.
  intros Hflag Hall. cbn zeta.
  assert (isInWaitingLobbyRef (st (deliverAll evs p)) = true
          ∧ (room (st (deliverAll evs p)) = room (st p)
             ∨ ∃ now r, (now, RoomUpdate (Some r)) ∈ evs ∧ status r = "waiting"
                        ∧ room (st (deliverAll evs p)) = Some r)) as [Hf Hroom].
  { revert p Hflag. induction Hall as [|[now ev] rest Hev _ IH]; intros p Hflag.
    - by split; [|left].
    - change (deliverAll ((now, ev) :: rest) p)
        with (deliverAll rest (fst (deliver now ev p))).
      destruct (deliver_under_intent now ev p Hflag Hev) as [Hf1 Hr1].
      destruct (IH _ Hf1) as [Hf2 Hr2].
      split; [done|].
      destruct Hr2 as [Heq|(now' & r & Hin & Hw & Hr)].
      + rewrite Heq. destruct Hr1 as [->|(r & -> & Hw & Hr)]; [by left|].
        right. exists now, r. split; [apply elem_of_cons; by left|done].
      + right. exists now', r. split; [apply elem_of_cons; by right|done]. }
  split; [done|]. split; [done|].
  split; [|split].
  - intros cl now r Hnw. apply handle_discards; try done. by intros ? [= <-].
  - intros cl now u. by apply handle_discards.
  - intros cl now r Hw. by apply handle_applies_waiting.
Qed.

(** C1 on [Samples.waitingAgain]: a stale ['playing'] update followed by
    the genuine ['waiting'] one leaves the session waiting. *)
Lemma waiting_intent_admits_only_waiting_updates_witness :
  status <$> room (st (deliverAll
                         [(100%Q, RoomUpdate (Some Samples.playingRoom));
                          (200%Q, RoomUpdate (Some Samples.lobbyRoom))]
                         Samples.waitingAgain)) = Some "waiting".
Proof.
  pose proof (waiting_intent_admits_only_waiting_updates
                Samples.waitingAgain
                [(100%Q, RoomUpdate (Some Samples.playingRoom));
                 (200%Q, RoomUpdate (Some Samples.lobbyRoom))]
                eq_refl ltac:(repeat constructor))
    as (_ & [Heq|(now & r & _ & Hw & Hr)] & _).
  - rewrite Heq. reflexivity.
  - rewrite Hr. cbn. by rewrite Hw.
Defined.

(** *** Chat and typing merges *)

(** Whatever the merge stores comes from the room of the closure: all its
    fields but [chat], [gameChat] and [typing] are the closure's. *)
Lemma handleChatMessage_room (cl : Closure) (u : option Room) (s : State) :
  room (handleChatMessage cl u s) = room s
  ∨ ∃ r r', cl_room cl = Some r ∧ room (handleChatMessage cl u s) = Some r'
            ∧ status r' = status r ∧ room_code r' = room_code r
            ∧ host_id r' = host_id r ∧ players r' = players r
            ∧ board r' = board r.
Proof.
  unfold handleChatMessage.
  destruct u as [u|]; [|by left].
  destruct (cl_room cl) as [r|]; [|by left].
  cbn [status with_chat]. rewrite String.eqb_refl.
  right. exists r. eexists. split; [done|].
  split; [by destruct (cl_displayRoom cl)|]. done.
Qed.

Lemma handleTypingUpdate_room (cl : Closure) (u : option Room) (s : State) :
  room (handleTypingUpdate cl u s) = room s
  ∨ ∃ r r', cl_room cl = Some r ∧ room (handleTypingUpdate cl u s) = Some r'
            ∧ status r' = status r ∧ room_code r' = room_code r
            ∧ host_id r' = host_id r ∧ players r' = players r
            ∧ chat r' = chat r ∧ gameChat r' = gameChat r
            ∧ board r' = board r.
Proof.
  unfold handleTypingUpdate.
  destruct u as [u|]; [|by left].
  destruct (cl_room cl) as [r|]; [|by left].
  cbn [status with_typing]. rewrite String.eqb_refl.
  right. exists r. eexists. split; [done|].
  split; [by destruct (cl_displayRoom cl)|]. done.
Qed.

(** When the handlers were created in the render that shows the current
    state, neither merge changes the status. *)
Lemma merges_keep_status_with_fresh_closure (u : option Room) (s : State) :
  status <$> room (handleChatMessage (capture s) u s) = status <$> room s
  ∧ status <$> room (handleTypingUpdate (capture s) u s) = status <$> room s.
Proof.
  split.
  - destruct (handleChatMessage_room (capture s) u s)
      as [->|(r & r' & Hcl & -> & Hst & _)]; [done|].
    cbn in Hcl. rewrite Hcl. cbn. by rewrite Hst.
  - destruct (handleTypingUpdate_room (capture s) u s)
      as [->|(r & r' & Hcl & -> & Hst & _)]; [done|].
    cbn in Hcl. rewrite Hcl. cbn. by rewrite Hst.
Qed.

(** C2, the defect.  The handlers are registered again only when the room
    code or the countdown changes, so after the countdown they keep the
    room of that render.  When the game then ends, the stored status is
    ['ended'], yet a chat or a typing broadcast stores a copy of the room
    the handlers closed over: the status goes back to ['playing'] and the
    board to the one shown at the start. *)
Theorem chat_broadcast_restores_stale_status :
  status <$> room (st Samples.afterCountdown) = Some "playing"
  ∧ countdown (st Samples.afterCountdown) = None
  ∧ status <$> room (st Samples.afterGameEnd) = Some "ended"
  ∧ board <$> room (st Samples.afterGameEnd) = Some 42%nat
  ∧ status <$> room (st Samples.afterChat) = Some "playing"
  ∧ board <$> room (st Samples.afterChat) = Some 0%nat
  ∧ status <$> room (st Samples.afterTyping) = Some "playing".
Proof. vm_compute. done. Qed.

(** *** Render pacer *)

Lemma pace_snoc (updates : list (Q * Room)) (now : Q) (r : Room) (s : State) :
  pace (updates ++ [(now, r)]) s = setRoomWithInterpolation now r (pace updates s).
Proof. unfold pace. by rewrite foldl_app. Qed.

Lemma setRoomWithInterpolation_room (now : Q) (r : Room) (s : State) :
  room (setRoomWithInterpolation now r s) = Some r.
Proof.
  unfold setRoomWithInterpolation. cbn.
  by destruct (Qle_bool 16 (now - lastUpdateTimeRef s)).
Qed.

Lemma setRoomWithInterpolation_slot (now : Q) (r : Room) (s : State) :
  let s' := setRoomWithInterpolation now r s in
  pendingRoomUpdateRef s' = Some r
  ∨ pendingRoomUpdateRef s' = None ∧ displayRoom s' = Some r.
Proof.
  cbn zeta. unfold setRoomWithInterpolation. cbn.
  destruct (Qle_bool 16 (now - lastUpdateTimeRef s)); cbn; [by right|by left].
Qed.

Lemma setRoomWithInterpolation_buffered (now : Q) (r : Room) (s : State) :
  (now - lastUpdateTimeRef s < 16)%Q ->
  let s' := setRoomWithInterpolation now r s in
  pendingRoomUpdateRef s' = Some r
  ∧ displayRoom s' = displayRoom s
  ∧ lastUpdateTimeRef s' = lastUpdateTimeRef s.
Proof.
  intros Hlt. cbn zeta. unfold setRoomWithInterpolation. cbn.
  destruct (Qle_bool 16 (now - lastUpdateTimeRef s)) eqn:Hle; [|done].
  apply Qle_bool_iff in Hle. lra.
Qed.

(** Updates that all arrive less than 16 ms after the last display update
    leave the display snapshot and its time stamp alone. *)
Lemma pace_buffered (updates : list (Q * Room)) :
  ∀ s, Forall (fun u => (fst u - lastUpdateTimeRef s < 16)%Q) updates ->
       displayRoom (pace updates s) = displayRoom s
       ∧ lastUpdateTimeRef (pace updates s) = lastUpdateTimeRef s.
Proof.
  induction updates as [|[now r] rest IH]; intros s Hall; [done|].
  apply Forall_cons in Hall as [Hnow Hrest]. cbn [fst] in Hnow.
  destruct (setRoomWithInterpolation_buffered now r s Hnow) as (_ & Hd & Ht).
  change (pace ((now, r) :: rest) s)
    with (pace rest (setRoomWithInterpolation now r s)).
  destruct (IH (setRoomWithInterpolation now r s)) as [Hd' Ht'].
  { by rewrite Ht. }
  by rewrite Hd', Ht', Hd, Ht.
Qed.

Lemma renderLoop_flush (t : Q) (l : RenderLocals) (s : State) :
  (16 <= t - lastPendingUpdateCheck l)%Q ->
  let s' := snd (renderLoop t l s) in
  pendingRoomUpdateRef s' = None
  ∧ displayRoom s' = js_or (pendingRoomUpdateRef s) (displayRoom s)
  ∧ room s' = room s.
Proof.
  intros Hdue. cbn zeta. unfold renderLoop.
  apply Qle_bool_iff in Hdue.
  destruct (pendingRoomUpdateRef s) as [pending|] eqn:Hp; rewrite ?Hdue;
    destruct (Qle_bool 1000 (t - lastFpsUpdate l)); cbn; by rewrite ?Hp.
Qed.

(** C3.  However many updates arrive, and at whatever times, the pacer
    holds at most one pending snapshot, and after the last of them either
    that update is the pending one or nothing is pending and it is already
    displayed.  When all of them arrive within 16 ms of the last display
    update, each overwrites the pending slot and the display is untouched.
    A render frame that is due then displays exactly the last update and
    leaves nothing pending. *)
Theorem pacer_buffers_one_update_and_flush_shows_last
  (s : State) (earlier : list (Q * Room)) (now : Q) (last : Room)
  (l : RenderLocals) (t : Q) :
  (16 <= t - lastPendingUpdateCheck l)%Q ->
  let updates := earlier ++ [(now, last)] in
  let s' := pace updates s in
  let flushed := snd (renderLoop t l s') in
  room s' = Some last
  ∧ (length (option_list (pendingRoomUpdateRef s')) <= 1)%nat
  ∧ (pendingRoomUpdateRef s' = Some last
     ∨ pendingRoomUpdateRef s' = None ∧ displayRoom s' = Some last)
  ∧ (Forall (fun u => (fst u - lastUpdateTimeRef s < 16)%Q) updates ->
     pendingRoomUpdateRef s' = Some last ∧ displayRoom s' = displayRoom s)
  ∧ displayRoom flushed = Some last
  ∧ pendingRoomUpdateRef flushed = None
  ∧ room flushed = Some last.
Proof.
  intros Hdue updates s' flushed.
  assert (s' = setRoomWithInterpolation now last (pace earlier s)) as Hs'
    by apply pace_snoc.
  pose proof (setRoomWithInterpolation_slot now last (pace earlier s)) as Hslot.
  cbn zeta in Hslot. rewrite <- Hs' in Hslot.
  destruct (renderLoop_flush t l s' Hdue) as (Hfp & Hfd & Hfr).
  fold flushed in Hfp, Hfd, Hfr.
  assert (room s' = Some last) as Hroom
    by (rewrite Hs'; apply setRoomWithInterpolation_room).
  split; [done|].
  split; [by destruct (pendingRoomUpdateRef s'); cbn; lia|].
  split; [done|].
  split.
  - intros Hall. apply Forall_app in Hall as [Hearlier Hlast].
    apply Forall_cons in Hlast as [Hlast _]. cbn [fst] in Hlast.
    destruct (pace_buffered earlier s Hearlier) as [Hd Ht].
    destruct (setRoomWithInterpolation_buffered now last (pace earlier s))
      as (Hp & Hd' & _); [by rewrite Ht|].
    rewrite <- Hs' in Hp, Hd'. split; [done|]. by rewrite Hd'.
  - split; [|by rewrite Hfr].
    rewrite Hfd. by destruct Hslot as [->|[-> ->]].
Qed.

(** C3 on three updates that arrive 1, 2 and 3 ms after a display update:
    the frame 20 ms later shows the third. *)
Lemma pacer_buffers_one_update_and_flush_shows_last_witness :
  displayRoom
    (snd (renderLoop 1020
            {| frameCount := 0; lastFpsUpdate := 1000; lastPendingUpdateCheck := 1000 |}
            (pace [(1001%Q, Samples.playingRoom); (1002%Q, Samples.hostlessRoom);
                   (1003%Q, Samples.endedRoom)]
               (set_lastUpdateTimeRef 1000 initial))))
  = Some Samples.endedRoom.
Proof.
  assert (16 <= 1020 - 1000)%Q as Hdue by (apply Qle_bool_imp_le; reflexivity).
  pose proof (pacer_buffers_one_update_and_flush_shows_last
                (set_lastUpdateTimeRef 1000 initial)
                [(1001%Q, Samples.playingRoom); (1002%Q, Samples.hostlessRoom)]
                1003 Samples.endedRoom
                {| frameCount := 0; lastFpsUpdate := 1000; lastPendingUpdateCheck := 1000 |}
                1020 Hdue)
    as (_ & _ & _ & _ & Hd & _).
  exact Hd.
Defined.

(** *** Tick scheduler *)

Lemma gameLoopEffect_starts (room : option Room) (cd : option Z) :
  is_Some (gameLoopEffect room cd)
  ↔ status <$> room = Some "playing"
    ∧ (cd = None ∨ ∃ c, cd = Some c ∧ (c <= 0)%Z).
Proof.
  unfold gameLoopEffect.
  destruct (strict_eq (status <$> room) "playing") eqn:Hs; cbn [negb].
  - apply strict_eq_true in Hs.
    destruct cd as [c|].
    + destruct (Z.ltb_spec 0 c).
      * split; [by intros [? ?]|]. intros (_ & [?|(c' & [= <-] & ?)]); [done|lia].
      * split; [|by eexists]. intros _. split; [done|]. right. by exists c.
    + split; [|by eexists]. intros _. split; [done|]. by left.
  - apply strict_eq_false in Hs.
    split; [by intros [? ?]|]. by intros [? _].
Qed.

Lemma TICK_RATE_pos (isProduction : bool) : (0 < TICK_RATE isProduction)%Z.
Proof. by destruct isProduction. Qed.

(** One call of [gameTick] either does nothing or, the interval having
    passed, records the reading and sends exactly one tick-advance
    request. *)
Lemma gameTick_cases (isProduction : bool) (playerId : string) (cl : Closure)
  (env : TickEnv) (s : State) :
  gameTick isProduction playerId cl env s = (s, [])
  ∨ (lastTickRef s + TICK_RATE isProduction <= date_now env)%Z
    ∧ lastTickRef (fst (gameTick isProduction playerId cl env s)) = date_now env
    ∧ tickRequests (snd (gameTick isProduction playerId cl env s)) = 1%nat.
Proof.
  unfold gameTick.
  destruct (cl_room cl) as [room|]; [|by left].
  destruct (negb (String.eqb (status room) "playing")); [by left|].
  destruct (match cl_countdown cl with Some c => (0 <? c)%Z | None => false end);
    [by left|].
  destruct (truthy_string (host_id room) && negb (strict_eq (host_id room) playerId));
    [by left|].
  destruct (Z.ltb_spec (date_now env - lastTickRef s) (TICK_RATE isProduction));
    [by left|].
  right. split; [lia|].
  destruct (directionQueueRef (set_lastTickRef (date_now env) s)); by cbn.
Qed.

Lemma run_requests (isProduction : bool) (playerId : string)
  (calls : list (Closure * TickEnv)) :
  ∀ s, Forall (fun e => (tickRequests (snd e) <= 1)%nat)
              (run isProduction playerId calls s).
Proof.
  induction calls as [|[cl env] rest IH]; intros s; cbn [run]; [constructor|].
  destruct (gameTick_cases isProduction playerId cl env s) as [H|(_ & _ & H)];
    destruct (gameTick isProduction playerId cl env s) as [s' out];
    constructor; try apply IH; cbn in *.
  - injection H as _ ->. cbn. lia.
  - lia.
Qed.

Lemma run_spaced (isProduction : bool) (playerId : string)
  (calls : list (Closure * TickEnv)) :
  ∀ s, spacedFrom (TICK_RATE isProduction) (lastTickRef s)
         (tickTimes (run isProduction playerId calls s)).
Proof.
  induction calls as [|[cl env] rest IH]; intros s; cbn [run]; [done|].
  destruct (gameTick_cases isProduction playerId cl env s) as [H|(Hdue & Hlast & Hone)];
    destruct (gameTick isProduction playerId cl env s) as [s' out];
    unfold tickTimes; cbn [List.filter snd fst] in *.
  - injection H as -> ->. cbn. apply IH.
  - rewrite Hone. cbn. split; [done|]. rewrite <- Hlast. apply IH.
Qed.

Lemma spacedFrom_lower (rate last : Z) (times : list Z) :
  (0 <= rate)%Z -> spacedFrom rate last times ->
  Forall (fun t => (last + rate <= t)%Z) times.
Proof.
  intros Hr. revert last.
  induction times as [|t rest IH]; intros last; [constructor|].
  intros [Ht Hrest]. constructor; [done|].
  eapply Forall_impl; [by apply IH|]. cbn. intros x ?. lia.
Qed.

Lemma within_nil_from (rate t last : Z) (times : list Z) :
  (t <= last)%Z ->
  Forall (fun x => (last + rate <= x)%Z) times ->
  within rate t times = [].
Proof.
  intros Htl. induction 1 as [|x rest Hx _ IH]; [done|].
  unfold within in *. cbn [List.filter].
  destruct (Z.ltb_spec x (t + rate)); [lia|].
  by rewrite andb_false_r.
Qed.

Lemma spacedFrom_within (rate last t : Z) (times : list Z) :
  (0 <= rate)%Z -> spacedFrom rate last times ->
  (length (within rate t times) <= 1)%nat.
Proof.
  intros Hr. revert last.
  induction times as [|x rest IH]; intros last; [cbn; lia|].
  intros [Hx Hrest]. unfold within. cbn [List.filter].
  destruct ((t <=? x)%Z && (x <? t + rate)%Z) eqn:Hin.
  - apply andb_true_iff in Hin as [Hle%Z.leb_le _].
    fold (within rate t rest).
    rewrite (within_nil_from rate t x rest Hle); [cbn; lia|].
    by apply spacedFrom_lower.
  - by apply (IH x).
Qed.



(** The same happens when the room names no host: nobody is the host as
    the lobby computes it, and everybody's scheduler sends requests. *)
Lemma guest_drives_ticks_when_room_names_no_host :
  Lobby.isHost (Some Samples.hostlessRoom) "player_g" = false
  ∧ snd (gameTick false "player_g" (Samples.tickClosure Samples.hostlessRoom None)
           (Samples.tickAt 1000) initial)
    = [Request ViaWebSocket "tick" "ABCD" None].
Proof. vm_compute. done. Qed.


End GameSpec.

(* ===================================================================== *)
(** * Part III: further properties of the code                            *)
(* ===================================================================== *)

(** ** Transport client: dispatch, registry, sending *)

Module WsClientMoreSpec.
Import WsClient WsClientMore WsClientSpec.

Section Frames.
Context {World : Type}.
Implicit Types (c : Client World).

(** X1.  A ['pong'] frame and a frame that cannot be parsed reach no listener:
    the first only disarms the pong timeout, the second only writes one
    console line. *)
Theorem liveness_and_malformed_frames_reach_no_listener
  (parse : string -> option Incoming) (data : string) c :
  (data = "pong" ->
   onmessage parse data c = set_pongTimeout None c)
  ∧ (data ≠ "pong" -> parse data = None ->
     onmessage parse data c
     = log (ConsoleError "[WebSocket] Error parsing message:") c)
  ∧ (data = "pong" ∨ parse data = None ->
     world (onmessage parse data c) = world c
     ∧ sockets (onmessage parse data c) = sockets c
     ∧ messageQueue (onmessage parse data c) = messageQueue c
     ∧ listeners (onmessage parse data c) = listeners c).
Proof.
  unfold onmessage.
  destruct (String.eqb_spec data "pong") as [->|Hne].
  - split; [done|]. split; [done|]. done.
  - split; [done|]. split; [by intros _ ->|].
    intros [? | ->]; done.
Qed.

(** X2.  A frame that is none of the five broadcasts is handed, whole, to the
    listeners of [response:<id>] first when it carries a non-empty response
    id, and then in every case to the listeners of [response]; the
    listeners of the broadcasts are not called.  A chat or typing broadcast
    without a room is dropped. *)
Theorem handleMessage_routes_responses (m : Incoming) c :
  let whole := Some (in_message m) in
  let generic := default [] (listeners c !! "response") in
  (isBroadcast (in_type m) = false ->
   ∀ id, in_responseId m = Some id -> id ≠ "" ->
     world (handleMessage m c)
     = invokeAll whole generic
         (invokeAll whole (default [] (listeners c !! ("response:" +:+ id))) (world c)))
  ∧ (isBroadcast (in_type m) = false ->
     truthy_string (in_responseId m) = false ->
     world (handleMessage m c) = invokeAll whole generic (world c))
  ∧ (in_type m = Some "chatMessage" ∨ in_type m = Some "typingUpdate" ->
     in_room m = None ->
     handleMessage m c = c).
Proof.
  cbn zeta. unfold isBroadcast, handleMessage.
  split; [|split].
  - intros Hb id Hid Hne.
    apply orb_false_iff in Hb as [Hb H5]. apply orb_false_iff in Hb as [Hb H4].
    apply orb_false_iff in Hb as [Hb H3]. apply orb_false_iff in Hb as [H1 H2].
    rewrite H1, H2, H3, H4, H5, Hid.
    change (default "" (Some id)) with id. cbn [truthy_string].
    apply String.eqb_neq in Hne. rewrite Hne. cbn [negb].
    rewrite emit_world.
    destruct (emit_frame ("response:" +:+ id) (Some (in_message m)) c)
      as (_ & _ & _ & _ & _ & _ & -> & _).
    by rewrite emit_world.
  - intros Hb Hid.
    apply orb_false_iff in Hb as [Hb H5]. apply orb_false_iff in Hb as [Hb H4].
    apply orb_false_iff in Hb as [Hb H3]. apply orb_false_iff in Hb as [H1 H2].
    rewrite H1, H2, H3, H4, H5, Hid. by rewrite emit_world.
  - intros [Ht|Ht] Hroom; rewrite Ht, Hroom; done.
Qed.

End Frames.

Lemma liveness_and_malformed_frames_reach_no_listener_witness :
  world (onmessage MoreSamples.parseAnswer "{type" MoreSamples.awaiting)
  = world MoreSamples.awaiting
  ∧ sockets (onmessage MoreSamples.parseAnswer "{type" MoreSamples.awaiting)
    = sockets MoreSamples.awaiting
  ∧ messageQueue (onmessage MoreSamples.parseAnswer "{type" MoreSamples.awaiting)
    = messageQueue MoreSamples.awaiting
  ∧ listeners (onmessage MoreSamples.parseAnswer "{type" MoreSamples.awaiting)
    = listeners MoreSamples.awaiting.
Proof.
  exact (proj2 (proj2 (liveness_and_malformed_frames_reach_no_listener
                         MoreSamples.parseAnswer "{type" MoreSamples.awaiting))
           (or_intror eq_refl)).
Defined.

Lemma handleMessage_routes_responses_witness :
  world (handleMessage MoreSamples.answer MoreSamples.awaiting)
  = invokeAll (Some (in_message MoreSamples.answer))
      (default [] (listeners MoreSamples.awaiting !! "response"))
      (invokeAll (Some (in_message MoreSamples.answer))
         (default []
            (listeners MoreSamples.awaiting
               !! ("response:" +:+ "createRoom_1_0.3")))
         (world MoreSamples.awaiting)).
Proof.
  apply (proj1 (handleMessage_routes_responses MoreSamples.answer
                  MoreSamples.awaiting));
    [reflexivity|reflexivity|discriminate].
Defined.

Section Registry.
Context {World : Type}.
Implicit Types (c : Client World) (cb : Listener World).

Lemma invokeAll_snoc data (callbacks : list (Listener World)) cb (w : World) :
  invokeAll data (callbacks ++ [cb]) w = fst (cb data (invokeAll data callbacks w)).
Proof. unfold invokeAll. by rewrite foldl_snoc. Qed.

Lemma removeFirst_split (same : Listener World -> bool)
  (pre post : list (Listener World)) cb :
  Forall (fun x => same x = false) pre -> same cb = true ->
  removeFirst same (pre ++ cb :: post) = pre ++ post.
Proof.
  intros Hpre Hcb. induction Hpre as [|x pre Hx _ IH]; cbn.
  - by rewrite Hcb.
  - by rewrite Hx, IH.
Qed.

Lemma removeFirst_none (same : Listener World -> bool)
  (callbacks : list (Listener World)) :
  Forall (fun x => same x = false) callbacks ->
  removeFirst same callbacks = callbacks.
Proof.
  induction 1 as [|x l Hx _ IH]; cbn; [done|]. by rewrite Hx, IH.
Qed.

(** X3.  A listener registered with [on] is called after the ones registered
    before it for the same event and is not called for any other event;
    taking it off again leaves exactly the earlier registrations (an empty
    list, not a missing key, when there were none). *)
Theorem on_registers_last_for_its_event_only
  (event other : string) cb data (same : Listener World -> bool) c :
  event ≠ other ->
  Forall (fun x => same x = false) (default [] (listeners c !! event)) ->
  same cb = true ->
  world (fst (emit event data (on event cb c)))
  = fst (cb data (world (fst (emit event data c))))
  ∧ fst (emit other data (on event cb c)) = on event cb (fst (emit other data c))
  ∧ world (fst (emit other data (on event cb c))) = world (fst (emit other data c))
  ∧ listeners (off event same (on event cb c)) !! event
    = Some (default [] (listeners c !! event))
  ∧ world (fst (emit event data (off event same (on event cb c))))
    = world (fst (emit event data c)).
Proof.
  intros Hne Hothers Hcb.
  assert (listeners (on event cb c) !! event
          = Some (default [] (listeners c !! event) ++ [cb])) as Hon
    by (unfold on; cbn; apply lookup_insert_eq).
  assert (listeners (on event cb c) !! other = listeners c !! other) as Hother
    by (unfold on; cbn; by apply lookup_insert_ne).
  assert (listeners (off event same (on event cb c)) !! event
          = Some (default [] (listeners c !! event))) as Hoff.
  { unfold off. rewrite Hon. cbn. rewrite lookup_insert_eq. f_equal.
    rewrite removeFirst_split; [apply app_nil_r|done|done]. }
  split; [|split; [|split; [|split]]].
  - rewrite !emit_world, Hon. cbn [default]. apply invokeAll_snoc.
  - rewrite !emit_fst, Hother. by destruct (listeners c !! other).
  - by rewrite !emit_world, Hother.
  - done.
  - rewrite !emit_world, Hoff. unfold off. by rewrite Hon.
Qed.

(** X4.  [off] removes the first registration of the callback and nothing
    else: the other listeners of the event keep their order, a second
    registration of the same callback stays, other events are untouched;
    when the callback is not registered for the event nothing changes. *)
Theorem off_removes_first_registration_only
  (event : string) (same : Listener World -> bool)
  (pre post : list (Listener World)) cb data c :
  listeners c !! event = Some (pre ++ cb :: post) ->
  Forall (fun x => same x = false) pre ->
  same cb = true ->
  listeners (off event same c) !! event = Some (pre ++ post)
  ∧ (∀ other, other ≠ event ->
       listeners (off event same c) !! other = listeners c !! other)
  ∧ world (fst (emit event data (off event same c)))
    = invokeAll data (pre ++ post) (world c)
  ∧ (∀ (nobody : Listener World -> bool),
       Forall (fun x => nobody x = false) (pre ++ cb :: post) ->
       listeners (off event nobody c) !! event = listeners c !! event)
  ∧ (∀ unknown, listeners c !! unknown = None -> off unknown same c = c).
Proof.
  intros Hl Hpre Hcb.
  assert (listeners (off event same c) !! event = Some (pre ++ post)) as Hoff.
  { unfold off. rewrite Hl. cbn. rewrite lookup_insert_eq.
    by rewrite removeFirst_split. }
  split; [done|]. split; [|split; [|split]].
  - intros other Hne. unfold off. rewrite Hl. cbn. by apply lookup_insert_ne.
  - rewrite emit_world, Hoff. unfold off. rewrite Hl. done.
  - intros nobody Hnone. unfold off. rewrite Hl. cbn.
    by rewrite lookup_insert_eq, removeFirst_none.
  - intros unknown Hu. unfold off. by rewrite Hu.
Qed.

End Registry.

(** [on] and [off] on [Samples.fragile]: a third listener is called last
    and only for its own event; taking it off restores the two that were
    there. *)
Lemma on_registers_last_for_its_event_only_witness :
  world (fst (emit "connected" None
                (on "connected" MoreSamples.adding Samples.fragile))) = 12%nat
  ∧ world (fst (emit "connected" None
                  (off "connected" MoreSamples.isAdding
                     (on "connected" MoreSamples.adding Samples.fragile)))) = 2%nat.
Proof.
  assert (Forall (fun x => MoreSamples.isAdding x = false)
            (default [] (listeners Samples.fragile !! "connected"))) as Hnone
    by (vm_compute; repeat constructor).
  pose proof (on_registers_last_for_its_event_only
                "connected" "error" MoreSamples.adding None MoreSamples.isAdding
                Samples.fragile ltac:(discriminate) Hnone eq_refl)
    as (Hon & _ & _ & _ & Hoff).
  split; [rewrite Hon|rewrite Hoff]; vm_compute; reflexivity.
Defined.

(** [off] on a client that holds [throwing], [adding], [counting],
    [adding] for one event: the first [adding] goes, the second stays. *)
Lemma off_removes_first_registration_only_witness :
  world (fst (emit "connected" None
                (off "connected" MoreSamples.isAdding MoreSamples.crowded))) = 12%nat.
Proof.
  assert (Forall (fun x => MoreSamples.isAdding x = false) [Samples.throwing])
    as Hpre by (repeat constructor).
  pose proof (off_removes_first_registration_only
                "connected" MoreSamples.isAdding
                [Samples.throwing] [Samples.counting; MoreSamples.adding]
                MoreSamples.adding None MoreSamples.crowded
                ltac:(vm_compute; reflexivity) Hpre eq_refl)
    as (_ & _ & Hw & _).
  rewrite Hw. vm_compute. reflexivity.
Defined.

Section Lifecycle.
Context {World : Type}.
Implicit Types (c : Client World).

(** X5.  [disconnect()] marks the client disconnected, drops the socket
    reference, stops the heartbeat and forgets every listener, so that no
    emission reaches anybody; the queue and the pending reconnect timers
    stay.  The close event of the socket it closed still runs that
    socket's [onclose]: below the cap a reconnect is scheduled (nobody
    hears ['disconnected']), and when the timer fires a new socket is
    created. *)
Theorem disconnect_silences_listeners_but_not_reconnection
  c (i : nat) (rnd : Q) (newId event : string) (data : Data) :
  ws c = Some i ->
  (reconnectAttempts c < maxReconnectAttempts c)%nat ->
  let d := disconnect c in
  let closed := socketCloses i rnd d in
  connected d = false ∧ ws d = None
  ∧ pingInterval d = None ∧ pongTimeout d = None
  ∧ messageQueue d = messageQueue c ∧ timers d = timers c
  ∧ emit event data d = (d, Returns)
  ∧ world closed = world c
  ∧ timers closed
    = timers c ++ [backoff (isProduction c) (S (reconnectAttempts c)) rnd]
  ∧ ws (reconnectTimerFires newId false closed) = Some (length (sockets c)).
Proof.
  intros Hws Hlt d closed.
  assert (d = set_listeners ∅
                (set_connected false
                   (set_ws None
                      (set_sockets (alter closing i (sockets c)) (stopKeepAlive c)))))
    as Hd by (unfold d, disconnect; cbn; by rewrite Hws).
  assert (emit event data d = (d, Returns)) as Hemit.
  { unfold emit. rewrite Hd at 1. cbn. by rewrite lookup_empty. }
  split; [by rewrite Hd|]. split; [by rewrite Hd|].
  split; [by rewrite Hd|]. split; [by rewrite Hd|].
  split; [by rewrite Hd|]. split; [by rewrite Hd|].
  split; [done|].
  assert (closed
          = attemptReconnect rnd
              (stopKeepAlive
                 (set_connected false
                    (log (ConsoleLog "[WebSocket] Disconnected")
                       (set_sockets (alter (set_readyState CLOSED) i (sockets d)) d)))))
    as Hclosed.
  { unfold closed, socketCloses, onclose. f_equal.
    all: rewrite emit_fst, Hd; cbn; by rewrite lookup_empty. }
  rewrite attemptReconnect_below in Hclosed by (rewrite Hd; cbn; lia).
  rewrite Hd in Hclosed. cbn in Hclosed.
  split; [by rewrite Hclosed|]. split; [by rewrite Hclosed|].
  rewrite Hclosed. unfold reconnectTimerFires. cbn.
  destruct (timers c); cbn; by rewrite !length_alter.
Qed.

(** X6.  [send] returns the caller's response id when one is given and the
    generated one otherwise, whether the command is written or queued.  On
    a connected client whose socket is open the command is written to that
    socket at once: nothing is queued and no socket is created. *)
Theorem send_on_open_connection_writes_at_once
  (action params : string) (rid : option string) (genId newId : string)
  (throws : bool) c (i : nat) (s : Socket) :
  connected c = true -> ws c = Some i ->
  sockets c !! i = Some s -> readyState s = OPEN ->
  let m := build_message action params rid genId c in
  let c' := fst (send action params rid genId newId throws c) in
  snd (send action params rid genId newId throws c)
  = (if truthy_string rid then default genId rid else genId)
  ∧ written i c' = sent s ++ [FJson m]
  ∧ messageQueue c' = messageQueue c
  ∧ length (sockets c') = length (sockets c)
  ∧ ws c' = Some i.
Proof.
  intros Hc Hws Hs Hopen. cbn zeta. unfold send.
  assert (ws_is_open c = true) as -> by (unfold ws_is_open; by rewrite Hws, Hs, Hopen).
  rewrite Hc. cbn. unfold ws_send. rewrite Hws. cbn.
  unfold written. cbn. rewrite list_lookup_alter_eq, Hs, length_alter. done.
Qed.

Lemma send_returns_id (action params : string) (rid : option string)
  (genId newId : string) (throws : bool) c :
  snd (send action params rid genId newId throws c)
  = (if truthy_string rid then default genId rid else genId).
Proof. unfold send. by destruct (connected c && ws_is_open c). Qed.

(** One call of [send] on a disconnected client: the command is queued
    with the player id in force and [connect()] creates a socket and draws
    a new player id. *)
Lemma sendCall_disconnected (call : SendCall) c :
  connected c = false ->
  let c' := fst (sendCall call c) in
  connected c' = false
  ∧ sockets c' = sockets c ++ [{| readyState := CONNECTING; sent := [] |}]
  ∧ ws c' = Some (length (sockets c))
  ∧ playerId c' = Some (sc_newId call)
  ∧ messageQueue c' = messageQueue c ++ queuedBy (playerId c) [call].
Proof.
  intros Hc. cbn zeta. unfold sendCall, send. rewrite Hc. cbn.
  rewrite Hc. cbn. done.
Qed.

Lemma sendAll_disconnected (calls : list SendCall) :
  ∀ c, connected c = false ->
    let c' := sendAll calls c in
    connected c' = false
    ∧ sockets c'
      = sockets c ++ replicate (length calls) {| readyState := CONNECTING; sent := [] |}
    ∧ (calls ≠ [] -> ws c' = Some (length (sockets c) + length calls - 1)%nat)
    ∧ messageQueue c' = messageQueue c ++ queuedBy (playerId c) calls.
Proof.
  induction calls as [|call rest IH]; intros c Hc; cbn zeta.
  - cbn. by rewrite !app_nil_r.
  - change (sendAll (call :: rest) c) with (sendAll rest (fst (sendCall call c))).
    destruct (sendCall_disconnected call c Hc) as (Hc1 & Hs1 & Hw1 & Hp1 & Hq1).
    cbn zeta in *.
    destruct (IH _ Hc1) as (Hc2 & Hs2 & Hw2 & Hq2). cbn zeta in *.
    split; [done|]. split; [|split].
    + rewrite Hs2, Hs1. cbn. by rewrite <- app_assoc.
    + intros _. destruct rest as [|call' rest'].
      * cbn. rewrite Hw1. f_equal. lia.
      * rewrite Hw2 by done. rewrite Hs1, length_app. cbn. f_equal. lia.
    + rewrite Hq2, Hq1, Hp1. cbn. by rewrite <- app_assoc.
Qed.

(** When the current socket is not open, [onopen] empties the queue and
    writes nothing. *)
Lemma onopen_not_current c :
  ws_is_open c = false ->
  messageQueue (onopen c) = []
  ∧ sockets (onopen c) = sockets c
  ∧ ws (onopen c) = ws c
  ∧ connected (onopen c) = true.
Proof.
  intros Hno. unfold onopen, flushMessageQueue.
  set (c2 := set_reconnectAttempts 0 (set_connected true c)).
  rewrite (flushLoop_not_open (messageQueue c2) c2) by done.
  destruct (emit_frame "connected" None (set_messageQueue [] c2))
    as (Ews & Esk & _ & _ & _ & Eq & _ & Ec & _).
  cbn zeta in *.
  set (c4 := fst (emit "connected" None (set_messageQueue [] c2))) in *.
  unfold startKeepAlive, stopKeepAlive.
  destruct (isProduction c4), (pingInterval c4), (pongTimeout c4); cbn;
    by rewrite ?Ews, ?Esk, ?Eq, ?Ec.
Qed.

(** X7.  Commands sent while the client is disconnected: every call queues its
    command behind the earlier ones and creates one more socket, which
    becomes the current one.  What happens to the queue depends on which
    socket opens first.  When the latest socket does, the whole queue is
    written to it in the order of the calls and the queue is empty.  When
    one of the sockets it replaced does, the queue is emptied and nothing
    is written to any socket, and the latest socket, opening afterwards,
    receives nothing. *)
Theorem queued_commands_are_written_only_if_the_latest_socket_opens_first
  (calls : list SendCall) (final : SendCall) c :
  connected c = false ->
  let all := calls ++ [final] in
  let latest := (length (sockets c) + length calls)%nat in
  let c' := sendAll all c in
  length (sockets c') = (length (sockets c) + length all)%nat
  ∧ ws c' = Some latest
  ∧ messageQueue c' = messageQueue c ++ queuedBy (playerId c) all
  ∧ written latest (socketOpens latest c')
    = map FJson (messageQueue c ++ queuedBy (playerId c) all)
  ∧ messageQueue (socketOpens latest c') = []
  ∧ (∀ (j : nat) (s : Socket),
       j ≠ latest -> sockets c' !! j = Some s -> readyState s = CONNECTING ->
       messageQueue (socketOpens j c') = []
       ∧ connected (socketOpens j c') = true
       ∧ (∀ k, written k (socketOpens j c') = written k c')
       ∧ written latest (socketOpens latest (socketOpens j c')) = []).
Proof.
  intros Hc all latest c'.
  destruct (sendAll_disconnected all c Hc) as (Hc' & Hs' & Hw' & Hq').
  fold c' in Hc', Hs', Hw', Hq'.
  assert (length all = S (length calls)) as Hlen
    by (unfold all; rewrite length_app; cbn; lia).
  assert (ws c' = Some latest) as Hws.
  { rewrite Hw' by (unfold all; by destruct calls). f_equal. unfold latest. lia. }
  split; [by rewrite Hs', length_app, length_replicate|].
  split; [done|]. split; [done|].
  assert (sockets c' !! latest = Some {| readyState := CONNECTING; sent := [] |})
    as Hlook.
  { rewrite Hs', lookup_app_r by (unfold latest; lia).
    apply lookup_replicate_2. unfold latest. lia. }
  split; [|split].
  - unfold socketOpens.
    destruct (onopen_spec
                (set_sockets (alter (set_readyState OPEN) latest (sockets c')) c')
                latest {| readyState := OPEN; sent := [] |})
      as (_ & _ & _ & _ & Hsock & _); try done.
    { cbn. by rewrite list_lookup_alter_eq, Hlook. }
    unfold written. rewrite Hsock. cbn. by rewrite Hq'.
  - unfold socketOpens.
    destruct (onopen_spec
                (set_sockets (alter (set_readyState OPEN) latest (sockets c')) c')
                latest {| readyState := OPEN; sent := [] |})
      as (_ & _ & Hq & _); try done.
    cbn. by rewrite list_lookup_alter_eq, Hlook.
  - intros j s Hj Hsj Hconn.
    set (opened := set_sockets (alter (set_readyState OPEN) j (sockets c')) c').
    assert (ws_is_open opened = false) as Hno.
    { unfold ws_is_open, opened. cbn. rewrite Hws.
      by rewrite list_lookup_alter_ne, Hlook by done. }
    destruct (onopen_not_current opened Hno) as (Hq & Hsk & Hw & Hcon).
    change (onopen opened) with (socketOpens j c') in Hq, Hsk, Hw, Hcon.
    split; [done|]. split; [done|]. split.
    + intros k. unfold written. rewrite Hsk. unfold opened. cbn.
      destruct (decide (k = j)) as [->|Hk].
      * by rewrite list_lookup_alter_eq, Hsj.
      * by rewrite list_lookup_alter_ne by done.
    + set (d := socketOpens j c') in *.
      assert (sockets d !! latest = Some {| readyState := CONNECTING; sent := [] |})
        as Hlook'.
      { rewrite Hsk. unfold opened. cbn.
        by rewrite list_lookup_alter_ne, Hlook by done. }
      unfold socketOpens at 1.
      destruct (onopen_spec
                  (set_sockets (alter (set_readyState OPEN) latest (sockets d)) d)
                  latest {| readyState := OPEN; sent := [] |})
        as (_ & _ & _ & _ & Hsock & _).
      { cbn. by rewrite Hw. }
      { cbn. by rewrite list_lookup_alter_eq, Hlook'. }
      { done. }
      unfold written. rewrite Hsock. cbn. by rewrite Hq.
Qed.

Lemma attemptReconnect_keeps_connection (rnd : Q) c :
  pingInterval (attemptReconnect rnd c) = pingInterval c
  ∧ pongTimeout (attemptReconnect rnd c) = pongTimeout c
  ∧ connected (attemptReconnect rnd c) = connected c
  ∧ ws (attemptReconnect rnd c) = ws c
  ∧ sockets (attemptReconnect rnd c) = sockets c
  ∧ messageQueue (attemptReconnect rnd c) = messageQueue c.
Proof.
  unfold attemptReconnect.
  destruct (reconnectAttempts c <? maxReconnectAttempts c)%nat; [done|].
  destruct (emit_frame "reconnectFailed" None
              (log (ConsoleError "[WebSocket] Max reconnection attempts reached") c))
    as (-> & -> & _ & _ & _ & -> & _ & -> & -> & -> & _).
  done.
Qed.

(** X8.  Closing cancels the heartbeat and keeps the queue: after [onclose]
    neither timer is held, so a ping tick or a pong timeout left over from
    the closed connection does nothing, and the commands still queued wait
    for the next open. *)
Theorem close_cancels_heartbeat_and_keeps_queue (rnd : Q) c :
  let c' := onclose rnd c in
  connected c' = false
  ∧ pingInterval c' = None ∧ pongTimeout c' = None
  ∧ pingTick c' = c' ∧ pongTimeoutFires c' = c'
  ∧ messageQueue c' = messageQueue c.
Proof.
  cbn zeta. unfold onclose.
  match goal with |- context [attemptReconnect rnd ?x] => set (c4 := x) end.
  destruct (attemptReconnect_keeps_connection rnd c4)
    as (Hpi & Hpo & Hc & _ & _ & Hq).
  destruct (emit_frame "disconnected" None
              (stopKeepAlive
                 (set_connected false (log (ConsoleLog "[WebSocket] Disconnected") c))))
    as (_ & _ & _ & _ & _ & Eq & _ & Ec & Epi & Epo & _).
  fold c4 in Eq, Ec, Epi, Epo. cbn in Eq, Ec, Epi, Epo.
  assert (pingInterval (attemptReconnect rnd c4) = None) as Hpi' by congruence.
  assert (pongTimeout (attemptReconnect rnd c4) = None) as Hpo' by congruence.
  split; [congruence|]. split; [done|]. split; [done|].
  split; [unfold pingTick; by rewrite Hpi'|].
  split; [unfold pongTimeoutFires; by rewrite Hpo'|].
  congruence.
Qed.

End Lifecycle.

(** Production client whose socket has opened and flushed its queue. *)
Lemma disconnect_silences_listeners_but_not_reconnection_witness :
  listeners (disconnect (onopen Samples.opening)) = ∅
  ∧ length (timers (socketCloses 0 (1 # 2) (disconnect (onopen Samples.opening))))
    = 1%nat.
Proof.
  pose proof (disconnect_silences_listeners_but_not_reconnection
                (onopen Samples.opening) 0%nat (1 # 2) "player_b" "connected" None
                eq_refl ltac:(vm_compute; lia))
    as (_ & _ & _ & _ & _ & _ & _ & _ & Ht & _).
  split; [reflexivity|]. rewrite Ht. reflexivity.
Defined.

Lemma send_on_open_connection_writes_at_once_witness :
  length (written 0 (fst (send "tick" "{roomCode}" None "tick_1_0.3" "player_b" false
                            (onopen Samples.opening)))) = 3%nat.
Proof.
  assert (∃ s, sockets (onopen Samples.opening) !! 0%nat = Some s
               ∧ readyState s = OPEN ∧ length (sent s) = 2%nat)
    as (s & Hs & Hopen & Hlen)
    by (eexists; split; [vm_compute; reflexivity|split; reflexivity]).
  pose proof (send_on_open_connection_writes_at_once
                "tick" "{roomCode}" None "tick_1_0.3" "player_b" false
                (onopen Samples.opening) 0%nat s eq_refl eq_refl Hs Hopen)
    as (_ & Hw & _).
  rewrite Hw, length_app, Hlen. reflexivity.
Defined.

Lemma queued_commands_are_written_only_if_the_latest_socket_opens_first_witness :
  map (fun f => match f with FJson m => msg_action m | FText t => t end)
      (written 2 (socketOpens 2 (sendAll MoreSamples.threeCalls (constructor false ()))))
  = ["joinRoom"; "toggleReady"; "startGame"]
  ∧ messageQueue (socketOpens 0 (sendAll MoreSamples.threeCalls (constructor false ())))
    = []
  ∧ written 2
      (socketOpens 2
         (socketOpens 0 (sendAll MoreSamples.threeCalls (constructor false ()))))
    = [].
Proof.
  pose proof (queued_commands_are_written_only_if_the_latest_socket_opens_first
                (take 2 MoreSamples.threeCalls) MoreSamples.startCall
                (constructor false ()) eq_refl)
    as (_ & _ & _ & Hw & _ & Hearlier).
  cbn zeta in Hw, Hearlier.
  change (take 2 MoreSamples.threeCalls ++ [MoreSamples.startCall])
    with MoreSamples.threeCalls in Hw, Hearlier.
  change (length (sockets (constructor false ())) + length (take 2 MoreSamples.threeCalls))%nat
    with 2%nat in Hw, Hearlier.
  destruct (Hearlier 0%nat {| readyState := CONNECTING; sent := [] |})
    as (Hq & _ & _ & Hnone); [done|reflexivity|reflexivity|].
  split; [rewrite Hw; reflexivity|]. split; [exact Hq|exact Hnone].
Defined.

(** *** Backoff bounds *)

Lemma exponential_mono (prod : bool) (n m : nat) :
  (1 <= n)%nat -> (n <= m)%nat ->
  (exponential prod n <= exponential prod m)%Q.
Proof.
  intros Hn. induction 1 as [|m Hle IH]; [apply Qle_refl|].
  rewrite exponential_succ by lia.
  pose proof (exponential_ge_base prod m) as Hb.
  pose proof (baseDelay_ge prod) as Hb0.
  revert IH Hb Hb0.
  generalize (exponential prod n) (exponential prod m) (baseDelay prod).
  intros a b base IH Hb Hb0. lra.
Qed.

(** X9.  With a jitter that is not negative, every reconnect delay lies between
    the base delay and 10000 ms, and from the fifth attempt in production
    (the seventh in development) on it is exactly 10000 ms whatever the
    jitter. *)
Theorem backoff_is_bounded_and_saturates (prod : bool) (n : nat) (rnd : Q) :
  (1 <= n)%nat -> (0 <= rnd)%Q ->
  (baseDelay prod <= backoff prod n rnd)%Q
  ∧ (backoff prod n rnd <= 10000)%Q
  ∧ (((if prod then 5 else 7) <= n)%nat -> (backoff prod n rnd == 10000)%Q).
Proof.
  intros Hn Hr.
  pose proof (exponential_ge_base prod n) as Hb.
  split; [|split; [apply backoff_le_cap|]].
  - unfold backoff. apply Q.min_glb.
    + revert Hb. generalize (exponential prod n) (baseDelay prod). intros e b Hb. lra.
    + destruct prod; vm_compute; discriminate.
  - intros Hsat. unfold backoff. apply Q.min_r.
    assert (10000 <= exponential prod n)%Q as Hbig.
    { destruct prod.
      - eapply Qle_trans; [|apply (exponential_mono true 5 n); [lia|done]].
        vm_compute. discriminate.
      - eapply Qle_trans; [|apply (exponential_mono false 7 n); [lia|done]].
        vm_compute. discriminate. }
    revert Hbig. generalize (exponential prod n). intros e Hbig. lra.
Qed.

Lemma backoff_is_bounded_and_saturates_witness :
  (backoff false 8 (3 # 4) == 10000)%Q ∧ (1000 <= backoff false 1 0)%Q.
Proof.
  assert (0 <= 3 # 4)%Q as H34 by (apply Qle_bool_imp_le; reflexivity).
  assert (0 <= 0)%Q as H0 by (apply Qle_bool_imp_le; reflexivity).
  pose proof (backoff_is_bounded_and_saturates false 8 (3 # 4) ltac:(lia) H34)
    as (_ & _ & Hsat).
  pose proof (backoff_is_bounded_and_saturates false 1 0 ltac:(lia) H0)
    as (Hlow & _).
  split; [apply Hsat; lia|exact Hlow].
Defined.

End WsClientMoreSpec.

(** ** Lobby and game menu *)

Module LobbyMoreSpec.
Import Lobby LobbyMore LobbySpec.

Lemma isGuest_with_players (r : Room) (ps : list Player) (p : Player) :
  isGuest (Some (with_players ps r)) p = isGuest (Some r) p.
Proof. done. Qed.

Lemma allReady_with_players (r : Room) (ps : list Player) :
  allReady (Some (with_players ps r))
  = forallb (fun p => is_true (ready p)) (List.filter (isGuest (Some r)) ps).
Proof.
  unfold allReady, guestPlayers. cbn.
  change (List.filter (isGuest (Some (with_players ps r))) ps)
    with (List.filter (isGuest (Some r)) ps).
  by destruct (List.filter (isGuest (Some r)) ps).
Qed.

(** X10.  Bots and the host never hold up the start: putting a bot, or the
    host's own entry, anywhere in the player list, whatever its ready
    flag, leaves [allReady] as it was. *)
Theorem bots_and_host_do_not_affect_readiness
  (r : Room) (before after : list Player) (p : Player) :
  truthy_bool (isBot p) = true ∨ host_id r = Some (id p) ->
  allReady (Some (with_players (before ++ p :: after) r))
  = allReady (Some (with_players (before ++ after) r)).
Proof.
  intros Hp. rewrite !allReady_with_players.
  rewrite !List.filter_app. cbn [List.filter].
  assert (isGuest (Some r) p = false) as ->; [|done].
  unfold isGuest, host_of. cbn.
  destruct Hp as [->|Hh]; [done|].
  rewrite Hh. cbn. rewrite String.eqb_refl. by rewrite andb_false_r.
Qed.

(** X11.  A host whose room holds only bots besides the host can start as soon
    as there are two entries: nobody has to press Ready. *)
Theorem host_with_only_bots_can_start
  (r : Room) (playerId : string) (ps : list Player) :
  host_id r = Some playerId ->
  players r = Some ps ->
  (2 <= length ps)%nat ->
  Forall (fun p => truthy_bool (isBot p) = true ∨ id p = playerId) ps ->
  control (Some r) playerId = StartButton false
  ∧ starts (clickStart (Some r) playerId true) = true.
Proof.
  intros Hh Hps Hlen Hall.
  assert (isHost (Some r) playerId = true) as Hhost
    by (unfold isHost, host_of; cbn; rewrite Hh; cbn; apply String.eqb_refl).
  assert (canStart (Some r) = true) as Hcan
    by (apply canStart_true; exists ps; by cbn).
  assert (allReady (Some r) = true) as Hready.
  { apply allReady_true. intros p (ps' & Hps' & Hin & Hg)%guestPlayers_elem.
    cbn in Hps'. rewrite Hps in Hps'. injection Hps' as <-.
    apply isGuest_true in Hg as [Hbot Hnh].
    rewrite Forall_forall in Hall. destruct (Hall p Hin) as [Hb|Hid].
    - congruence.
    - destruct Hnh. unfold host_of. cbn. by rewrite Hh, Hid. }
  unfold clickStart, control, onClick. rewrite Hhost, Hcan, Hready. done.
Qed.

Lemma host_with_only_bots_can_start_witness :
  starts (clickStart (Some MoreSamples.botRoom) "player_h" true) = true.
Proof.
  assert (Forall (fun p => truthy_bool (isBot p) = true ∨ id p = "player_h")
            [Samples.host; MoreSamples.bot]) as Hall.
  { constructor; [by right|]. constructor; [by left|constructor]. }
  exact (proj2 (host_with_only_bots_can_start MoreSamples.botRoom "player_h"
                  [Samples.host; MoreSamples.bot] eq_refl eq_refl (le_n 2) Hall)).
Defined.

Lemma bots_and_host_do_not_affect_readiness_witness :
  allReady (Some (with_players [Samples.host; MoreSamples.bot; Samples.guest]
                    Samples.lobbyRoom))
  = allReady (Some (with_players [Samples.host; Samples.guest] Samples.lobbyRoom)).
Proof.
  exact (bots_and_host_do_not_affect_readiness Samples.lobbyRoom
           [Samples.host] [Samples.guest] MoreSamples.bot (or_introl eq_refl)).
Defined.

Lemma botCount_le_length (room : option Room) (ps : list Player) :
  players_of room = Some ps -> (botCount room <= length ps)%nat.
Proof.
  intros Hps. unfold botCount. rewrite Hps. apply List.filter_length_le.
Qed.

(** X12.  The bot controls respect the room limits: a bot can be added only by
    the host of a waiting room that holds fewer than three bots and fewer
    than four players, so that with the bot added the room holds at most
    three bots and four players; a bot can be removed only when the list
    holds one.  Nobody but the host, and nobody outside ['waiting'], gets
    either control. *)
Theorem bot_controls_respect_room_limits
  (r : Room) (playerId : string) (ps : list Player) (b : Player) :
  players r = Some ps ->
  truthy_bool (isBot b) = true ->
  (canAddBot (Some r) playerId = true ->
   host_id r = Some playerId ∧ status r = "waiting"
   ∧ (botCount (Some (with_players (ps ++ [b]) r)) <= 3)%nat
   ∧ (length (ps ++ [b]) <= 4)%nat)
  ∧ (canRemoveBot (Some r) playerId = true ->
     host_id r = Some playerId ∧ status r = "waiting"
     ∧ ∃ p, p ∈ ps ∧ truthy_bool (isBot p) = true)
  ∧ (host_id r ≠ Some playerId ∨ status r ≠ "waiting" ->
     canAddBot (Some r) playerId = false ∧ canRemoveBot (Some r) playerId = false).
Proof.
  intros Hps Hb.
  assert (isHost (Some r) playerId = true ↔ host_id r = Some playerId) as Hhost
    by (unfold isHost, host_of; cbn; apply strict_eq_true).
  assert (strict_eq (status <$> Some r) "waiting" = true ↔ status r = "waiting")
    as Hwait by (cbn; apply String.eqb_eq).
  assert (botCount (Some r)
          = length (List.filter (fun p => truthy_bool (isBot p)) ps)) as Hcount
    by (unfold botCount; change (players_of (Some r)) with (players r); by rewrite Hps).
  assert (hasFreeSlot (Some r) = (length ps <? 4)%nat) as Hslot
    by (unfold hasFreeSlot; change (players_of (Some r)) with (players r); by rewrite Hps).
  unfold canAddBot, canRemoveBot.
  split; [|split].
  - intros H. apply andb_true_iff in H as [H Hfree].
    apply andb_true_iff in H as [H Hbots]. apply andb_true_iff in H as [Hh Hw].
    rewrite Hslot in Hfree. apply Nat.ltb_lt in Hfree, Hbots.
    unfold maxBots in Hbots. rewrite Hcount in Hbots.
    split; [by apply Hhost|]. split; [by apply Hwait|].
    split; [|rewrite length_app; cbn; lia].
    unfold botCount. change (players_of (Some (with_players (ps ++ [b]) r)))
      with (Some (ps ++ [b])).
    cbv beta iota. rewrite List.filter_app, length_app. cbn [List.filter]. rewrite Hb. cbn. lia.
  - intros H. apply andb_true_iff in H as [H Hbots].
    apply andb_true_iff in H as [Hh Hw]. apply Nat.ltb_lt in Hbots.
    rewrite Hcount in Hbots.
    split; [by apply Hhost|]. split; [by apply Hwait|].
    destruct (List.filter (fun p => truthy_bool (isBot p)) ps) as [|p l] eqn:Hf;
      [cbn in Hbots; lia|].
    exists p.
    assert (In p (List.filter (fun p => truthy_bool (isBot p)) ps)) as Hin
      by (rewrite Hf; by left).
    apply filter_In in Hin as [Hin Hbot]. split; [by apply list_elem_of_In|done].
  - intros Hno.
    assert (isHost (Some r) playerId && strict_eq (status <$> Some r) "waiting" = false)
      as Hoff.
    { apply andb_false_iff. destruct Hno as [Hh|Hw].
      - left. apply not_true_is_false. by rewrite Hhost.
      - right. apply not_true_is_false. intros H. by apply Hwait in H. }
    by rewrite Hoff.
Qed.

Lemma bot_controls_respect_room_limits_witness :
  canAddBot (Some MoreSamples.botRoom) "player_h" = true
  ∧ canRemoveBot (Some MoreSamples.botRoom) "player_h" = true
  ∧ canAddBot (Some MoreSamples.botRoom) "player_g" = false.
Proof.
  pose proof (bot_controls_respect_room_limits MoreSamples.botRoom "player_g"
                [Samples.host; MoreSamples.bot] MoreSamples.bot eq_refl eq_refl)
    as (_ & _ & Hno).
  split; [reflexivity|]. split; [reflexivity|].
  apply Hno. left. discriminate.
Defined.

End LobbyMoreSpec.

Module GameMenuSpec.
Import GameMenu.

(** X13.  The game menu always ends with the leave button and offers at most
    one other button, chosen by the status: pause while playing, resume
    while paused, back to the lobby once ended, none for any other status.
    The resume button is enabled exactly for the player who paused. *)
Theorem game_menu_offers_one_action_and_leave
  (status : string) (paused_by : option string) (playerId : string) :
  let menu := buttons status paused_by playerId in
  (∃ action, menu = action ++ [LeaveGame] ∧ (length action <= 1)%nat)
  ∧ (PauseGame ∈ menu ↔ status = "playing")
  ∧ (BackToLobby ∈ menu ↔ status = "ended")
  ∧ (ResumeGame false ∈ menu ↔ status = "paused" ∧ paused_by = Some playerId)
  ∧ (ResumeGame true ∈ menu ↔ status = "paused" ∧ paused_by ≠ Some playerId).
Proof.
  cbn zeta. unfold buttons, canResume.
  destruct (String.eqb_spec status "playing") as [->|Hplay];
    [|destruct (String.eqb_spec status "paused") as [->|Hpause];
      [|destruct (String.eqb_spec status "ended") as [->|Hend]]]; cbn.
  - split; [exists [PauseGame]; by split|].
    split_and!; (split; intros ?); set_unfold; intuition (discriminate || congruence).
  - destruct (strict_eq paused_by playerId) eqn:Hs; cbn.
    + apply strict_eq_true in Hs.
      split; [exists [ResumeGame false]; by split|].
      split_and!; (split; intros ?); set_unfold; intuition (discriminate || congruence).
    + apply strict_eq_false in Hs.
      split; [exists [ResumeGame true]; by split|].
      split_and!; (split; intros ?); set_unfold; intuition (discriminate || congruence).
  - split; [exists [BackToLobby]; by split|].
    split_and!; (split; intros ?); set_unfold; intuition (discriminate || congruence).
  - split; [exists []; split; [done|cbn; lia]|].
    split_and!; (split; intros ?); set_unfold; intuition (discriminate || congruence).
Qed.

End GameMenuSpec.

(* --------------------------------------------------------------------- *)
(** ** The page component [Game], the remaining handlers                  *)
(* --------------------------------------------------------------------- *)

Module GameMoreSpec.
Import Game GameMore GameSpec.

(** *** Renders *)

Lemma countdownCleanup_fields (s : State) (p : Page) :
  room (countdownCleanup s p) = room s
  ∧ displayRoom (countdownCleanup s p) = displayRoom s
  ∧ countdown (countdownCleanup s p) = countdown s
  ∧ isInWaitingLobbyRef (countdownCleanup s p) = isInWaitingLobbyRef s
  ∧ (countdownIntervalRef (countdownCleanup s p) = countdownIntervalRef s
     ∨ countdownIntervalRef (countdownCleanup s p) = None).
Proof.
  unfold countdownCleanup.
  destruct (wsDeps p) as [[code cd]|]; [|by split_and!; auto].
  case_decide; cbn; split_and!; auto.
Qed.

Lemma seedDisplay_fields (s : State) :
  countdown (seedDisplay s) = countdown s
  ∧ countdownIntervalRef (seedDisplay s) = countdownIntervalRef s
  ∧ (displayRoom (seedDisplay s) = None -> room s = None).
Proof.
  unfold seedDisplay.
  destruct (room s) eqn:Hr, (displayRoom s) eqn:Hd; cbn; rewrite ?Hr, ?Hd;
    split_and!; auto; done.
Qed.

Lemma settle_fields (s : State) (p : Page) :
  room (st (settle s p)) = room s
  ∧ countdown (st (settle s p)) = countdown s
  ∧ isInWaitingLobbyRef (st (settle s p)) = isInWaitingLobbyRef s
  ∧ (countdownIntervalRef (st (settle s p)) = countdownIntervalRef s
     ∨ countdownIntervalRef (st (settle s p)) = None).
Proof.
  unfold settle. rewrite commit_st.
  destruct (countdownCleanup_fields s p) as (Hr & _ & Hc & Hf & Hi).
  destruct (seedDisplay_fields (countdownCleanup s p)) as (Hc' & Hi' & _).
  rewrite seedDisplay_room, seedDisplay_flag, Hc', Hi', Hr, Hc, Hf.
  split_and!; auto.
Qed.

(** A render keeps the page coherent, provided the state it shows holds no
    countdown interval that the cleanup would miss. *)
Lemma settle_coherent (s : State) (p : Page) :
  coherent p ->
  (room (st p) = None -> room s = None -> countdownIntervalRef s = None) ->
  (∀ n, countdownIntervalRef s = Some n -> countdown s = Some n ∧ (0 < n)%Z) ->
  coherent (settle s p).
Proof.
  intros (Hdeps & Hh & Hd & Hi & Hn) Hroom Hcount.
  destruct (countdownCleanup_fields s p) as (Hr & _ & Hc & _ & Hint).
  destruct (seedDisplay_fields (countdownCleanup s p)) as (Hc' & Hi' & Hd').
  assert (Hdo : depsOf (seedDisplay (countdownCleanup s p)) = depsOf s).
  { unfold depsOf. by rewrite seedDisplay_room, Hc', Hr, Hc. }
  assert (Hdc : depsOf (countdownCleanup s p) = depsOf s).
  { unfold depsOf. by rewrite Hr, Hc. }
  unfold coherent.
  split_and!.
  - unfold settle, commit. rewrite Hdc. case_decide; cbn [st wsDeps]; by rewrite Hdo.
  - unfold settle, commit. rewrite Hdc.
    case_decide as Hsame; cbn [st wsHandlers];
      rewrite ?seedDisplay_room, ?Hc', ?Hr, ?Hc.
    + rewrite Hdeps in Hsame. injection Hsame as Hcode Hcd.
      destruct (wsHandlers p) as [cl|].
      * destruct Hh as [(r & Hcl & Hrc) Hcc].
        split; [exists r; split; [done|by rewrite <- Hcode]|by rewrite <- Hcd].
      * rewrite Hh in Hcode. cbn in Hcode.
        by destruct (room s).
    + destruct (room s) as [r|] eqn:Hrs; [|done].
      cbn. rewrite Hr, Hc. split; [by exists r|done].
  - intros Hnone. rewrite (proj1 (settle_fields s p)).
    unfold settle in Hnone. rewrite commit_st in Hnone.
    rewrite <- Hr. by apply Hd'.
  - destruct (settle_fields s p) as (Hsr & _ & _ & Hsi).
    rewrite Hsr. intros Hnone.
    destruct Hsi as [Hsi|Hsi]; [|done].
    destruct (room (st p)) as [r0|] eqn:Hr0; [|rewrite Hsi; by apply Hroom].
    (* the room code changed, so the cleanup ran *)
    unfold settle. rewrite commit_st, Hi'.
    unfold countdownCleanup. rewrite Hdeps. unfold depsOf.
    rewrite Hr0, Hnone. cbn. by case_decide.
  - destruct (settle_fields s p) as (_ & Hsc & _ & Hsi).
    intros n Hsome. rewrite Hsc.
    destruct Hsi as [Hsi|Hsi]; [|by rewrite Hsi in Hsome].
    rewrite Hsi in Hsome. by apply Hcount.
Qed.

Lemma mount_coherent : coherent mount.
Proof. by vm_compute. Qed.

(** *** What the handlers do to the countdown *)

Lemma setRoomWithInterpolation_keeps (now : Q) (r : Room) (s : State) :
  countdown (setRoomWithInterpolation now r s) = countdown s
  ∧ countdownIntervalRef (setRoomWithInterpolation now r s) = countdownIntervalRef s
  ∧ isInWaitingLobbyRef (setRoomWithInterpolation now r s) = isInWaitingLobbyRef s.
Proof.
  unfold setRoomWithInterpolation. cbn.
  by destruct (Qle_bool 16 (now - lastUpdateTimeRef s)).
Qed.

Lemma handleChatMessage_keeps (cl : Closure) (u : option Room) (s : State) :
  countdown (handleChatMessage cl u s) = countdown s
  ∧ countdownIntervalRef (handleChatMessage cl u s) = countdownIntervalRef s.
Proof.
  unfold handleChatMessage.
  destruct u as [u|], (cl_room cl) as [r|]; try done.
  destruct (String.eqb _ _); [|done].
  by destruct (cl_displayRoom cl).
Qed.

Lemma handleTypingUpdate_keeps (cl : Closure) (u : option Room) (s : State) :
  countdown (handleTypingUpdate cl u s) = countdown s
  ∧ countdownIntervalRef (handleTypingUpdate cl u s) = countdownIntervalRef s.
Proof.
  unfold handleTypingUpdate.
  destruct u as [u|], (cl_room cl) as [r|]; try done.
  destruct (String.eqb _ _); [|done].
  by destruct (cl_displayRoom cl).
Qed.

(** A broadcast leaves the countdown and its interval alone, unless it is
    a [gameStart] whose handler closed over no positive countdown: then
    both are set to 5. *)
Lemma handle_countdown (cl : Closure) (now : Q) (ev : Event) (s : State) :
  let s' := fst (handle cl now ev s) in
  countdown s' = countdown s ∧ countdownIntervalRef s' = countdownIntervalRef s
  ∨ countdown s' = Some 5%Z ∧ countdownIntervalRef s' = Some 5%Z
    ∧ (cl_countdown cl = None ∨ ∃ c, cl_countdown cl = Some c ∧ (c <= 0)%Z).
Proof.
  cbn zeta. destruct ev as [r|u|r|r|r]; cbn [handle fst].
  - left. unfold handleRoomUpdate. destruct r as [r|]; [|done].
    destruct (isInWaitingLobbyRef s).
    + by destruct (String.eqb _ _).
    + cbn [fst]. by destruct (setRoomWithInterpolation_keeps now r s) as (-> & -> & _).
  - left. unfold handleGameUpdate. destruct (u_room u) as [r|]; [|done].
    destruct (isInWaitingLobbyRef s); [done|]. cbn [fst].
    by destruct (setRoomWithInterpolation_keeps now r s) as (-> & -> & _).
  - unfold handleGameStart. destruct r as [r|]; [|by left].
    destruct (cl_countdown cl) as [c|] eqn:Hc.
    + destruct (Z.leb_spec c 0); cbn [fst].
      * right. split_and!; [done..|]. right. by exists c.
      * left.
        by destruct (setRoomWithInterpolation_keeps now (with_status "playing" r)
                       (set_isInWaitingLobbyRef false s)) as (-> & -> & _).
    + right. cbn [fst]. split_and!; [done..|]. by left.
  - left. apply handleChatMessage_keeps.
  - left. apply handleTypingUpdate_keeps.
Qed.

Lemma handle_room (cl : Closure) (now : Q) (ev : Event) (s : State) :
  room s ≠ None -> room (fst (handle cl now ev s)) ≠ None.
Proof.
  intros Hs. destruct ev as [r|u|r|r|r]; cbn [handle fst].
  - unfold handleRoomUpdate. destruct r as [r|]; [|done].
    destruct (isInWaitingLobbyRef s).
    + by destruct (String.eqb _ _).
    + cbn [fst]. by rewrite setRoomWithInterpolation_room.
  - unfold handleGameUpdate. destruct (u_room u) as [r|]; [|done].
    destruct (isInWaitingLobbyRef s); [done|]. cbn [fst].
    by rewrite setRoomWithInterpolation_room.
  - unfold handleGameStart. destruct r as [r|]; [|done].
    assert (∀ s0, room (set_countdownIntervalRef (Some 5%Z) (setCountdown (Some 5%Z) s0))
                  = room s0) as Hk by done.
    destruct (cl_countdown cl) as [c|]; [destruct (c <=? 0)%Z|]; cbn [fst];
      rewrite ?Hk; by rewrite setRoomWithInterpolation_room.
  - unfold handleChatMessage. destruct r as [u|], (cl_room cl) as [r|]; try done.
    destruct (String.eqb _ _); [|done]. by destruct (cl_displayRoom cl).
  - unfold handleTypingUpdate. destruct r as [u|], (cl_room cl) as [r|]; try done.
    destruct (String.eqb _ _); [|done]. by destruct (cl_displayRoom cl).
Qed.

Lemma countdownTick_countdown (s : State) (n : Z) :
  countdownIntervalRef s = Some n ->
  let s' := fst (countdownTick s) in
  room s' = room s
  ∧ ((1 < n)%Z ∧ countdown s' = Some (n - 1)%Z
               ∧ countdownIntervalRef s' = Some (n - 1)%Z
               ∧ snd (countdownTick s) = []
     ∨ (n <= 1)%Z ∧ countdown s' = None ∧ countdownIntervalRef s' = None
                  ∧ snd (countdownTick s) = [Sound "start"]).
Proof.
  intros Hn. cbn zeta. unfold countdownTick. rewrite Hn.
  destruct (Z.leb_spec (n - 1) 0); cbn [fst snd].
  - split; [done|]. right. split_and!; [lia|done..].
  - split; [done|]. left. split_and!; [lia|done..].
Qed.

Lemma countdownTick_flag (s : State) :
  isInWaitingLobbyRef (fst (countdownTick s)) = isInWaitingLobbyRef s.
Proof.
  unfold countdownTick. destruct (countdownIntervalRef s) as [n|]; [|done].
  by destruct (n - 1 <=? 0)%Z.
Qed.

Lemma pollRoom_keeps (cl : Closure) (resp : Response) (s : State) :
  countdown (fst (pollRoom cl resp s)) = countdown s
  ∧ countdownIntervalRef (fst (pollRoom cl resp s)) = countdownIntervalRef s
  ∧ isInWaitingLobbyRef (fst (pollRoom cl resp s)) = isInWaitingLobbyRef s
  ∧ displayRoom (fst (pollRoom cl resp s)) = displayRoom s.
Proof.
  unfold pollRoom. destruct (cl_room cl) as [r|]; [|done].
  destruct resp as [result|]; [|done].
  by destruct (success result).
Qed.

(** [handlePlayAgain] run to its end holds no countdown, and either shows
    a room under the intent flag or shows none with the flag cleared. *)
Lemma playAgain_cases (reset getRoom retry : Response) (s : State) :
  room s ≠ None ->
  let s' := playAgain reset getRoom retry s in
  countdown s' = None ∧ countdownIntervalRef s' = None
  ∧ ((∃ r, room s' = Some r ∧ displayRoom s' = Some r
           ∧ isInWaitingLobbyRef s' = true
           ∧ (status r = "waiting"
              ∨ ∃ result, reset = Resolved result ∧ success result = true
                          ∧ res_room result = Some r))
     ∨ room s' = None ∧ displayRoom s' = None ∧ isInWaitingLobbyRef s' = false).
Proof.
  intros Hs. cbn zeta. unfold playAgain, handlePlayAgain.
  destruct (room s) as [r0|] eqn:Hr0; [clear Hs|done].
  set (s1 := set_isInWaitingLobbyRef true _).
  assert (Hfb : ∀ g,
    countdown (fallback g s1) = None ∧ countdownIntervalRef (fallback g s1) = None
    ∧ ((∃ r, room (fallback g s1) = Some r ∧ displayRoom (fallback g s1) = Some r
             ∧ isInWaitingLobbyRef (fallback g s1) = true ∧ status r = "waiting")
       ∨ room (fallback g s1) = None ∧ displayRoom (fallback g s1) = None
         ∧ isInWaitingLobbyRef (fallback g s1) = false)).
  { intros g. unfold fallback.
    destruct (success g), (res_room g) as [r|]; cbn; split_and!; try done;
      try (by right).
    left. by exists (with_status "waiting" r). }
  assert (Hgu :
    countdown (giveUp s1) = None ∧ countdownIntervalRef (giveUp s1) = None
    ∧ room (giveUp s1) = None ∧ displayRoom (giveUp s1) = None
    ∧ isInWaitingLobbyRef (giveUp s1) = false) by done.
  assert (Hweaken : ∀ s',
    (countdown s' = None ∧ countdownIntervalRef s' = None
     ∧ ((∃ r, room s' = Some r ∧ displayRoom s' = Some r
              ∧ isInWaitingLobbyRef s' = true ∧ status r = "waiting")
        ∨ room s' = None ∧ displayRoom s' = None
          ∧ isInWaitingLobbyRef s' = false)) ->
    countdown s' = None ∧ countdownIntervalRef s' = None
    ∧ ((∃ r, room s' = Some r ∧ displayRoom s' = Some r
             ∧ isInWaitingLobbyRef s' = true
             ∧ (status r = "waiting"
                ∨ ∃ result, reset = Resolved result ∧ success result = true
                            ∧ res_room result = Some r))
       ∨ room s' = None ∧ displayRoom s' = None ∧ isInWaitingLobbyRef s' = false)).
  { intros s' (? & ? & [(r & ? & ? & ? & ?)|?]); split_and!; try done.
    - left. exists r. split_and!; auto.
    - by right. }
  assert (Hrescue : ∀ retry',
    countdown (rescue retry' s1) = None
    ∧ countdownIntervalRef (rescue retry' s1) = None
    ∧ ((∃ r, room (rescue retry' s1) = Some r ∧ displayRoom (rescue retry' s1) = Some r
             ∧ isInWaitingLobbyRef (rescue retry' s1) = true ∧ status r = "waiting")
       ∨ room (rescue retry' s1) = None ∧ displayRoom (rescue retry' s1) = None
         ∧ isInWaitingLobbyRef (rescue retry' s1) = false)).
  { intros [g|]; cbn [rescue]; [apply Hfb|].
    destruct Hgu as (? & ? & ? & ? & ?). split_and!; try done. by right. }
  destruct reset as [result|]; [|apply Hweaken, Hrescue].
  destruct (success result) eqn:Hok, (res_room result) as [r|] eqn:Hrr.
  - split_and!; [done..|]. left. exists r. split_and!; [done..|].
    right. by exists result.
  - destruct getRoom as [g|]; apply Hweaken; [apply Hfb|apply Hrescue].
  - destruct getRoom as [g|]; apply Hweaken; [apply Hfb|apply Hrescue].
  - destruct getRoom as [g|]; apply Hweaken; [apply Hfb|apply Hrescue].
Qed.

(** *** Every step keeps the page coherent *)

Lemma step_coherent (a : Action) (p : Page) : coherent p -> coherent (step a p).
Proof.
  intros Hp. pose proof Hp as (Hdeps & Hh & Hd & Hi & Hn).
  destruct a as [r|now ev| |resp|reset getRoom retry|]; cbn [step].
  - apply settle_coherent; [done|done|]. intros n Hsome. by apply Hn.
  - destruct (wsHandlers p) as [cl|] eqn:Hcl; [|done].
    destruct Hh as [(r & Hr & Hcode) Hcc].
    assert (room (st p) ≠ None) as Hroom by (by destruct (room (st p))).
    apply settle_coherent; [done|done|].
    intros n Hsome.
    destruct (handle_countdown cl now ev (st p)) as [[Hc Hint]|(Hc & Hint & _)].
    + rewrite Hc. rewrite Hint in Hsome. by apply Hn.
    + rewrite Hint in Hsome. injection Hsome as <-. by rewrite Hc.
  - destruct (countdownIntervalRef (st p)) as [n|] eqn:Hint; [|done].
    destruct (Hn n eq_refl) as [Hc Hpos].
    destruct (countdownTick_countdown (st p) n Hint) as [Hr Hcases].
    apply settle_coherent; [done| |].
    + intros Hnone. specialize (Hi Hnone). congruence.
    + intros m Hm.
      destruct Hcases as [(Hlt & Hc' & Hi' & _)|(_ & _ & Hi' & _)]; [|congruence].
      rewrite Hi' in Hm. injection Hm as <-. split; [done|lia].
  - destruct (polling (room (st p))) eqn:Hpoll; [|done].
    assert (room (st p) ≠ None) as Hroom by (by destruct (room (st p))).
    destruct (pollRoom_keeps (capture (st p)) resp (st p)) as (Hc & Hint & _).
    apply settle_coherent; [done|done|].
    intros n Hsome. rewrite Hc. rewrite Hint in Hsome. by apply Hn.
  - destruct (room (st p)) as [r0|] eqn:Hr0.
    + destruct (playAgain_cases reset getRoom retry (st p)) as (Hc & Hint & _);
        [by rewrite Hr0|].
      apply settle_coherent; [done|by rewrite Hr0|]. intros n. by rewrite Hint.
    + assert (playAgain reset getRoom retry (st p) = st p) as ->
        by (unfold playAgain; by rewrite Hr0).
      apply settle_coherent; [done|by intros; apply Hi|done].
  - apply settle_coherent; [done| |done].
    intros Hnone _. by apply Hi.
Qed.

Lemma runPage_coherent (actions : list Action) (p : Page) :
  coherent p -> coherent (runPage actions p).
Proof.
  revert p. induction actions as [|a actions IH]; intros p Hp; [done|].
  apply IH. by apply step_coherent.
Qed.

Lemma runPage_cons (a : Action) (l : list Action) (p : Page) :
  runPage (a :: l) p = runPage l (step a p).
Proof. done. Qed.

Lemma runPage_app (l1 l2 : list Action) (p : Page) :
  runPage (l1 ++ l2) p = runPage l2 (runPage l1 p).
Proof. unfold runPage. by rewrite foldl_app. Qed.

Lemma reachable_pages_coherent_aux (actions : list Action) :
  coherent (runPage actions mount).
Proof. apply runPage_coherent, mount_coherent. Qed.

(** X14.  Whatever the player, the server and the timers do from the first
    render on, the page stays coherent: the WebSocket effect has run for
    the room code and countdown shown; handlers are registered exactly
    when a room is shown, and they closed over a room with the shown room
    code and over the shown countdown; a shown room has a display
    snapshot; with no room no countdown interval runs; and while the
    interval runs the countdown shown is its positive count. *)
Theorem reachable_pages_are_coherent (actions : list Action) :
  coherent (runPage actions mount).
Proof. apply runPage_coherent, mount_coherent. Qed.

(** *** Leaving a room *)

Lemma coherent_no_room (p : Page) :
  coherent p -> room (st p) = None ->
  wsHandlers p = None ∧ countdownIntervalRef (st p) = None.
Proof.
  intros (_ & Hh & _ & Hi & _) Hnone. split; [|by apply Hi].
  destruct (wsHandlers p) as [cl|]; [|done].
  destruct Hh as [(r & _ & Hcode) _]. by rewrite Hnone in Hcode.
Qed.

Lemma passive_idle (a : Action) (p : Page) :
  coherent p -> room (st p) = None -> isPassive a = true -> step a p = p.
Proof.
  intros Hp Hnone Ha. destruct (coherent_no_room p Hp Hnone) as [Hh Hi].
  destruct a; try done; cbn [step].
  - by rewrite Hh.
  - by rewrite Hi.
  - by rewrite Hnone.
Qed.

Lemma quit_fields (p : Page) :
  room (st (step Quit p)) = None
  ∧ displayRoom (st (step Quit p)) = None
  ∧ countdown (st (step Quit p)) = countdown (st p).
Proof.
  cbn [step]. unfold settle. rewrite commit_st.
  destruct (countdownCleanup_fields (handleQuit (st p)) p) as (Hr & Hd & Hc & _).
  unfold seedDisplay. rewrite Hr, Hd. cbn. by rewrite Hr, Hd, Hc.
Qed.



(** *** A countdown cut short *)

(** The broadcasts and timers keep a countdown that no interval drives. *)
Lemma passive_keeps_frozen (k : Z) (a : Action) (p : Page) :
  (0 < k)%Z ->
  coherent p -> countdown (st p) = Some k -> countdownIntervalRef (st p) = None ->
  isPassive a = true ->
  countdown (st (step a p)) = Some k ∧ countdownIntervalRef (st (step a p)) = None.
Proof.
  intros Hk Hp Hc Hi Ha. pose proof Hp as (_ & Hh & _).
  destruct a as [|now ev| |resp| |]; try done; cbn [step].
  - destruct (wsHandlers p) as [cl|]; [|done].
    destruct Hh as [_ Hcc].
    destruct (settle_fields (fst (handle cl now ev (st p))) p) as (_ & Hsc & _ & Hsi).
    destruct (handle_countdown cl now ev (st p))
      as [[Hc' Hi']|(_ & _ & [Hnone|(c & Hsome & Hle)])].
    + rewrite Hsc, Hc', Hc. split; [done|].
      destruct Hsi as [Hsi|Hsi]; [|done]. by rewrite Hsi, Hi'.
    + congruence.
    + rewrite Hcc, Hc in Hsome. injection Hsome as <-. lia.
  - by rewrite Hi.
  - destruct (polling (room (st p))); [|done].
    destruct (pollRoom_keeps (capture (st p)) resp (st p)) as (Hc' & Hi' & _).
    destruct (settle_fields (fst (pollRoom (capture (st p)) resp (st p))) p)
      as (_ & Hsc & _ & Hsi).
    rewrite Hsc, Hc', Hc. split; [done|].
    destruct Hsi as [Hsi|Hsi]; [|done]. by rewrite Hsi, Hi'.
Qed.



(** *** Polling and the waiting intent *)

(** X17.  While the player waits in the lobby after "play again", a [roomUpdate]
    or [gameUpdate] broadcast that carries a room of another status is
    dropped, but the poll timer is not held back by the intent flag:
    [pollRoom] stores whatever room a successful [getRoom] returns and
    leaves the flag set, so the page then keeps dropping [gameUpdate]
    broadcasts for the room it now shows. *)
Theorem poll_is_not_held_back_by_waiting_intent
  (p : Page) (r0 r1 : Room) (now : Q) (u : Update) :
  isInWaitingLobbyRef (st p) = true ->
  room (st p) = Some r0 ->
  status r0 ≠ "playing" ->
  status r1 ≠ "waiting" ->
  u_room u = Some r1 ->
  let polled :=
    step (Poll (Resolved {| success := true; res_room := Some r1;
                            res_error := None |})) p in
  room (st (step (Broadcast now (RoomUpdate (Some r1))) p)) = Some r0
  ∧ room (st (step (Broadcast now (GameUpdate u)) p)) = Some r0
  ∧ room (st polled) = Some r1
  ∧ isInWaitingLobbyRef (st polled) = true
  ∧ ∀ now' u', room (st (step (Broadcast now' (GameUpdate u')) polled)) = Some r1.
Proof.
  intros Hflag Hroom Hnp Hnw Hu polled.
  assert (Hdrop : ∀ q now0 ev, isInWaitingLobbyRef (st q) = true ->
            isUpdate ev = true ->
            (∀ r, ev = RoomUpdate (Some r) -> status r ≠ "waiting") ->
            room (st (step (Broadcast now0 ev) q)) = room (st q)).
  { intros q now0 ev Hf Hup Hst. cbn [step].
    destruct (wsHandlers q) as [cl|]; [|done].
    rewrite (handle_discards cl now0 ev (st q) Hf Hup Hst). cbn [fst].
    by destruct (settle_fields (st q) q) as (-> & _). }
  assert (polling (room (st p)) = true) as Hpoll.
  { rewrite Hroom. cbn. apply negb_true_iff, String.eqb_neq. done. }
  assert (room (st polled) = Some r1 ∧ isInWaitingLobbyRef (st polled) = true)
    as [Hpr Hpf].
  { subst polled. cbn [step]. rewrite Hpoll.
    destruct (settle_fields (fst (pollRoom (capture (st p))
       (Resolved {| success := true; res_room := Some r1; res_error := None |})
       (st p))) p) as (-> & _ & -> & _).
    unfold pollRoom. cbn [capture cl_room]. rewrite Hroom. cbn. done. }
  split_and!; [| |done|done|].
  - rewrite Hdrop, ?Hroom; try done. intros r [= <-]. done.
  - by rewrite Hdrop, ?Hroom.
  - intros now' u'. by rewrite Hdrop, ?Hpr.
Qed.

Lemma poll_is_not_held_back_by_waiting_intent_witness :
  let p := runPage [Enter Samples.lobbyRoom;
                    PlayAgain (Resolved (GameSamples.ok Samples.lobbyRoom))
                      Rejected Rejected] mount in
  let u := {| u_room := Some Samples.playingRoom; foodEaten := true;
              powerUpCollected := false; eliminated := None |} in
  let polled :=
    step (Poll (Resolved {| success := true; res_room := Some Samples.playingRoom;
                            res_error := None |})) p in
  room (st (step (Broadcast 20 (RoomUpdate (Some Samples.playingRoom))) p))
  = Some Samples.lobbyRoom
  ∧ room (st (step (Broadcast 20 (GameUpdate u)) p)) = Some Samples.lobbyRoom
  ∧ room (st polled) = Some Samples.playingRoom
  ∧ isInWaitingLobbyRef (st polled) = true
  ∧ ∀ now' u', room (st (step (Broadcast now' (GameUpdate u')) polled))
               = Some Samples.playingRoom.
Proof.
  apply (poll_is_not_held_back_by_waiting_intent
           (runPage [Enter Samples.lobbyRoom;
                     PlayAgain (Resolved (GameSamples.ok Samples.lobbyRoom))
                       Rejected Rejected] mount)
           Samples.lobbyRoom Samples.playingRoom 20
           {| u_room := Some Samples.playingRoom; foodEaten := true;
              powerUpCollected := false; eliminated := None |});
    by vm_compute.
Defined.

(** *** Play again *)

(** X18.  [handlePlayAgain] run to its end on a page that shows a room: no
    countdown is left; either a room is shown, with its display snapshot
    and under the waiting intent, and that room is the one [resetToLobby]
    returned or has status ['waiting'], or no room is shown and the intent
    is cleared.  So the intent is set exactly when a room is shown.  The
    second [getRoom] is consulted only after a rejection. *)
Theorem play_again_ends_in_a_lobby_or_with_no_room
  (reset getRoom retry : Response) (s : State) :
  room s ≠ None ->
  let s' := playAgain reset getRoom retry s in
  countdown s' = None ∧ countdownIntervalRef s' = None
  ∧ ((∃ r, room s' = Some r ∧ displayRoom s' = Some r
           ∧ isInWaitingLobbyRef s' = true
           ∧ (status r = "waiting"
              ∨ ∃ result, reset = Resolved result ∧ success result = true
                          ∧ res_room result = Some r))
     ∨ room s' = None ∧ displayRoom s' = None ∧ isInWaitingLobbyRef s' = false)
  ∧ (isInWaitingLobbyRef s' = true ↔ is_Some (room s'))
  ∧ (∀ result g retry', reset = Resolved result -> getRoom = Resolved g ->
       playAgain reset getRoom retry' s = s').
Proof.
  intros Hs s'.
  destruct (playAgain_cases reset getRoom retry s Hs) as (Hc & Hi & Hcases).
  fold s' in Hc, Hi, Hcases.
  split_and!; [done..| |].
  - destruct Hcases as [(r & -> & _ & -> & _)|(-> & _ & ->)].
    + split; [by eexists|done].
    + split; [done|by intros [? ?]].
  - intros result g retry' -> ->. subst s'. unfold playAgain.
    destruct (room s); [|done].
    by destruct (success result), (res_room result).
Qed.

Lemma play_again_ends_in_a_lobby_or_with_no_room_witness :
  let s' := playAgain (Resolved GameSamples.refused) Rejected
              (Resolved (GameSamples.ok Samples.endedRoom))
              (GameSamples.showing Samples.endedRoom) in
  countdown s' = None ∧ countdownIntervalRef s' = None
  ∧ ((∃ r, room s' = Some r ∧ displayRoom s' = Some r
           ∧ isInWaitingLobbyRef s' = true
           ∧ (status r = "waiting"
              ∨ ∃ result, Resolved GameSamples.refused = Resolved result
                          ∧ success result = true
                          ∧ res_room result = Some r))
     ∨ room s' = None ∧ displayRoom s' = None ∧ isInWaitingLobbyRef s' = false)
  ∧ (isInWaitingLobbyRef s' = true ↔ is_Some (room s'))
  ∧ (∀ result g retry', Resolved GameSamples.refused = Resolved result ->
       Rejected = Resolved g ->
       playAgain (Resolved GameSamples.refused) Rejected retry'
         (GameSamples.showing Samples.endedRoom) = s').
Proof.
  apply (play_again_ends_in_a_lobby_or_with_no_room
           (Resolved GameSamples.refused) Rejected
           (Resolved (GameSamples.ok Samples.endedRoom))
           (GameSamples.showing Samples.endedRoom)).
  by vm_compute.
Defined.

(** *** The start countdown *)

Lemma countdownTicks_idle (j : nat) (s : State) :
  countdownIntervalRef s = None -> countdownTicks j s = (s, []).
Proof.
  intros Hi. induction j as [|j IH]; [done|].
  cbn [countdownTicks]. unfold countdownTick at 1. by rewrite Hi, IH.
Qed.

Lemma countdownTicks_run (j : nat) (s : State) (n : Z) :
  countdownIntervalRef s = Some n -> (0 < n)%Z ->
  let s' := fst (countdownTicks j s) in
  room s' = room s ∧ isInWaitingLobbyRef s' = isInWaitingLobbyRef s
  ∧ ((Z.of_nat j < n)%Z ->
       (j ≠ 0%nat -> countdown s' = Some (n - Z.of_nat j)%Z)
       ∧ countdownIntervalRef s' = Some (n - Z.of_nat j)%Z
       ∧ snd (countdownTicks j s) = [])
  ∧ ((n <= Z.of_nat j)%Z ->
       countdown s' = None ∧ countdownIntervalRef s' = None
       ∧ snd (countdownTicks j s) = [Sound "start"]).
Proof.
  revert s n. induction j as [|j IH]; intros s n Hn Hpos; cbn zeta.
  - cbn. split_and!; [done..| |lia].
    intros _. split_and!; [done| |done]. rewrite Hn. f_equal. lia.
  - cbn [countdownTicks].
    destruct (countdownTick_countdown s n Hn) as [Hr1 Hcases].
    pose proof (countdownTick_flag s) as Hf1.
    destruct (countdownTick s) as [s1 out1]. cbn [fst snd] in Hr1, Hf1, Hcases.
    destruct Hcases as [(Hlt & Hc1 & Hi1 & ->)|(Hle & Hc1 & Hi1 & ->)].
    + destruct (IH s1 (n - 1)%Z Hi1 ltac:(lia)) as (Hr & Hf & Hlt' & Hge').
      destruct (countdownTicks j s1) as [s2 out2] eqn:Hrun. cbn [fst snd] in *.
      split_and!; [congruence..| |].
      * intros Hj. destruct Hlt' as (Hc & Hi & ->); [lia|].
        split_and!; [|rewrite Hi; f_equal; lia|done].
        intros _. destruct j as [|j'].
        -- cbn in Hrun. injection Hrun as <-. by rewrite Hc1.
        -- rewrite Hc by done. f_equal. lia.
      * intros Hj. destruct Hge' as (Hc & Hi & ->); [lia|]. done.
    + rewrite (countdownTicks_idle j s1 Hi1). cbn [fst snd].
      split_and!; [done..|lia|]. intros _. done.
Qed.

(** X19.  A [gameStart] broadcast whose handler closed over no positive
    countdown clears the waiting intent, shows the room as ['playing'] and
    sets the countdown to 5.  The interval then shows 4, 3, 2, 1 without a
    cue; its fifth call leaves the countdown [null], clears the interval
    and plays the start cue once, the game-loop effect then starts the
    tick loop, and later calls of the callback change nothing. *)
Theorem game_start_counts_down_from_five_and_cues_once
  (cl : Closure) (now : Q) (r : Room) (s : State) (j : nat) :
  cl_countdown cl = None ∨ (∃ c, cl_countdown cl = Some c ∧ (c <= 0)%Z) ->
  let started := fst (handleGameStart cl now (Some r) s) in
  let s' := fst (countdownTicks j started) in
  let cues := snd (countdownTicks j started) in
  isInWaitingLobbyRef s' = false
  ∧ room s' = Some (with_status "playing" r)
  ∧ snd (handleGameStart cl now (Some r) s) = []
  ∧ ((j < 5)%nat ->
       countdown s' = Some (5 - Z.of_nat j)%Z ∧ cues = []
       ∧ gameLoopEffect (room s') (countdown s') = None)
  ∧ ((5 <= j)%nat ->
       countdown s' = None ∧ countdownIntervalRef s' = None
       ∧ cues = [Sound "start"]
       ∧ is_Some (gameLoopEffect (room s') (countdown s'))).
Proof.
  intros Hcl. cbn zeta.
  set (s2 := setRoomWithInterpolation now (with_status "playing" r)
               (set_isInWaitingLobbyRef false s)).
  assert (handleGameStart cl now (Some r) s
          = (set_countdownIntervalRef (Some 5%Z) (setCountdown (Some 5%Z) s2), []))
    as ->.
  { unfold handleGameStart. fold s2.
    destruct Hcl as [->|(c & -> & Hle)]; [done|].
    by destruct (Z.leb_spec c 0); [|lia]. }
  cbn [fst snd].
  set (started := set_countdownIntervalRef _ _).
  assert (room started = Some (with_status "playing" r)) as Hroom
    by apply setRoomWithInterpolation_room.
  assert (isInWaitingLobbyRef started = false) as Hflag.
  { change (isInWaitingLobbyRef s2 = false). subst s2.
    by destruct (setRoomWithInterpolation_keeps now (with_status "playing" r)
                   (set_isInWaitingLobbyRef false s)) as (_ & _ & ->). }
  destruct (countdownTicks_run j started 5 eq_refl ltac:(lia))
    as (Hr & Hf & Hlt & Hge).
  rewrite Hr, Hf, Hroom, Hflag.
  split_and!; [done..| |].
  - intros Hj. destruct Hlt as (Hc & _ & Ho); [lia|].
    assert (countdown (fst (countdownTicks j started)) = Some (5 - Z.of_nat j)%Z)
      as Hcd.
    { destruct j as [|j']; [done|]. by apply Hc. }
    rewrite Hcd. split_and!; [done..|].
    unfold gameLoopEffect. cbn.
    by destruct (Z.ltb_spec 0 (5 - Z.of_nat j)); [|lia].
  - intros Hj. destruct Hge as (Hc & Hi & Ho); [lia|].
    rewrite Hc. split_and!; [done..|]. by eexists.
Qed.

Lemma game_start_counts_down_from_five_and_cues_once_witness :
  let cl := capture (GameSamples.showing Samples.lobbyRoom) in
  let started :=
    fst (handleGameStart cl 1000 (Some Samples.lobbyRoom)
           (GameSamples.showing Samples.lobbyRoom)) in
  let s' := fst (countdownTicks 7 started) in
  let cues := snd (countdownTicks 7 started) in
  isInWaitingLobbyRef s' = false
  ∧ room s' = Some (with_status "playing" Samples.lobbyRoom)
  ∧ snd (handleGameStart cl 1000 (Some Samples.lobbyRoom)
           (GameSamples.showing Samples.lobbyRoom)) = []
  ∧ ((7 < 5)%nat ->
       countdown s' = Some (5 - Z.of_nat 7)%Z ∧ cues = []
       ∧ gameLoopEffect (room s') (countdown s') = None)
  ∧ ((5 <= 7)%nat ->
       countdown s' = None ∧ countdownIntervalRef s' = None
       ∧ cues = [Sound "start"]
       ∧ is_Some (gameLoopEffect (room s') (countdown s'))).
Proof.
  apply (game_start_counts_down_from_five_and_cues_once
           (capture (GameSamples.showing Samples.lobbyRoom)) 1000 Samples.lobbyRoom
           (GameSamples.showing Samples.lobbyRoom) 7).
  by left.
Defined.

(** *** Keyboard *)

Ltac split_key key :=
  repeat match goal with
         | |- context [String.eqb key ?k] =>
             destruct (String.eqb_spec key k) as [->|?]; [by vm_compute|]
         end.

(** The two tables of [handleKeyDown] list the same keys. *)
Lemma movementKeys_keyMap (key : string) :
  existsb (String.eqb key) movementKeys
  = match keyMap key with Some _ => true | None => false end.
Proof. unfold keyMap, movementKeys, existsb. split_key key. done. Qed.

Lemma keyMap_unit (key : string) (d : Direction) :
  keyMap key = Some d -> (Z.abs (dir_x d) + Z.abs (dir_y d) = 1)%Z.
Proof.
  unfold keyMap.
  repeat match goal with
         | |- context [String.eqb key ?k] =>
             destruct (String.eqb_spec key k) as [->|?];
               [cbn; by intros [= <-]|]
         end.
  done.
Qed.

(** X20.  A key press queues a direction, and sends it at once through
    [callServer], exactly when the room of the handler is ['playing'], no
    text field has the focus and the key is one of the twelve mapped keys;
    in every other case it does nothing.  A text field that has the focus
    holds back every mapped key, since [movementKeys] and [keyMap] list
    the same keys.  Every mapped direction is one step along one axis. *)
Theorem key_press_queues_a_unit_direction_unless_typing
  (cl : Closure) (isTyping : bool) (key : string) (s : State) :
  let pressed := handleKeyDown cl isTyping key s in
  (is_Some (keyMap key) ↔ key ∈ movementKeys)
  ∧ (∀ d, keyMap key = Some d -> (Z.abs (dir_x d) + Z.abs (dir_y d) = 1)%Z)
  ∧ ((∃ room d, cl_room cl = Some room ∧ status room = "playing"
                ∧ isTyping = false ∧ keyMap key = Some d
                ∧ pressed
                  = (set_directionQueueRef (Some d) s,
                     [Request ViaCallServer "updateDirection" (room_code room)
                        (Some d)]))
     ∨ pressed = (s, [])
       ∧ (cl_room cl = None
          ∨ (∃ room, cl_room cl = Some room ∧ status room ≠ "playing")
          ∨ isTyping = true
          ∨ keyMap key = None)).
Proof.
  cbn zeta. split_and!.
  - pose proof (movementKeys_keyMap key) as Hk.
    rewrite list_elem_of_In.
    split.
    + intros [d Hd]. rewrite Hd in Hk.
      apply existsb_exists in Hk as (k & Hin & Heq).
      apply String.eqb_eq in Heq. by subst k.
    + intros Hin. destruct (keyMap key); [by eexists|].
      assert (existsb (String.eqb key) movementKeys = true) as Ht; [|congruence].
      apply existsb_exists. exists key. split; [done|apply String.eqb_refl].
  - apply keyMap_unit.
  - unfold handleKeyDown.
    destruct (cl_room cl) as [room|]; [|right; auto].
    destruct (String.eqb_spec (status room) "playing") as [Hp|Hp]; cbn [negb].
    2:{ right. split; [done|]. right. left. by exists room. }
    rewrite movementKeys_keyMap.
    destruct isTyping, (keyMap key) as [d|]; cbn [andb].
    + right. auto.
    + right. auto.
    + left. by exists room, d.
    + right. auto.
Qed.

(** X21.  Of the directions queued between two ticks only the last one is sent,
    once, just before the tick request; the queue is then empty and the
    following tick sends no direction. *)
Theorem queued_direction_is_sent_once_before_the_tick
  (isProduction : bool) (playerId k1 k2 : string) (d1 d2 : Direction)
  (cl : Closure) (room : Room) (env1 env2 : TickEnv) (s : State) :
  cl_room cl = Some room ->
  cl_countdown cl = None ->
  status room = "playing" ->
  host_id room = Some playerId ->
  keyMap k1 = Some d1 ->
  keyMap k2 = Some d2 ->
  (lastTickRef s + TICK_RATE isProduction <= date_now env1)%Z ->
  (date_now env1 + TICK_RATE isProduction <= date_now env2)%Z ->
  let s1 := fst (handleKeyDown cl false k1 s) in
  let s2 := fst (handleKeyDown cl false k2 s1) in
  let t1 := gameTick isProduction playerId cl env1 s2 in
  let t2 := gameTick isProduction playerId cl env2 (fst t1) in
  directionQueueRef s2 = Some d2
  ∧ snd t1
    = [Request (channel (directionSendThrows env1)) "updateDirection"
         (room_code room) (Some d2);
       Request (channel (tickSendThrows env1)) "tick" (room_code room) None]
  ∧ directionQueueRef (fst t1) = None
  ∧ snd t2 = [Request (channel (tickSendThrows env2)) "tick" (room_code room) None].
Proof.
  intros Hroom Hcd Hst Hhost Hk1 Hk2 Hdue1 Hdue2. cbn zeta.
  assert (Hpress : ∀ k d s0, keyMap k = Some d ->
            fst (handleKeyDown cl false k s0) = set_directionQueueRef (Some d) s0).
  { intros k d s0 Hk. unfold handleKeyDown. by rewrite Hroom, Hst, Hk. }
  rewrite (Hpress k1 d1 s Hk1), (Hpress k2 d2 _ Hk2).
  set (s2 := set_directionQueueRef (Some d2) _).
  assert (Htick : ∀ env s0,
            (lastTickRef s0 + TICK_RATE isProduction <= date_now env)%Z ->
            gameTick isProduction playerId cl env s0
            = (set_directionQueueRef None (set_lastTickRef (date_now env) s0),
               match directionQueueRef s0 with
               | Some d => [Request (channel (directionSendThrows env))
                              "updateDirection" (room_code room) (Some d)]
               | None => []
               end
               ++ [Request (channel (tickSendThrows env)) "tick" (room_code room)
                     None])).
  { intros env s0 Hdue. unfold gameTick. rewrite Hroom, Hcd, Hst, Hhost. cbn.
    rewrite String.eqb_refl, andb_false_r.
    destruct (Z.ltb_spec (date_now env - lastTickRef s0) (TICK_RATE isProduction));
      [lia|].
    destruct (directionQueueRef s0) eqn:Hq; [done|].
    destruct s0. cbn in *. by subst. }
  rewrite (Htick env1 s2) by done. cbn [fst snd].
  rewrite Htick by (cbn; lia).
  done.
Qed.

Lemma queued_direction_is_sent_once_before_the_tick_witness :
  let cl := Samples.tickClosure Samples.playingRoom None in
  let s := GameSamples.showing Samples.playingRoom in
  let s1 := fst (handleKeyDown cl false "ArrowUp" s) in
  let s2 := fst (handleKeyDown cl false "d" s1) in
  let t1 := gameTick false "player_h" cl (Samples.tickAt 1000) s2 in
  let t2 := gameTick false "player_h" cl (Samples.tickAt 1150) (fst t1) in
  directionQueueRef s2 = Some {| dir_x := 1; dir_y := 0 |}
  ∧ snd t1
    = [Request (channel (directionSendThrows (Samples.tickAt 1000)))
         "updateDirection" (room_code Samples.playingRoom)
         (Some {| dir_x := 1; dir_y := 0 |});
       Request (channel (tickSendThrows (Samples.tickAt 1000))) "tick"
         (room_code Samples.playingRoom) None]
  ∧ directionQueueRef (fst t1) = None
  ∧ snd t2 = [Request (channel (tickSendThrows (Samples.tickAt 1150))) "tick"
                (room_code Samples.playingRoom) None].
Proof.
  apply (queued_direction_is_sent_once_before_the_tick false "player_h"
           "ArrowUp" "d" {| dir_x := 0; dir_y := -1 |} {| dir_x := 1; dir_y := 0 |}
           (Samples.tickClosure Samples.playingRoom None) Samples.playingRoom
           (Samples.tickAt 1000) (Samples.tickAt 1150)
           (GameSamples.showing Samples.playingRoom));
    by vm_compute.
Defined.

(** *** The error banner *)

Lemma errorOr_nonempty (failure : string) (e : option string) :
  failure ≠ "" -> errorOr failure e ≠ "".
Proof.
  intros Hf. unfold errorOr.
  destruct e as [x|]; cbn; [|done].
  by destruct (String.eqb_spec x "").
Qed.

(** X22.  [handleCreateRoom] and [handleJoinRoom] ([openRoom]) always end with
    [loading] false; on success they clear the error and show the room
    and its display snapshot.  [handleAddBot], [handleRemoveBot] and
    [handleToggleReady] ([roomCommand]) store on success whatever room the
    answer carries, none included, and leave an earlier error message and
    the display snapshot in place.  A failed or rejected call of any of
    the five sets a non-empty error and leaves the rest of the page
    alone.  [handleSendMessage] never touches the error and never leaves
    the page without a room. *)
Theorem error_is_set_by_failures_and_cleared_only_on_entry
  (failure : string) (cl : Closure) (resp : Response) (u : Ui) :
  failure ≠ "" ->
  is_Some (cl_room cl) ->
  let opened := openRoom failure resp u in
  let commanded := roomCommand failure cl resp u in
  let sent := handleSendMessage cl resp u in
  loading opened = false
  ∧ (∀ result, resp = Resolved result -> success result = true ->
       error opened = ""
       ∧ room (core opened) = res_room result
       ∧ displayRoom (core opened) = res_room result
       ∧ error commanded = error u
       ∧ room (core commanded) = res_room result
       ∧ displayRoom (core commanded) = displayRoom (core u))
  ∧ (resp = Rejected ∨ (∃ result, resp = Resolved result ∧ success result = false) ->
       error opened ≠ "" ∧ core opened = core u
       ∧ error commanded = error opened ∧ core commanded = core u)
  ∧ error sent = error u
  ∧ (room (core sent) = room (core u) ∨ is_Some (room (core sent))).
Proof.
  intros Hf [r0 Hr0]. cbn zeta.
  unfold openRoom, roomCommand, handleSendMessage. rewrite Hr0.
  split_and!.
  - destruct resp as [result|]; [by destruct (success result)|done].
  - intros result -> ->. done.
  - intros [->|(result & -> & ->)]; cbn; [done|].
    split_and!; [by apply errorOr_nonempty|done..].
  - destruct resp as [result|]; [|done].
    by destruct (success result), (res_room result).
  - destruct resp as [result|]; [|by left].
    destruct (success result), (res_room result); cbn; auto.
Qed.

Lemma error_is_set_by_failures_and_cleared_only_on_entry_witness :
  let failure := "Failed to add bot" in
  let cl := capture (GameSamples.showing Samples.lobbyRoom) in
  let resp := Resolved GameSamples.refusedSilently in
  let u := GameSamples.ui (GameSamples.showing Samples.lobbyRoom) in
  let opened := openRoom failure resp u in
  let commanded := roomCommand failure cl resp u in
  let sent := handleSendMessage cl resp u in
  loading opened = false
  ∧ (∀ result, resp = Resolved result -> success result = true ->
       error opened = ""
       ∧ room (core opened) = res_room result
       ∧ displayRoom (core opened) = res_room result
       ∧ error commanded = error u
       ∧ room (core commanded) = res_room result
       ∧ displayRoom (core commanded) = displayRoom (core u))
  ∧ (resp = Rejected ∨ (∃ result, resp = Resolved result ∧ success result = false) ->
       error opened ≠ "" ∧ core opened = core u
       ∧ error commanded = error opened ∧ core commanded = core u)
  ∧ error sent = error u
  ∧ (room (core sent) = room (core u) ∨ is_Some (room (core sent))).
Proof.
  apply (error_is_set_by_failures_and_cleared_only_on_entry
           "Failed to add bot"
           (capture (GameSamples.showing Samples.lobbyRoom))
           (Resolved GameSamples.refusedSilently)
           (GameSamples.ui (GameSamples.showing Samples.lobbyRoom)));
    [done|by eexists].
Defined.

End GameMoreSpec.

(* --------------------------------------------------------------------- *)
(** ** The page with its start button and all its countdown intervals    *)
(* --------------------------------------------------------------------- *)

Module GameSessionSpec.
Import Game GameMore GameSession GameSpec GameMoreSpec.

(** *** Renders *)

Lemma settle_synced (s : State) (p : Page) : synced (settle s p).
Proof.
  destruct (countdownCleanup_fields s p) as (Hr & _ & Hc & _).
  destruct (seedDisplay_fields (countdownCleanup s p)) as (Hc' & _).
  unfold synced, settle, commit.
  case_decide as Hsame; cbn [st wsDeps]; [rewrite Hsame|]; f_equal;
    unfold depsOf; by rewrite seedDisplay_room, Hc'.
Qed.

Lemma render_fields (s : State) (x : Session) :
  page (render s x) = settle s (page x)
  ∧ refByClick (render s x) = refByClick x
  ∧ strays (render s x) = strays x
  ∧ awaited (render s x) = awaited x
  ∧ countdown (st (page (render s x))) = countdown s
  ∧ room (st (page (render s x))) = room s.
Proof.
  destruct (settle_fields s (page x)) as (Hr & Hc & _).
  unfold render. cbn. by rewrite Hr, Hc.
Qed.

(** On sessions [shown] does to the page what [step] does. *)
Lemma shown_page (a : Action) (x : Session) :
  page (fst (shown a x)) = step a (page x).
Proof.
  destruct a as [r|now ev| |resp|reset getRoom retry|]; cbn [shown step].
  - done.
  - destruct (wsHandlers (page x)) as [cl|]; [|done].
    cbn [fst]. destruct (render_fields (fst (handle cl now ev (st (page x))))
                           (if startsInterval cl ev then set_refByClick false x else x))
      as (-> & _).
    by destruct (startsInterval cl ev).
  - destruct (countdownIntervalRef (st (page x))) as [n|]; [|done].
    cbn [fst]. destruct (render_fields (fst (countdownTick (st (page x))))
                           (if refByClick x && (n - 1 <=? 0)%Z
                            then set_isStartingGameRef false x else x))
      as (-> & _).
    by destruct (refByClick x && (n - 1 <=? 0)%Z).
  - by destruct (polling (room (st (page x)))).
  - cbn [fst]. by destruct (room (st (page x))).
  - done.
Qed.

(** *** The countdown shown is [null] or positive *)

Lemma step_countsDown (a : Action) (p : Page) :
  countsDown (st p) -> countsDown (st (step a p)).
Proof.
  unfold countsDown. intros Hp.
  destruct a as [r|now ev| |resp|reset getRoom retry|]; cbn [step].
  - by destruct (settle_fields (showRoom r (st p)) p) as (_ & -> & _).
  - destruct (wsHandlers p) as [cl|]; [|done].
    destruct (settle_fields (fst (handle cl now ev (st p))) p) as (_ & -> & _).
    destruct (handle_countdown cl now ev (st p)) as [[-> _]|(-> & _)]; [done|lia].
  - destruct (countdownIntervalRef (st p)) as [n|] eqn:Hn; [|done].
    destruct (settle_fields (fst (countdownTick (st p))) p) as (_ & -> & _).
    destruct (countdownTick_countdown (st p) n Hn)
      as [_ [(Hlt & -> & _)|(_ & -> & _)]]; [lia|done].
  - destruct (polling (room (st p))); [|done].
    destruct (settle_fields (fst (pollRoom (capture (st p)) resp (st p))) p)
      as (_ & -> & _).
    by destruct (pollRoom_keeps (capture (st p)) resp (st p)) as (-> & _).
  - destruct (settle_fields (playAgain reset getRoom retry (st p)) p) as (_ & -> & _).
    destruct (room (st p)) as [r0|] eqn:Hr0.
    + by destruct (playAgain_cases reset getRoom retry (st p)) as (-> & _);
        [rewrite Hr0|].
    + unfold playAgain. by rewrite Hr0.
  - by destruct (settle_fields (handleQuit (st p)) p) as (_ & -> & _).
Qed.

(** Every act, on whatever session, leaves the countdown [null] or
    positive: an interval callback that stores a count of zero or less
    stores [null] over it before anything is rendered. *)
Lemma act_countsDown (a : Act) (x : Session) :
  countsDown (st (page x)) -> countsDown (st (page (fst (act a x)))).
Proof.
  intros Hx. destruct a as [b|v| |resp|i]; cbn [act fst].
  - rewrite shown_page. by apply step_countsDown.
  - unfold countsDown.
    by destruct (render_fields (setRoom v (st (page x))) x) as (_ & _ & _ & _ & -> & _).
  - unfold handleStartGame_begin. destruct (room (st (page x))); [|done].
    by destruct (isStartingGameRef x).
  - unfold handleStartGame_end. destruct (awaited x) as [|pending]; [done|].
    destruct resp as [result|].
    + destruct (success result), (res_room result) as [r|]; try done.
      unfold countsDown.
      match goal with |- context [render ?s ?y] =>
        destruct (render_fields s y) as (_ & _ & _ & _ & -> & _)
      end.
      cbn. lia.
    + unfold countsDown.
      match goal with |- context [render ?s ?y] =>
        by destruct (render_fields s y) as (_ & _ & _ & _ & -> & _)
      end.
  - unfold strayFires. destruct (strays x !! i) as [iv|]; [|done].
    destruct (Z.leb_spec (count iv - 1) 0); cbn [fst]; unfold countsDown;
      match goal with |- context [render ?s ?y] =>
        destruct (render_fields s y) as (_ & _ & _ & _ & -> & _)
      end; cbn; [done|lia].
Qed.

Lemma acts_cons (a : Act) (l : list Act) (x : Session) :
  acts (a :: l) x
  = (fst (acts l (fst (act a x))), snd (act a x) ++ snd (acts l (fst (act a x)))).
Proof.
  cbn [acts]. destruct (act a x) as [x1 out1]. cbn [fst snd].
  by destruct (acts l x1).
Qed.

Lemma acts_app (l1 l2 : list Act) (x : Session) :
  acts (l1 ++ l2) x
  = (fst (acts l2 (fst (acts l1 x))),
     snd (acts l1 x) ++ snd (acts l2 (fst (acts l1 x)))).
Proof.
  revert x. induction l1 as [|a l1 IH]; intros x.
  - cbn. by destruct (acts l2 x).
  - rewrite <- app_comm_cons, !acts_cons, IH. cbn [fst snd].
    by rewrite app_assoc.
Qed.

Lemma acts_countsDown (l : list Act) (x : Session) :
  countsDown (st (page x)) -> countsDown (st (page (fst (acts l x)))).
Proof.
  revert x. induction l as [|a l IH]; intros x Hx; [done|].
  rewrite acts_cons. cbn [fst]. by apply IH, act_countsDown.
Qed.

(** With a countdown that is [null] or positive the two guards
    [countdown !== null && countdown > 0] let through exactly a countdown
    of [null]. *)
Lemma guards_need_null (s : State) :
  countsDown s ->
  (is_Some (gameLoopEffect (room s) (countdown s))
   ↔ status <$> room s = Some "playing" ∧ countdown s = None)
  ∧ (∀ isProduction playerId env s',
       snd (gameTick isProduction playerId (capture s) env s') ≠ [] ->
       status <$> room s = Some "playing" ∧ countdown s = None).
Proof.
  unfold countsDown. intros Hs. split.
  - rewrite gameLoopEffect_starts. split.
    + intros [Hp [Hc|(c & Hc & Hle)]]; [done|]. rewrite Hc in Hs. lia.
    + intros [Hp Hc]. split; [done|by left].
  - intros isProduction playerId env s'. unfold gameTick. cbn [capture cl_room cl_countdown].
    destruct (room s) as [r|]; [|done].
    destruct (String.eqb_spec (status r) "playing") as [Hp|Hp]; cbn [negb]; [|done].
    destruct (countdown s) as [c|].
    + destruct (Z.ltb_spec 0 c); [done|lia].
    + intros _. cbn. by rewrite Hp.
Qed.

(** C5.  Whatever happens to the page from its first render on (rooms
    entered and left, broadcasts, polls, play again, clicks on start and
    their answers, rooms stored by the other handlers, calls of every
    countdown interval, stray ones included), the countdown a render
    shows is [null] or positive: a callback that stores a count of zero
    or less stores [null] over it in the same call.  So the game-loop
    effect starts the loop exactly when the status is ['playing'] and the
    countdown is [null], and a [gameTick] sends a request only if the
    render that created it showed that status and no countdown. *)
Theorem tick_scheduler_runs_only_without_countdown (l : list Act) :
  let s := st (page (fst (acts l start))) in
  countsDown s
  ∧ (is_Some (gameLoopEffect (room s) (countdown s))
     ↔ status <$> room s = Some "playing" ∧ countdown s = None)
  ∧ (∀ isProduction playerId env s',
       snd (gameTick isProduction playerId (capture s) env s') ≠ [] ->
       status <$> room s = Some "playing" ∧ countdown s = None).
Proof.
  cbn zeta.
  assert (countsDown (st (page (fst (acts l start))))) as Hs
    by by apply acts_countsDown.
  split; [done|]. by apply guards_need_null.
Qed.

(** *** Renders that keep the room code *)

Lemma seedDisplay_id (s : State) : is_Some (displayRoom s) -> seedDisplay s = s.
Proof.
  intros [d Hd]. unfold seedDisplay. rewrite Hd. by destruct (room s).
Qed.

Lemma render_same_code (s : State) (x : Session) :
  synced (page x) ->
  room_code <$> room s = room_code <$> room (st (page x)) ->
  st (page (render s x)) = seedDisplay s
  ∧ isStartingGameRef (render s x) = isStartingGameRef x
  ∧ refByClick (render s x) = refByClick x
  ∧ strays (render s x) = strays x
  ∧ awaited (render s x) = awaited x
  ∧ synced (page (render s x)).
Proof.
  intros Hsync Hcode.
  assert (countdownCleanup s (page x) = s) as Hclean.
  { unfold countdownCleanup. rewrite Hsync. unfold depsOf.
    case_decide as Hne; [done|]. by rewrite Hcode in Hne. }
  assert (cleanupRuns s (page x) = false) as Hruns.
  { unfold cleanupRuns. rewrite Hsync. unfold depsOf.
    rewrite bool_decide_eq_true_2; done. }
  unfold render. rewrite Hruns. cbn.
  split_and!; try done.
  - unfold settle. by rewrite commit_st, Hclean.
  - apply settle_synced.
Qed.

Lemma render_quiet (s : State) (x : Session) :
  synced (page x) ->
  room_code <$> room s = room_code <$> room (st (page x)) ->
  is_Some (displayRoom s) ->
  st (page (render s x)) = s
  ∧ isStartingGameRef (render s x) = isStartingGameRef x
  ∧ refByClick (render s x) = refByClick x
  ∧ strays (render s x) = strays x
  ∧ awaited (render s x) = awaited x
  ∧ synced (page (render s x)).
Proof.
  intros Hsync Hcode Hd.
  destruct (render_same_code s x Hsync Hcode) as (Hst & Hrest).
  by rewrite seedDisplay_id in Hst.
Qed.

(** The callback of the interval the ref points to. *)
Lemma fire_ref (x : Session) (n : Z) :
  synced (page x) ->
  is_Some (displayRoom (st (page x))) ->
  countdownIntervalRef (st (page x)) = Some n ->
  let x' := fst (act (Shown CountdownFires) x) in
  let out := snd (act (Shown CountdownFires) x) in
  synced (page x')
  ∧ is_Some (displayRoom (st (page x')))
  ∧ room (st (page x')) = room (st (page x))
  ∧ strays x' = strays x
  ∧ refByClick x' = refByClick x
  ∧ ((1 < n)%Z
     ∧ countdown (st (page x')) = Some (n - 1)%Z
     ∧ countdownIntervalRef (st (page x')) = Some (n - 1)%Z
     ∧ isStartingGameRef x' = isStartingGameRef x
     ∧ out = []
     ∨ (n <= 1)%Z
       ∧ countdown (st (page x')) = None
       ∧ countdownIntervalRef (st (page x')) = None
       ∧ isStartingGameRef x' = (if refByClick x then false else isStartingGameRef x)
       ∧ out = [Sound "start"]).
Proof.
  intros Hsync Hd Hn. cbn zeta. cbn [act shown]. rewrite Hn.
  unfold countdownTick. rewrite Hn.
  destruct (Z.leb_spec (n - 1) 0) as [Hle|Hgt]; cbn [fst snd].
  - rewrite andb_true_r.
    match goal with |- context [render ?s ?y] =>
      destruct (render_quiet s y) as (Hst & Hf & Hb & Hs & _ & Hsy)
    end; [by destruct (refByClick x) eqn:?|by destruct (refByClick x) eqn:?|done|].
    rewrite Hst, Hf, Hb, Hs.
    split_and!; [done|done|done|by destruct (refByClick x) eqn:?|by destruct (refByClick x) eqn:?|].
    right. split_and!; [lia|done|done|by destruct (refByClick x) eqn:?|done].
  - rewrite andb_false_r.
    match goal with |- context [render ?s ?y] =>
      destruct (render_quiet s y) as (Hst & Hf & Hb & Hs & _ & Hsy)
    end; [done..|].
    rewrite Hst, Hf, Hb, Hs.
    split_and!; [done..|].
    left. split_and!; [lia|done..].
Qed.

(** The callback of a stray interval. *)
Lemma fire_stray (x : Session) (i : nat) (iv : Interval) :
  synced (page x) ->
  is_Some (displayRoom (st (page x))) ->
  strays x !! i = Some iv ->
  let x' := fst (act (StrayFires i) x) in
  let out := snd (act (StrayFires i) x) in
  synced (page x')
  ∧ is_Some (displayRoom (st (page x')))
  ∧ room (st (page x')) = room (st (page x))
  ∧ strays x' = <[i := {| count := count iv - 1; byClick := byClick iv |}]> (strays x)
  ∧ refByClick x' = refByClick x
  ∧ ((1 < count iv)%Z
     ∧ countdown (st (page x')) = Some (count iv - 1)%Z
     ∧ countdownIntervalRef (st (page x')) = countdownIntervalRef (st (page x))
     ∧ isStartingGameRef x' = isStartingGameRef x
     ∧ out = []
     ∨ (count iv <= 1)%Z
       ∧ countdown (st (page x')) = None
       ∧ countdownIntervalRef (st (page x')) = None
       ∧ isStartingGameRef x' = (if byClick iv then false else isStartingGameRef x)
       ∧ out = [Sound "start"]).
Proof.
  intros Hsync Hd Hiv. cbn zeta. cbn [act]. unfold strayFires. rewrite Hiv.
  destruct (Z.leb_spec (count iv - 1) 0) as [Hle|Hgt]; cbn [fst snd].
  - match goal with |- context [render ?s ?y] =>
      destruct (render_quiet s y) as (Hst & Hf & Hb & Hs & _ & Hsy)
    end; [by destruct (byClick iv) eqn:?|by destruct (byClick iv) eqn:?|done|].
    rewrite Hst, Hf, Hb, Hs.
    split_and!; [done|done|done|by destruct (byClick iv) eqn:?|by destruct (byClick iv) eqn:?|].
    right. split_and!; [lia|done|done|by destruct (byClick iv) eqn:?|done].
  - match goal with |- context [render ?s ?y] =>
      destruct (render_quiet s y) as (Hst & Hf & Hb & Hs & _ & Hsy)
    end; [done..|].
    rewrite Hst, Hf, Hb, Hs.
    split_and!; [done..|].
    left. split_and!; [lia|done..].
Qed.

(** *** Starting a game *)

Lemma ref_idle (j : nat) (x : Session) :
  countdownIntervalRef (st (page x)) = None ->
  acts (replicate j (Shown CountdownFires)) x = (x, []).
Proof.
  intros Hi. induction j as [|j IH]; [done|].
  cbn [replicate]. rewrite acts_cons. cbn [act shown]. rewrite Hi. cbn [fst snd].
  by rewrite IH.
Qed.

(** The interval the ref points to, called [j] times with nothing else
    happening in between. *)
Lemma ref_run (j : nat) (x : Session) (n : Z) :
  synced (page x) ->
  is_Some (displayRoom (st (page x))) ->
  countdownIntervalRef (st (page x)) = Some n -> (0 < n)%Z ->
  let x' := fst (acts (replicate j (Shown CountdownFires)) x) in
  let out := snd (acts (replicate j (Shown CountdownFires)) x) in
  room (st (page x')) = room (st (page x))
  ∧ strays x' = strays x
  ∧ ((Z.of_nat j < n)%Z ->
       countdownIntervalRef (st (page x')) = Some (n - Z.of_nat j)%Z
       ∧ (j ≠ 0%nat -> countdown (st (page x')) = Some (n - Z.of_nat j)%Z)
       ∧ isStartingGameRef x' = isStartingGameRef x
       ∧ out = [])
  ∧ ((n <= Z.of_nat j)%Z ->
       countdown (st (page x')) = None
       ∧ countdownIntervalRef (st (page x')) = None
       ∧ isStartingGameRef x' = (if refByClick x then false else isStartingGameRef x)
       ∧ out = [Sound "start"]).
Proof.
  revert x n. induction j as [|j IH]; intros x n Hsync Hd Hn Hpos; cbn zeta.
  - cbn. split_and!; [done..| |lia].
    intros _. split_and!; [|done..]. rewrite Hn. f_equal. lia.
  - cbn [replicate]. rewrite acts_cons. cbn [fst snd].
    destruct (fire_ref x n Hsync Hd Hn) as (Hsync1 & Hd1 & Hr1 & Hs1 & Hb1 & Hcases).
    cbn zeta in *.
    set (x1 := fst (act (Shown CountdownFires) x)) in *.
    destruct Hcases as [(Hlt & Hc1 & Hi1 & Hf1 & ->)|(Hle & Hc1 & Hi1 & Hf1 & ->)].
    + destruct (IH x1 (n - 1)%Z Hsync1 Hd1 Hi1 ltac:(lia)) as (Hr & Hs & Hlt' & Hge').
      cbn zeta in *.
      split_and!; [congruence..| |].
      * intros Hj. destruct Hlt' as (Hi & Hc & Hf & ->); [lia|].
        split_and!; [rewrite Hi; f_equal; lia| |congruence|done].
        intros _. destruct j as [|j'].
        -- cbn. by rewrite Hc1.
        -- rewrite Hc by done. f_equal. lia.
      * intros Hj. destruct Hge' as (Hc & Hi & Hf & ->); [lia|].
        split_and!; [done..| |done]. by rewrite Hf, Hb1, Hf1.
    + rewrite (ref_idle j x1 Hi1). cbn [fst snd].
      split_and!; [done|done|lia|]. intros _. done.
Qed.

(** X23.  An accepted click on "start" clears the waiting intent and the
    interval the ref points to, and raises [isStartingGameRef], so that
    further clicks are refused.  When the answer of [startGame] comes
    next, before any [gameStart] broadcast is handled, and carries the
    room, the room is shown as ['playing'] with the countdown at 5, no
    interval is left behind, and clicks stay refused while the interval
    shows 4, 3, 2, 1; its fifth call leaves the countdown [null], plays
    the start cue once and lowers the flag.  When the call fails or is
    rejected the flag is lowered at once, no interval runs and the room is
    the one shown before. *)
Theorem start_is_refused_until_the_countdown_ends
  (x : Session) (r0 : Room) (resp : Response) (j : nat) :
  synced (page x) ->
  room (st (page x)) = Some r0 ->
  isStartingGameRef x = false ->
  let begun := handleStartGame_begin x in
  let ended := handleStartGame_end resp begun in
  let run := acts (replicate j (Shown CountdownFires)) ended in
  isStartingGameRef begun = true
  ∧ handleStartGame_begin begun = begun
  ∧ isInWaitingLobbyRef (st (page begun)) = false
  ∧ countdownIntervalRef (st (page begun)) = None
  ∧ awaited begun = S (awaited x)
  ∧ (∀ result r,
       resp = Resolved result -> success result = true -> res_room result = Some r ->
       room_code r = room_code r0 ->
       room (st (page ended)) = Some (with_status "playing" r)
       ∧ displayRoom (st (page ended)) = Some (with_status "playing" r)
       ∧ countdown (st (page ended)) = Some 5%Z
       ∧ strays ended = strays x
       ∧ ((j < 5)%nat ->
            handleStartGame_begin (fst run) = fst run
            ∧ countdownIntervalRef (st (page (fst run))) = Some (5 - Z.of_nat j)%Z
            ∧ snd run = [])
       ∧ ((5 <= j)%nat ->
            isStartingGameRef (fst run) = false
            ∧ countdown (st (page (fst run))) = None
            ∧ countdownIntervalRef (st (page (fst run))) = None
            ∧ snd run = [Sound "start"]))
  ∧ (resp = Rejected
     ∨ (∃ result, resp = Resolved result
                  ∧ (success result = false ∨ res_room result = None)) ->
       isStartingGameRef ended = false
       ∧ countdownIntervalRef (st (page ended)) = None
       ∧ room (st (page ended)) = room (st (page x))
       ∧ awaited ended = awaited x).
Proof.
  intros Hsync Hroom Hflag. cbn zeta.
  assert (Hrefused : ∀ y, isStartingGameRef y = true -> handleStartGame_begin y = y).
  { intros y Hy. unfold handleStartGame_begin. rewrite Hy. by destruct (room (st (page y))). }
  assert (handleStartGame_begin x
          = set_awaited (S (awaited x))
              (set_isStartingGameRef true
                 (with_page
                    (with_st
                       (set_countdownIntervalRef None
                          (set_isInWaitingLobbyRef false (st (page x))))
                       (page x)) x))) as ->
    by (unfold handleStartGame_begin; by rewrite Hroom, Hflag).
  set (begun := set_awaited _ _).
  assert (synced (page begun)) as Hsb by exact Hsync.
  split_and!; [done|by apply Hrefused|done|done|done| |].
  - intros result r -> Hok Hres Hcode. unfold handleStartGame_end. cbn [awaited begun set_awaited].
    rewrite Hok, Hres.
    match goal with |- context [render ?s ?y] =>
      destruct (render_quiet s y) as (Hst & Hf & Hb & Hs & _ & Hsy);
        [done|by cbn; rewrite Hroom, Hcode|by eexists|];
        set (ended := render s y) in *
    end.
    assert (countdownIntervalRef (st (page ended)) = Some 5%Z) as Hi
      by by rewrite Hst.
    destruct (ref_run j ended 5 Hsy ltac:(rewrite Hst; by eexists) Hi ltac:(lia))
      as (_ & _ & Hlt & Hge).
    cbn zeta in Hlt, Hge.
    rewrite Hst, Hs. split_and!; [done|done|done|by rewrite app_nil_r| |].
    + intros Hj. destruct Hlt as (Hi' & _ & Hf' & Ho); [lia|].
      split_and!; [|done..]. apply Hrefused. by rewrite Hf', Hf.
    + intros Hj. destruct Hge as (Hc' & Hi' & Hf' & Ho); [lia|].
      split_and!; [|done..]. by rewrite Hf', Hb.
  - assert (∀ s y, countdownIntervalRef s = None ->
              room s = room (st (page x)) ->
              countdownIntervalRef (st (page (render s y))) = None
              ∧ room (st (page (render s y))) = room (st (page x))) as Hren.
    { intros s y Hi Hr.
      destruct (render_fields s y) as (Hp & _ & _ & _ & _ & Hr').
      rewrite Hr', Hr. split; [|done]. rewrite Hp.
      destruct (settle_fields s (page y)) as (_ & _ & _ & [Hi'|Hi']); [|done].
      by rewrite Hi'. }
    intros [->|(result & -> & [Hf|Hn])]; unfold handleStartGame_end; cbn [awaited begun set_awaited].
    + match goal with |- context [render ?s ?y] =>
        destruct (Hren s y) as [Hi Hr]; [done|done|]
      end.
      split_and!; [|done..]. unfold render. cbn.
      by destruct (cleanupRuns _ _).
    + rewrite Hf. done.
    + rewrite Hn. by destruct (success result).
Qed.

(** *** An answer that arrives after the broadcast *)

(** No act takes a stray interval away. *)
Lemma act_keeps_strays (a : Act) (x : Session) :
  (length (strays x) <= length (strays (fst (act a x))))%nat.
Proof.
  destruct a as [b|v| |resp|i]; cbn [act fst].
  2:{ by destruct (render_fields (setRoom v (st (page x))) x) as (_ & _ & -> & _). }
  - destruct b as [r|now ev| |resp|reset getRoom retry|]; cbn [shown].
    + cbn [fst].
      by destruct (render_fields (showRoom r (st (page x))) x) as (_ & _ & -> & _).
    + destruct (wsHandlers (page x)) as [cl|]; [|done]. cbn [fst].
      match goal with |- context [render ?s ?y] =>
        destruct (render_fields s y) as (_ & _ & -> & _)
      end.
      by destruct (startsInterval cl ev).
    + destruct (countdownIntervalRef (st (page x))) as [n|]; [|done]. cbn [fst].
      match goal with |- context [render ?s ?y] =>
        destruct (render_fields s y) as (_ & _ & -> & _)
      end.
      by destruct (refByClick x && (n - 1 <=? 0)%Z).
    + destruct (polling (room (st (page x)))); [|done]. cbn [fst].
      match goal with |- context [render ?s ?y] =>
        by destruct (render_fields s y) as (_ & _ & -> & _)
      end.
    + cbn [fst].
      match goal with |- context [render ?s ?y] =>
        destruct (render_fields s y) as (_ & _ & -> & _)
      end.
      by destruct (room (st (page x))).
    + cbn [fst].
      by destruct (render_fields (handleQuit (st (page x))) x) as (_ & _ & -> & _).
  - unfold handleStartGame_begin. destruct (room (st (page x))); [|done].
    by destruct (isStartingGameRef x).
  - unfold handleStartGame_end. destruct (awaited x) as [|pending]; [done|].
    destruct resp as [result|].
    + destruct (success result), (res_room result) as [r|]; try done.
      match goal with |- context [render ?s ?y] =>
        destruct (render_fields s y) as (_ & _ & -> & _)
      end.
      cbn. rewrite length_app. lia.
    + match goal with |- context [render ?s ?y] =>
        by destruct (render_fields s y) as (_ & _ & -> & _)
      end.
  - unfold strayFires. destruct (strays x !! i) as [iv|]; [|done].
    destruct (count iv - 1 <=? 0)%Z; cbn [fst];
      match goal with |- context [render ?s ?y] =>
        destruct (render_fields s y) as (_ & _ & -> & _)
      end.
    + destruct (byClick iv); cbn; by rewrite length_insert.
    + cbn. by rewrite length_insert.
Qed.

Lemma acts_keep_strays (l : list Act) (x : Session) :
  (length (strays x) <= length (strays (fst (acts l x))))%nat.
Proof.
  revert x. induction l as [|a l IH]; intros x; [done|].
  rewrite acts_cons. cbn [fst].
  etransitivity; [apply (act_keeps_strays a)|apply IH].
Qed.

(** [k] rounds of a stray created by a broadcast and of the interval the
    ref points to, both holding the same count. *)
Lemma rounds_run (k : nat) (x : Session) (i : nat) (c : Z) :
  synced (page x) ->
  is_Some (displayRoom (st (page x))) ->
  strays x !! i = Some {| count := c; byClick := false |} ->
  countdownIntervalRef (st (page x)) = Some c ->
  (Z.of_nat k < c)%Z ->
  let x' := fst (acts (rounds k i) x) in
  synced (page x')
  ∧ is_Some (displayRoom (st (page x')))
  ∧ strays x' !! i = Some {| count := c - Z.of_nat k; byClick := false |}
  ∧ length (strays x') = length (strays x)
  ∧ countdownIntervalRef (st (page x')) = Some (c - Z.of_nat k)%Z
  ∧ (k ≠ 0%nat -> countdown (st (page x')) = Some (c - Z.of_nat k)%Z)
  ∧ isStartingGameRef x' = isStartingGameRef x
  ∧ refByClick x' = refByClick x
  ∧ snd (acts (rounds k i) x) = [].
Proof.
  revert x c. induction k as [|k IH]; intros x c Hsync Hd Hiv Hi Hk; cbn zeta.
  - cbn. rewrite Z.sub_0_r. by split_and!.
  - unfold rounds. cbn [replicate concat]. fold (rounds k i).
    unfold round. cbn [app]. rewrite !acts_cons. cbn [fst snd].
    destruct (fire_stray x i _ Hsync Hd Hiv)
      as (Hsync1 & Hd1 & _ & Hs1 & Hb1 & [(_ & Hc1 & Hi1 & Hf1 & ->)|(Hle & _)]);
      [|cbn in Hle; lia].
    cbn zeta in *. cbn [count byClick] in *.
    set (x1 := fst (act (StrayFires i) x)) in *.
    rewrite Hi in Hi1.
    destruct (fire_ref x1 c Hsync1 Hd1 Hi1)
      as (Hsync2 & Hd2 & _ & Hs2 & Hb2 & [(_ & Hc2 & Hi2 & Hf2 & ->)|(Hle & _)]);
      [|lia].
    cbn zeta in *.
    set (x2 := fst (act (Shown CountdownFires) x1)) in *.
    assert (i < length (strays x))%nat as Hlen by (by eapply lookup_lt_Some).
    assert (strays x2 !! i = Some {| count := c - 1; byClick := false |}) as Hiv2.
    { rewrite Hs2, Hs1. by apply list_lookup_insert_eq. }
    destruct (IH x2 (c - 1)%Z Hsync2 Hd2 Hiv2 Hi2 ltac:(lia))
      as (Hsy & Hdd & Hst & Hl & Hii & Hcc & Hff & Hbb & Ho).
    cbn zeta in *.
    split_and!; [done|done| | | | | | |by rewrite Ho].
    + rewrite Hst. do 2 f_equal. lia.
    + by rewrite Hl, Hs2, Hs1, length_insert.
    + rewrite Hii. f_equal. lia.
    + intros _. destruct k as [|k'].
      * cbn. by rewrite Hc2.
      * rewrite Hcc by done. f_equal. lia.
    + by rewrite Hff, Hf2, Hf1.
    + by rewrite Hbb, Hb2, Hb1.
Qed.

(** A stray created by a broadcast whose count has reached one keeps
    playing the start cue, once per call. *)
Lemma stray_repeats (n : nat) (x : Session) (i : nat) (c : Z) :
  synced (page x) ->
  is_Some (displayRoom (st (page x))) ->
  strays x !! i = Some {| count := c; byClick := false |} ->
  (c <= 1)%Z ->
  let x' := fst (acts (replicate n (StrayFires i)) x) in
  isStartingGameRef x' = isStartingGameRef x
  ∧ length (strays x') = length (strays x)
  ∧ (n ≠ 0%nat ->
       countdown (st (page x')) = None
       ∧ countdownIntervalRef (st (page x')) = None)
  ∧ snd (acts (replicate n (StrayFires i)) x) = replicate n (Sound "start").
Proof.
  revert x c. induction n as [|n IH]; intros x c Hsync Hd Hiv Hc; cbn zeta.
  - cbn. by split_and!.
  - cbn [replicate]. rewrite acts_cons. cbn [fst snd].
    destruct (fire_stray x i _ Hsync Hd Hiv)
      as (Hsync1 & Hd1 & _ & Hs1 & Hb1 & [(Hlt & _)|(_ & Hc1 & Hi1 & Hf1 & ->)]);
      [cbn in Hlt; lia|].
    cbn zeta in *. cbn [count byClick] in *.
    set (x1 := fst (act (StrayFires i) x)) in *.
    assert (i < length (strays x))%nat as Hlen by (by eapply lookup_lt_Some).
    assert (strays x1 !! i = Some {| count := c - 1; byClick := false |}) as Hiv1.
    { rewrite Hs1. by apply list_lookup_insert_eq. }
    destruct (IH x1 (c - 1)%Z Hsync1 Hd1 Hiv1 ltac:(lia)) as (Hf & Hl & Hn & Ho).
    cbn zeta in *.
    split_and!; [by rewrite Hf, Hf1|by rewrite Hl, Hs1, length_insert| |by rewrite Ho].
    intros _. destruct n as [|n']; [by cbn|]. by apply Hn.
Qed.

(** X24.  When a [gameStart] broadcast is handled between an accepted click
    on "start" and the answer of [startGame], by a handler that closed
    over no countdown, the broadcast starts a countdown interval and the
    answer then stores its own interval over it without [clearInterval]:
    both run.  The broadcast's interval, created first, reaches zero
    first; its callback clears the interval the ref points to, which is
    the click's, so that the end of the countdown leaves
    [isStartingGameRef] raised.  No act takes the stray away: on every
    later call it plays the start cue again, and clicks on "start" are
    still refused after any number of such calls. *)
Theorem broadcast_during_the_await_leaves_a_stray_interval
  (x : Session) (cl : Closure) (r0 g r : Room) (result : Result) (now : Q)
  (n : nat) (l : list Act) :
  synced (page x) ->
  room (st (page x)) = Some r0 ->
  isStartingGameRef x = false ->
  wsHandlers (page x) = Some cl ->
  cl_countdown cl = None ->
  room_code g = room_code r0 ->
  room_code r = room_code r0 ->
  success result = true ->
  res_room result = Some r ->
  let i := length (strays x) in
  let raced :=
    fst (acts [Click; Shown (Broadcast now (GameStart (Some g)));
               Answer (Resolved result)] x) in
  let over := acts (rounds 4 i ++ [StrayFires i]) raced in
  let later := acts (replicate n (StrayFires i)) (fst over) in
  strays raced = strays x ++ [{| count := 5; byClick := false |}]
  ∧ countdownIntervalRef (st (page raced)) = Some 5%Z
  ∧ refByClick raced = true
  ∧ isStartingGameRef raced = true
  ∧ countdown (st (page (fst over))) = None
  ∧ countdownIntervalRef (st (page (fst over))) = None
  ∧ isStartingGameRef (fst over) = true
  ∧ snd over = [Sound "start"]
  ∧ isStartingGameRef (fst later) = true
  ∧ handleStartGame_begin (fst later) = fst later
  ∧ snd later = replicate n (Sound "start")
  ∧ (length (strays raced) <= length (strays (fst (acts l raced))))%nat.
Proof.
  intros Hsync Hroom Hflag Hcl Hcd Hg Hr Hok Hres. cbn zeta.
  assert (Hrefused : ∀ y, isStartingGameRef y = true -> handleStartGame_begin y = y).
  { intros y Hy. unfold handleStartGame_begin. rewrite Hy. by destruct (room (st (page y))). }
  rewrite !acts_cons. cbn [fst snd acts act].
  (* the click *)
  assert (handleStartGame_begin x
          = set_awaited (S (awaited x))
              (set_isStartingGameRef true
                 (with_page
                    (with_st
                       (set_countdownIntervalRef None
                          (set_isInWaitingLobbyRef false (st (page x))))
                       (page x)) x))) as ->
    by (unfold handleStartGame_begin; by rewrite Hroom, Hflag).
  set (begun := set_awaited _ _).
  assert (synced (page begun)) as Hsb by exact Hsync.
  (* the broadcast *)
  assert (shown (Broadcast now (GameStart (Some g))) begun
          = (render
               (set_countdownIntervalRef (Some 5%Z)
                  (setCountdown (Some 5%Z)
                     (setRoomWithInterpolation now (with_status "playing" g)
                        (set_isInWaitingLobbyRef false (st (page begun))))))
               (set_refByClick false begun), [])) as ->.
  { cbn [shown]. change (wsHandlers (page begun)) with (wsHandlers (page x)).
    rewrite Hcl. cbn [handle startsInterval]. unfold handleGameStart.
    by rewrite Hcd. }
  cbn [fst].
  match goal with |- context [render ?s ?y] =>
    destruct (render_same_code s y) as (Hst1 & Hf1 & Hb1 & Hs1 & Ha1 & Hsy1);
      [done| |set (heard := render s y) in *]
  end.
  { cbn [room set_countdownIntervalRef setCountdown].
    rewrite setRoomWithInterpolation_room. cbn. by rewrite Hroom, Hg. }
  assert (countdownIntervalRef (st (page heard)) = Some 5%Z) as Hi1.
  { rewrite Hst1.
    by destruct (seedDisplay_fields
                   (set_countdownIntervalRef (Some 5%Z)
                      (setCountdown (Some 5%Z)
                         (setRoomWithInterpolation now (with_status "playing" g)
                            (set_isInWaitingLobbyRef false (st (page begun)))))))
      as (_ & -> & _). }
  assert (room_code <$> room (st (page heard)) = Some (room_code r0)) as Hrc1.
  { rewrite Hst1, seedDisplay_room.
    cbn [room set_countdownIntervalRef setCountdown].
    rewrite setRoomWithInterpolation_room. cbn. by rewrite Hg. }
  (* the answer *)
  unfold handleStartGame_end. rewrite Ha1. cbn [awaited begun set_awaited set_refByClick].
  rewrite Hok, Hres, Hi1, Hb1. cbn [refByClick set_refByClick].
  match goal with |- context [render ?s ?y] =>
    destruct (render_quiet s y) as (Hst2 & Hf2 & Hb2 & Hs2 & _ & Hsy2);
      [done
      |transitivity (Some (room_code r0)); [cbn; by rewrite Hr|symmetry; exact Hrc1]
      |by eexists
      |set (raced := render s y) in *]
  end.
  cbn [strays set_refByClick set_strays set_awaited isStartingGameRef refByClick]
    in Hs2, Hf2, Hb2.
  rewrite Hs1 in Hs2. rewrite Hf1 in Hf2.
  cbn [strays set_refByClick begun set_awaited set_isStartingGameRef with_page
       isStartingGameRef] in Hs2, Hf2.
  assert (is_Some (displayRoom (st (page raced)))) as Hd2
    by (rewrite Hst2; by eexists).
  assert (countdownIntervalRef (st (page raced)) = Some 5%Z) as Hi2
    by by rewrite Hst2.
  assert (strays raced !! length (strays x)
          = Some {| count := 5; byClick := false |}) as Hiv.
  { rewrite Hs2. by apply list_lookup_middle. }
  (* four rounds and the fifth call of the stray *)
  rewrite acts_app. cbn [fst snd].
  destruct (rounds_run 4 raced (length (strays x)) 5 Hsy2 Hd2 Hiv Hi2 ltac:(lia))
    as (Hsy3 & Hd3 & Hiv3 & Hl3 & Hi3 & _ & Hf3 & Hb3 & ->).
  cbn zeta in *.
  set (x3 := fst (acts (rounds 4 (length (strays x))) raced)) in *.
  rewrite acts_cons. cbn [acts fst snd]. rewrite app_nil_r.
  destruct (fire_stray x3 (length (strays x)) _ Hsy3 Hd3 Hiv3)
    as (Hsy4 & Hd4 & _ & Hs4 & Hb4 & [(Hlt & _)|(_ & Hc4 & Hi4 & Hf4 & ->)]);
    [cbn in Hlt; lia|].
  cbn zeta in *. cbn [count byClick] in *.
  set (over := fst (act (StrayFires (length (strays x))) x3)) in *.
  assert (isStartingGameRef over = true) as Hfo by by rewrite Hf4, Hf3, Hf2.
  assert (strays over !! length (strays x)
          = Some {| count := 5 - Z.of_nat 4 - 1; byClick := false |}) as Hivo.
  { rewrite Hs4. apply list_lookup_insert_eq. by eapply lookup_lt_Some. }
  destruct (stray_repeats n over (length (strays x)) _ Hsy4 Hd4 Hivo ltac:(lia))
    as (Hfl & _ & _ & Hol).
  cbn zeta in *.
  split_and!; [done|done|done|done|done|done|done|done| | |done|].
  - by rewrite Hfl.
  - apply Hrefused. by rewrite Hfl.
  - apply acts_keep_strays.
Qed.

(** *** On the samples *)

(** C5 on the host of [Samples.lobbyRoom]: three calls into the countdown
    the page shows 2 and no loop runs; after the fifth call the countdown
    is [null] and the loop starts. *)
Lemma tick_scheduler_runs_only_without_countdown_witness :
  let during :=
    st (page (fst (acts (SessionSamples.hostStarts
                           ++ replicate 3 (Shown CountdownFires)) start))) in
  let after :=
    st (page (fst (acts (SessionSamples.hostStarts
                           ++ replicate 5 (Shown CountdownFires)) start))) in
  countdown during = Some 2%Z
  ∧ gameLoopEffect (room during) (countdown during) = None
  ∧ countdown after = None
  ∧ is_Some (gameLoopEffect (room after) (countdown after)).
Proof.
  cbn zeta. split; [by vm_compute|]. split; [by vm_compute|].
  split; [by vm_compute|].
  apply (tick_scheduler_runs_only_without_countdown
           (SessionSamples.hostStarts ++ replicate 5 (Shown CountdownFires))).
  by vm_compute.
Defined.

Lemma start_is_refused_until_the_countdown_ends_witness :
  let begun := handleStartGame_begin SessionSamples.inLobby in
  let ended := handleStartGame_end (Resolved (GameSamples.ok Samples.lobbyRoom)) begun in
  let run := acts (replicate 3 (Shown CountdownFires)) ended in
  isStartingGameRef begun = true
  ∧ handleStartGame_begin begun = begun
  ∧ strays ended = []
  ∧ handleStartGame_begin (fst run) = fst run
  ∧ countdownIntervalRef (st (page (fst run))) = Some 2%Z
  ∧ snd run = [].
Proof.
  pose proof (start_is_refused_until_the_countdown_ends
                SessionSamples.inLobby Samples.lobbyRoom
                (Resolved (GameSamples.ok Samples.lobbyRoom)) 3
                eq_refl eq_refl eq_refl)
    as (Hb & Hr & _ & _ & _ & Hok & _).
  destruct (Hok (GameSamples.ok Samples.lobbyRoom) Samples.lobbyRoom
              eq_refl eq_refl eq_refl eq_refl)
    as (_ & _ & _ & Hs & Hlt & _).
  destruct (Hlt ltac:(lia)) as (Hc & Hi & Ho).
  cbn zeta. split_and!; [exact Hb|exact Hr|exact Hs|exact Hc|exact Hi|exact Ho].
Defined.

Lemma broadcast_during_the_await_leaves_a_stray_interval_witness :
  let raced := fst (acts SessionSamples.hostRaces SessionSamples.inLobby) in
  let over := acts (rounds 4 0 ++ [StrayFires 0]) raced in
  let later := acts (replicate 3 (StrayFires 0)) (fst over) in
  strays raced = [{| count := 5; byClick := false |}]
  ∧ countdown (st (page (fst over))) = None
  ∧ countdownIntervalRef (st (page (fst over))) = None
  ∧ isStartingGameRef (fst over) = true
  ∧ snd over = [Sound "start"]
  ∧ handleStartGame_begin (fst later) = fst later
  ∧ snd later = [Sound "start"; Sound "start"; Sound "start"].
Proof.
  pose proof (broadcast_during_the_await_leaves_a_stray_interval
                SessionSamples.inLobby
                (capture (showRoom Samples.lobbyRoom initial))
                Samples.lobbyRoom Samples.lobbyRoom Samples.lobbyRoom
                (GameSamples.ok Samples.lobbyRoom) 1000 3 []
                eq_refl eq_refl eq_refl eq_refl eq_refl eq_refl eq_refl eq_refl eq_refl)
    as (Hs & _ & _ & _ & Hc & Hi & Hf & Ho & _ & Hcl & Hl & _).
  cbn zeta. split_and!; [exact Hs|exact Hc|exact Hi|exact Hf|exact Ho|exact Hcl|exact Hl].
Defined.


End GameSessionSpec.
